(** * RFP-System: the extraction pipeline, the RFP-from-text endpoint and
      the proposal upsert of the mail ingestion command

    A shallow embedding of

    - [backend/rfp/utils.py]: [extract_rfp_from_text] and
      [extract_proposal_from_email];
    - [backend/rfp/views.py]: [create_rfp_from_text], [_parse_budget] and
      [_parse_quantity];
    - [backend/rfp/management/commands/fetch_emails.py]: the transactional
      create-or-update block of [_create_proposal_from_email];
    - [backend/rfp/models.py]: the rows of [RFP], [RFPItem] and [Proposal]
      and the [unique_together] constraint of [Proposal].

    Python values are a tagged union, exceptions are values of an error
    monad, and the database is an explicit state threaded through the ORM
    calls.  What the program obtains from CPython's library or from the
    outside world (the JSON decoder, [float] and [int] on text, [repr],
    [datetime.fromisoformat], the environment, the Gemini service, the
    database backend's own checks) is a field of a record the definitions
    take as an argument, so every theorem holds whatever these answer. *)

From Stdlib Require Import ZArith NArith List String Ascii Bool Lia.
From Stdlib Require Import SpecFloat DecimalString.
Import ListNotations.

Set Implicit Arguments.
Set Warnings "-register-all".

Local Open Scope Z_scope.

(* ===================================================================== *)
(** ** Python strings *)
(* ===================================================================== *)

(** A Python [str] is a sequence of Unicode code points. *)
Definition pystr := list N.

(** The code points of an ASCII literal. *)
Definition py (s : string) : pystr :=
  map N_of_ascii (list_ascii_of_string s).

(** The same, with every apostrophe of the literal standing for a double
    quote (code point 34); used to write JSON texts. *)
Definition pyq (s : string) : pystr :=
  map (fun c => if N.eqb c 39 then 34%N else c) (py s).

Fixpoint pystr_eqb (a b : pystr) : bool :=
  match a, b with
  | [], [] => true
  | x :: a', y :: b' => N.eqb x y && pystr_eqb a' b'
  | _, _ => false
  end.

(** [str.isspace] on one code point: the set CPython's [str.strip()] removes
    when it is called without an argument. *)
Definition isspace (c : N) : bool :=
  existsb (N.eqb c)
    [ 0x09; 0x0a; 0x0b; 0x0c; 0x0d; 0x1c; 0x1d; 0x1e; 0x1f; 0x20; 0x85; 0xa0;
      0x1680; 0x2000; 0x2001; 0x2002; 0x2003; 0x2004; 0x2005; 0x2006; 0x2007;
      0x2008; 0x2009; 0x200a; 0x2028; 0x2029; 0x202f; 0x205f; 0x3000 ]%N.

Fixpoint lstrip (s : pystr) : pystr :=
  match s with
  | [] => []
  | c :: t => if isspace c then lstrip t else s
  end.

Definition rstrip (s : pystr) : pystr := rev (lstrip (rev s)).

(** [s.strip()] *)
Definition strip (s : pystr) : pystr := rstrip (lstrip s).

(** [s.startswith(p)] *)
Fixpoint startswith (p s : pystr) : bool :=
  match p, s with
  | [], _ => true
  | x :: p', y :: s' => N.eqb x y && startswith p' s'
  | _ :: _, [] => false
  end.

(** [s.endswith(p)] *)
Definition endswith (p s : pystr) : bool := startswith (rev p) (rev s).

(** [s[n:]] for a non-negative literal [n]. *)
Definition slice_from (n : nat) (s : pystr) : pystr := skipn n s.

(** [s[:-n]] for a positive literal [n]. *)
Definition slice_to_minus (n : nat) (s : pystr) : pystr :=
  firstn (List.length s - n) s.

(** [p in s] *)
Fixpoint contains (p s : pystr) : bool :=
  startswith p s ||
  match s with
  | [] => false
  | _ :: t => contains p t
  end.

(** [not s] for a string. *)
Definition str_is_empty (s : pystr) : bool :=
  match s with [] => true | _ :: _ => false end.

(** [str(z)] for an [int]. *)
Definition str_of_int (z : Z) : pystr := py (NilEmpty.string_of_int (Z.to_int z)).

(* ===================================================================== *)
(** ** Python values *)
(* ===================================================================== *)

(** A Python [float] is an IEEE-754 binary64 number. *)
Definition float := spec_float.

(** The values [json.loads] can build. A [dict] keeps its items in insertion
    order; a key is looked up from the front. *)
Inductive pyval : Type :=
| PNone
| PBool (b : bool)
| PInt (z : Z)
| PFloat (f : float)
| PStr (s : pystr)
| PList (l : list pyval)
| PDict (d : list (pystr * pyval)).

Fixpoint assoc (k : pystr) (d : list (pystr * pyval)) : option pyval :=
  match d with
  | [] => None
  | (k', v) :: d' => if pystr_eqb k k' then Some v else assoc k d'
  end.

(** [k in d] *)
Definition dict_contains (k : pystr) (d : list (pystr * pyval)) : bool :=
  match assoc k d with Some _ => true | None => false end.

(** [d.get(k, default)] on the items of a [dict]. *)
Definition items_get (d : list (pystr * pyval)) (k : pystr) (default : pyval) : pyval :=
  match assoc k d with Some v => v | None => default end.

(** Truth value of an object, as [if v:] and [v or w] test it. *)
Definition truthy (v : pyval) : bool :=
  match v with
  | PNone => false
  | PBool b => b
  | PInt z => negb (z =? 0)
  | PFloat (S754_zero _) => false
  | PFloat _ => true
  | PStr s => negb (str_is_empty s)
  | PList l => match l with [] => false | _ => true end
  | PDict d => match d with [] => false | _ => true end
  end.

(** [v or w] *)
Definition py_or (v w : pyval) : pyval := if truthy v then v else w.

(** [v is None] *)
Definition is_none (v : pyval) : bool :=
  match v with PNone => true | _ => false end.

(* ===================================================================== *)
(** ** Exceptions *)
(* ===================================================================== *)

(** The classes the program names in an [except] clause or lets a builtin
    raise, and any other class derived from [Exception] and from none of
    those listed (by name). [JSONDecodeError] derives from [ValueError].
    Signals that derive from
    [BaseException] only (a keyboard interrupt, interpreter exit) are not
    outcomes of a call and are outside the model. *)
Inductive exc_class : Type :=
| ValueError
| TypeError
| OverflowError
| AttributeError
| JSONDecodeError
| InvalidOperation
| IntegrityError
| OtherException (name : pystr).

(** [type(e).__name__] *)
Definition class_name (c : exc_class) : pystr :=
  match c with
  | ValueError => py "ValueError"
  | TypeError => py "TypeError"
  | OverflowError => py "OverflowError"
  | AttributeError => py "AttributeError"
  | JSONDecodeError => py "JSONDecodeError"
  | InvalidOperation => py "InvalidOperation"
  | IntegrityError => py "IntegrityError"
  | OtherException n => n
  end.

Record exception : Type := Exc {
  exc_type : exc_class;
  exc_msg : pystr                       (* str(e) *)
}.

(** The handlers of the program. *)
Inductive handler : Type :=
| ExceptValueError                      (* except ValueError *)
| ExceptValueOrTypeError                (* except (ValueError, TypeError) *)
| ExceptDecimal                         (* except (InvalidOperation, ValueError, TypeError) *)
| ExceptJSONDecodeError                 (* except json.JSONDecodeError *)
| ExceptException.                      (* except Exception *)

Definition is_value_error (c : exc_class) : bool :=
  match c with ValueError | JSONDecodeError => true | _ => false end.

Definition catches (h : handler) (c : exc_class) : bool :=
  match h with
  | ExceptValueError => is_value_error c
  | ExceptValueOrTypeError =>
      is_value_error c || match c with TypeError => true | _ => false end
  | ExceptDecimal =>
      is_value_error c ||
      match c with TypeError | InvalidOperation => true | _ => false end
  | ExceptJSONDecodeError => match c with JSONDecodeError => true | _ => false end
  | ExceptException => true
  end.

(** The outcome of a computation that may raise. *)
Inductive result (A : Type) : Type :=
| Ok (a : A)
| Raise (e : exception).

Arguments Ok {A} a.
Arguments Raise {A} e.

Definition bind {A B} (r : result A) (k : A -> result B) : result B :=
  match r with
  | Ok a => k a
  | Raise e => Raise e
  end.

Declare Scope py_scope.
Delimit Scope py_scope with pyr.
Notation "x <- c ;; k" := (bind c (fun x => k))
  (at level 100, c at next level, right associativity) : py_scope.
Local Open Scope py_scope.

(** [try: body  except h: on_error] *)
Definition try_except {A} (body : result A) (h : handler) (on_error : exception -> result A)
  : result A :=
  match body with
  | Ok a => Ok a
  | Raise e => if catches h (exc_type e) then on_error e else Raise e
  end.

Definition is_ok {A} (r : result A) : bool :=
  match r with Ok _ => true | Raise _ => false end.

(* ===================================================================== *)
(** ** What CPython's library answers *)
(* ===================================================================== *)

(** The library routines the program calls whose algorithms are not part of
    the repository. [None] stands for the routine's [ValueError]. *)
Record PyRuntime : Type := {
  float_of_str : pystr -> option float;   (* float(s) on a str *)
  int_of_str : pystr -> option Z;         (* int(s) on a str *)
  repr_float : float -> pystr;            (* str(f) on a float *)
  str_of_container : pyval -> pystr;      (* str(v) on a list or a dict *)
  fromisoformat_accepts : pystr -> bool;  (* datetime.fromisoformat(s) returns *)
  json_loads : pystr -> result pyval;     (* json.loads(s) *)
  error_message : pystr -> pyval -> pystr (* str(e) of the error a builtin raises on v *)
}.

(** [float(z)] on an [int]: the nearest binary64 number, ties to even;
    [None] when the rounded value is out of range ([OverflowError]). *)
Definition float_of_int (z : Z) : option float :=
  match binary_normalize 53 1024 z 0 false with
  | S754_infinity _ => None
  | f => Some f
  end.

(** [int(f)] on a finite [float]: truncation towards zero. *)
Definition trunc_float (s : bool) (m : positive) (e : Z) : Z :=
  let a := if 0 <=? e then Z.pos m * 2 ^ e else Z.pos m / 2 ^ (- e) in
  if s then - a else a.

Section Builtins.

Context (rt : PyRuntime).

Definition raise_builtin {A} (c : exc_class) (fn : pystr) (v : pyval) : result A :=
  Raise (Exc c (error_message rt fn v)).

(** [float(v)] *)
Definition py_float (v : pyval) : result float :=
  match v with
  | PBool b => Ok (binary_normalize 53 1024 (if b then 1 else 0) 0 false)
  | PInt z =>
      match float_of_int z with
      | Some f => Ok f
      | None => raise_builtin OverflowError (py "float") v
      end
  | PFloat f => Ok f
  | PStr s =>
      match float_of_str rt s with
      | Some f => Ok f
      | None => raise_builtin ValueError (py "float") v
      end
  | PNone | PList _ | PDict _ => raise_builtin TypeError (py "float") v
  end.

(** [int(v)] *)
Definition py_int (v : pyval) : result Z :=
  match v with
  | PBool b => Ok (if b then 1 else 0)
  | PInt z => Ok z
  | PFloat (S754_zero _) => Ok 0
  | PFloat (S754_finite s m e) => Ok (trunc_float s m e)
  | PFloat (S754_infinity _) => raise_builtin OverflowError (py "int") v
  | PFloat S754_nan => raise_builtin ValueError (py "int") v
  | PStr s =>
      match int_of_str rt s with
      | Some z => Ok z
      | None => raise_builtin ValueError (py "int") v
      end
  | PNone | PList _ | PDict _ => raise_builtin TypeError (py "int") v
  end.

(** [str(v)] *)
Definition py_str (v : pyval) : pystr :=
  match v with
  | PNone => py "None"
  | PBool true => py "True"
  | PBool false => py "False"
  | PInt z => str_of_int z
  | PFloat f => repr_float rt f
  | PStr s => s
  | PList _ | PDict _ => str_of_container rt v
  end.

(** [datetime.fromisoformat(v)], for its exceptions only: the program
    discards the date it returns. *)
Definition fromisoformat (v : pyval) : result unit :=
  match v with
  | PStr s =>
      if fromisoformat_accepts rt s then Ok tt
      else raise_builtin ValueError (py "fromisoformat") v
  | _ => raise_builtin TypeError (py "fromisoformat") v
  end.

(** [v.get(k, default)]: only a [dict] has the method. *)
Definition py_get (v : pyval) (k : pystr) (default : pyval) : result pyval :=
  match v with
  | PDict d => Ok (items_get d k default)
  | _ => raise_builtin AttributeError (py "get") v
  end.

(** The elements [for item in v] visits: those of a list, the keys of a
    [dict], the characters of a [str]; anything else is not iterable. *)
Definition py_iter (v : pyval) : result (list pyval) :=
  match v with
  | PList l => Ok l
  | PDict d => Ok (map (fun kv => PStr (fst kv)) d)
  | PStr s => Ok (map (fun c => PStr [c]) s)
  | PNone | PBool _ | PInt _ | PFloat _ => raise_builtin TypeError (py "iter") v
  end.

End Builtins.

(* ===================================================================== *)
(** ** utils.py: the extraction engine *)
(* ===================================================================== *)

(** The two instruction prompts are constant templates around the caller's
    text; a prompt is identified by its template and that text. *)
Inductive prompt : Type :=
| RfpPrompt (natural_language_input : pystr)
| ProposalPrompt (email_body : pystr).

(** What the process environment and the Gemini service answer.
    [generate_content] stands for configuring the client, building the
    model, the call itself and reading [response.text]: it raises, or gives
    no text ([None]: a false response or a false [response.text]), or gives
    the text. *)
Record World : Type := {
  GEMINI_API_KEY : option pystr;                         (* os.getenv('GEMINI_API_KEY') *)
  generate_content : prompt -> result (option pystr)
}.

(** One entry of the validated [items] list. *)
Record rfp_item : Type := {
  name : pystr;
  quantity : Z;
  specifications : pystr
}.

(** The dictionary [extract_rfp_from_text] returns. [raw_response] is the
    key only the JSON-failure dictionary has. *)
Module RfpResult.
Record t : Type := {
  success : bool;
  error : option pystr;
  title : pyval;
  budget : option float;
  deadline : pyval;
  items : list rfp_item;
  raw_response : option pystr
}.
End RfpResult.

(** The dictionary [extract_proposal_from_email] returns. *)
Module ProposalResult.
Record t : Type := {
  success : bool;
  error : option pystr;
  price : option float;
  payment_terms : pyval;
  warranty : pyval;
  raw_response : option pystr
}.
End ProposalResult.

(** The dictionary of every failing return of [extract_rfp_from_text]. *)
Definition rfp_failure (msg : pystr) (raw : option pystr) : RfpResult.t :=
  {| RfpResult.success := false;
     RfpResult.error := Some msg;
     RfpResult.title := PNone;
     RfpResult.budget := None;
     RfpResult.deadline := PNone;
     RfpResult.items := [];
     RfpResult.raw_response := raw |}.

(** The dictionary of every failing return of [extract_proposal_from_email]. *)
Definition proposal_failure (msg : pystr) (raw : option pystr) : ProposalResult.t :=
  {| ProposalResult.success := false;
     ProposalResult.error := Some msg;
     ProposalResult.price := None;
     ProposalResult.payment_terms := PNone;
     ProposalResult.warranty := PNone;
     ProposalResult.raw_response := raw |}.

(** [not s or not s.strip()] *)
Definition is_blank (s : pystr) : bool :=
  str_is_empty s || str_is_empty (strip s).

(** [not api_key] *)
Definition key_missing (k : option pystr) : bool :=
  match k with
  | None => true
  | Some s => str_is_empty s
  end.

(** Lines 131-138 and 309-316: removal of a Markdown code fence. *)
Definition clean_response_text (text : pystr) : pystr :=
  let response_text := strip text in
  let response_text :=
    if startswith (py "```json") response_text then slice_from 7 response_text
    else response_text in
  let response_text :=
    if startswith (py "```") response_text then slice_from 3 response_text
    else response_text in
  let response_text :=
    if endswith (py "```") response_text then slice_to_minus 3 response_text
    else response_text in
  strip response_text.

(** [f'{error_type}: {error_message}'] *)
Definition describe (e : exception) : pystr :=
  class_name (exc_type e) ++ py ": " ++ exc_msg e.

Section Extraction.

Context (rt : PyRuntime) (w : World).

(** Lines 165-169 and 341-345: the numeric field. *)
Definition validate_number (v : pyval) : result (option float) :=
  if is_none v then Ok None
  else
    try_except (f <- py_float rt v ;; Ok (Some f))
      ExceptValueOrTypeError (fun _ => Ok None).

(** Lines 172-176: the deadline. *)
Definition validate_deadline (v : pyval) : result pyval :=
  if truthy v then
    try_except (_ <- fromisoformat rt v ;; Ok v)
      ExceptValueOrTypeError (fun _ => Ok PNone)
  else Ok v.

(** Lines 179-188: the loop over the items. *)
Fixpoint validate_items (l : list pyval) : result (list rfp_item) :=
  match l with
  | [] => Ok []
  | item :: rest =>
      match item with
      | PDict d =>
          if dict_contains (py "name") d then
            q <- py_int rt (items_get d (py "quantity") (PInt 1)) ;;
            let validated_item :=
              {| name := py_str rt (items_get d (py "name") (PStr []));
                 quantity := q;
                 specifications :=
                   py_str rt (items_get d (py "specifications") (PStr [])) |} in
            validated_items <- validate_items rest ;;
            Ok (validated_item :: validated_items)
          else validate_items rest
      | _ => validate_items rest
      end
  end.

(** Lines 155-190: from the decoded object to the returned dictionary. *)
Definition normalize_rfp (extracted_data : pyval) : result RfpResult.t :=
  title <- py_get rt extracted_data (py "title") (PStr (py "Untitled RFP")) ;;
  budget <- py_get rt extracted_data (py "budget") PNone ;;
  deadline <- py_get rt extracted_data (py "deadline") PNone ;;
  items <- py_get rt extracted_data (py "items") (PList []) ;;
  budget <- validate_number budget ;;
  deadline <- validate_deadline deadline ;;
  entries <- py_iter rt items ;;
  validated_items <- validate_items entries ;;
  Ok {| RfpResult.success := true;
        RfpResult.error := None;
        RfpResult.title := title;
        RfpResult.budget := budget;
        RfpResult.deadline := deadline;
        RfpResult.items := validated_items;
        RfpResult.raw_response := None |}.

(** Lines 332-347. *)
Definition normalize_proposal (extracted_data : pyval) : result ProposalResult.t :=
  price <- py_get rt extracted_data (py "price") PNone ;;
  payment_terms <- py_get rt extracted_data (py "payment_terms") PNone ;;
  warranty <- py_get rt extracted_data (py "warranty") PNone ;;
  price <- validate_number price ;;
  Ok {| ProposalResult.success := true;
        ProposalResult.error := None;
        ProposalResult.price := price;
        ProposalResult.payment_terms := payment_terms;
        ProposalResult.warranty := warranty;
        ProposalResult.raw_response := None |}.

(** [extract_rfp_from_text] *)
Definition extract_rfp_from_text (natural_language_input : pystr)
  : result RfpResult.t :=
  if is_blank natural_language_input then
    Raise (Exc ValueError (py "Natural language input cannot be empty"))
  else
    let api_key := GEMINI_API_KEY w in
    if key_missing api_key then
      Ok (rfp_failure (py "GEMINI_API_KEY environment variable not set") None)
    else
      try_except
        (response <- generate_content w (RfpPrompt natural_language_input) ;;
         match response with
         | None => Ok (rfp_failure (py "Empty response from Gemini API") None)
         | Some text =>
             if str_is_empty text then
               Ok (rfp_failure (py "Empty response from Gemini API") None)
             else
               let response_text := clean_response_text text in
               match json_loads rt response_text with
               | Raise e =>
                   if catches ExceptJSONDecodeError (exc_type e) then
                     Ok (rfp_failure
                           (py "Failed to parse JSON response: " ++ exc_msg e)
                           (Some response_text))
                   else Raise e
               | Ok extracted_data => normalize_rfp extracted_data
               end
         end)
        ExceptException
        (fun e => Ok (rfp_failure (describe e) None)).

(** [extract_proposal_from_email] *)
Definition extract_proposal_from_email (email_body : pystr)
  : result ProposalResult.t :=
  if is_blank email_body then
    Raise (Exc ValueError (py "Email body cannot be empty"))
  else
    let api_key := GEMINI_API_KEY w in
    if key_missing api_key then
      Ok (proposal_failure (py "GEMINI_API_KEY environment variable not set") None)
    else
      try_except
        (response <- generate_content w (ProposalPrompt email_body) ;;
         match response with
         | None => Ok (proposal_failure (py "Empty response from Gemini API") None)
         | Some text =>
             if str_is_empty text then
               Ok (proposal_failure (py "Empty response from Gemini API") None)
             else
               let response_text := clean_response_text text in
               match json_loads rt response_text with
               | Raise e =>
                   if catches ExceptJSONDecodeError (exc_type e) then
                     Ok (proposal_failure
                           (py "Failed to parse JSON response: " ++ exc_msg e)
                           (Some response_text))
                   else Raise e
               | Ok extracted_data => normalize_proposal extracted_data
               end
         end)
        ExceptException
        (fun e => Ok (proposal_failure (describe e) None)).

End Extraction.

(* ===================================================================== *)
(** ** models.py: the record store *)
(* ===================================================================== *)

(** [Decimal(s)]: the decimal number a text writes. The program builds one
    only from [str(f)] of a float [f], which [Decimal] always accepts. *)
Inductive decimal : Type :=
| Decimal (text : pystr).

Inductive rfp_status : Type := DRAFT | SENT | EVALUATING.

(** The rows, with the values the program hands to the ORM. The timestamp
    columns ([created_at], [submitted_at], [updated_at]), which the store
    fills in itself, are left out: a row here is the row of the table but
    for them, and two stores that are equal here can still differ in the
    [updated_at] of a row that was saved in between. *)
Module RFP.
Record t : Type := {
  id : Z;
  title : pyval;
  natural_language_input : pystr;
  budget : option decimal;
  status : rfp_status
}.
End RFP.

Module RFPItem.
Record t : Type := {
  id : Z;
  rfp : Z;
  name : pystr;
  quantity : Z;
  specifications : pystr
}.
End RFPItem.

Module Proposal.
Record t : Type := {
  id : Z;
  rfp : Z;
  vendor : Z;
  raw_email_content : pystr;
  price : option decimal;
  payment_terms : pyval;
  warranty : pyval
}.
End Proposal.

(** The three tables and their primary-key sequences. *)
Record Database : Type := {
  rfps : list RFP.t;
  rfp_items : list RFPItem.t;
  proposals : list Proposal.t;
  next_rfp_id : Z;
  next_item_id : Z;
  next_proposal_id : Z
}.

(** What the database backend itself rejects when a row is written (a
    column out of range, a missing value, a lost connection): the error of
    the write, if any, in the state in which it is attempted. *)
Record Backend : Type := {
  rfp_insert_error : Database -> RFP.t -> option exception;
  item_insert_error : Database -> RFPItem.t -> option exception;
  proposal_write_error : Database -> Proposal.t -> option exception
}.

(** A computation on the store: it returns or raises, and leaves a store. *)
Definition orm (A : Type) : Type := Database -> result A * Database.

Definition orm_ret {A} (a : A) : orm A := fun db => (Ok a, db).

Definition orm_bind {A B} (c : orm A) (k : A -> orm B) : orm B :=
  fun db =>
    match c db with
    | (Ok a, db') => k a db'
    | (Raise e, db') => (Raise e, db')
    end.

(** A computation that does not touch the store. *)
Definition orm_lift {A} (r : result A) : orm A := fun db => (r, db).

Notation "x <~ c ;; k" := (orm_bind c (fun x => k))
  (at level 100, c at next level, right associativity) : py_scope.

(** [with transaction.atomic(): body]: when the body raises, the store is
    the one the block was entered with, and the exception goes on. *)
Definition atomic {A} (body : orm A) : orm A :=
  fun db =>
    match body db with
    | (Ok a, db') => (Ok a, db')
    | (Raise e, _) => (Raise e, db)
    end.

Definition same_pair (rfp vendor : Z) (p : Proposal.t) : bool :=
  (Proposal.rfp p =? rfp) && (Proposal.vendor p =? vendor).

(** [Proposal.objects.filter(rfp=rfp, vendor=vendor)] *)
Definition proposals_of (rfp vendor : Z) (db : Database) : list Proposal.t :=
  filter (same_pair rfp vendor) (proposals db).

Section Store.

Context (be : Backend).

(** [RFP.objects.create(...)] *)
Definition RFP_create (title : pyval) (natural_language_input : pystr)
    (budget : option decimal) (status : rfp_status) : orm RFP.t :=
  fun db =>
    let row := {| RFP.id := next_rfp_id db;
                  RFP.title := title;
                  RFP.natural_language_input := natural_language_input;
                  RFP.budget := budget;
                  RFP.status := status |} in
    match rfp_insert_error be db row with
    | Some e => (Raise e, db)
    | None =>
        (Ok row,
         {| rfps := rfps db ++ [row];
            rfp_items := rfp_items db;
            proposals := proposals db;
            next_rfp_id := next_rfp_id db + 1;
            next_item_id := next_item_id db;
            next_proposal_id := next_proposal_id db |})
    end.

(** [RFPItem.objects.create(...)] *)
Definition RFPItem_create (rfp : Z) (name : pystr) (quantity : Z)
    (specifications : pystr) : orm RFPItem.t :=
  fun db =>
    let row := {| RFPItem.id := next_item_id db;
                  RFPItem.rfp := rfp;
                  RFPItem.name := name;
                  RFPItem.quantity := quantity;
                  RFPItem.specifications := specifications |} in
    match item_insert_error be db row with
    | Some e => (Raise e, db)
    | None =>
        (Ok row,
         {| rfps := rfps db;
            rfp_items := rfp_items db ++ [row];
            proposals := proposals db;
            next_rfp_id := next_rfp_id db;
            next_item_id := next_item_id db + 1;
            next_proposal_id := next_proposal_id db |})
    end.

Definition with_proposals (db : Database) (ps : list Proposal.t) (next : Z) : Database :=
  {| rfps := rfps db;
     rfp_items := rfp_items db;
     proposals := ps;
     next_rfp_id := next_rfp_id db;
     next_item_id := next_item_id db;
     next_proposal_id := next |}.

Definition unique_violation : exception :=
  Exc IntegrityError (py "UNIQUE constraint failed: rfp_proposal.rfp_id, rfp_proposal.vendor_id").

(** [Proposal.objects.create(...)]: [unique_together] refuses a second
    row for the pair. *)
Definition Proposal_create (rfp vendor : Z) (price : option decimal)
    (payment_terms warranty : pyval) (raw_email_content : pystr) : orm Proposal.t :=
  fun db =>
    let row := {| Proposal.id := next_proposal_id db;
                  Proposal.rfp := rfp;
                  Proposal.vendor := vendor;
                  Proposal.raw_email_content := raw_email_content;
                  Proposal.price := price;
                  Proposal.payment_terms := payment_terms;
                  Proposal.warranty := warranty |} in
    if existsb (same_pair rfp vendor) (proposals db) then (Raise unique_violation, db)
    else
      match proposal_write_error be db row with
      | Some e => (Raise e, db)
      | None =>
          (Ok row, with_proposals db (proposals db ++ [row]) (next_proposal_id db + 1))
      end.

(** [proposal.save()] of a row read from the table: the row with its
    primary key is replaced. *)
Definition Proposal_save (row : Proposal.t) : orm unit :=
  fun db =>
    if existsb (fun p => negb (Proposal.id p =? Proposal.id row)
                         && same_pair (Proposal.rfp row) (Proposal.vendor row) p)
         (proposals db)
    then (Raise unique_violation, db)
    else
      match proposal_write_error be db row with
      | Some e => (Raise e, db)
      | None =>
          (Ok tt,
           with_proposals db
             (map (fun p => if Proposal.id p =? Proposal.id row then row else p)
                (proposals db))
             (next_proposal_id db))
      end.

End Store.

(* ===================================================================== *)
(** ** views.py: create_rfp_from_text *)
(* ===================================================================== *)

(** The body of a [Response]. *)
Inductive response_body : Type :=
| ErrorBody (error : pystr) (details : option pystr)
| CreatedBody (rfp : RFP.t) (items : list RFPItem.t)
    (extracted_budget : option float) (extracted_deadline : pyval) (items_count : nat).

Record Response : Type := {
  status_code : Z;
  body : response_body
}.

Definition HTTP_201_CREATED : Z := 201.
Definition HTTP_400_BAD_REQUEST : Z := 400.
Definition HTTP_422_UNPROCESSABLE_ENTITY : Z := 422.
Definition HTTP_500_INTERNAL_SERVER_ERROR : Z := 500.

Section Views.

Context (rt : PyRuntime) (w : World) (be : Backend).

(** [_parse_budget], on the values [create_rfp_from_text] passes: the
    [budget] of a successful extraction, [None] or a float. [Decimal]
    accepts the [str] of every float, so the function's [except] clause
    is not entered on them. *)
Definition _parse_budget (budget_value : option float) : option decimal :=
  match budget_value with
  | None => None
  | Some f => Some (Decimal (py_str rt (PFloat f)))
  end.

(** [_parse_quantity] *)
Definition _parse_quantity (quantity_value : pyval) : result Z :=
  try_except
    (qty <- py_int rt quantity_value ;;
     Ok (Z.max 1 qty))
    ExceptValueOrTypeError (fun _ => Ok 1).

(** Lines 390-396: one [RFPItem] row per extracted item. *)
Fixpoint create_items (rfp : Z) (items_data : list rfp_item) : orm unit :=
  match items_data with
  | [] => orm_ret tt
  | item_data :: rest =>
      q <~ orm_lift (_parse_quantity (PInt (quantity item_data))) ;;
      _ <~ RFPItem_create be rfp (name item_data) q (specifications item_data) ;;
      create_items rfp rest
  end.

(** [RFPSerializer(rfp).data]: the row with its items. *)
Definition serialize (rfp : RFP.t) : orm (RFP.t * list RFPItem.t) :=
  fun db =>
    (Ok (rfp, filter (fun i => RFPItem.rfp i =? RFP.id rfp) (rfp_items db)), db).

(** Lines 379-411: the block under [transaction.atomic()]. *)
Definition persist_rfp (text : pystr) (extraction_result : RfpResult.t) : orm Response :=
  rfp <~ RFP_create be (RfpResult.title extraction_result) text
           (_parse_budget (RfpResult.budget extraction_result)) DRAFT ;;
  let items_data := RfpResult.items extraction_result in
  _ <~ create_items (RFP.id rfp) items_data ;;
  data <~ serialize rfp ;;
  orm_ret {| status_code := HTTP_201_CREATED;
             body := CreatedBody (fst data) (snd data)
                       (RfpResult.budget extraction_result)
                       (RfpResult.deadline extraction_result)
                       (List.length items_data) |}.

(** Lines 365-411: the body of the [try]. *)
Definition create_rfp_try (text : pystr) : orm Response :=
  extraction_result <~ orm_lift (extract_rfp_from_text rt w text) ;;
  if negb (RfpResult.success extraction_result) then
    orm_ret {| status_code := HTTP_422_UNPROCESSABLE_ENTITY;
               body := ErrorBody (py "Failed to extract RFP data")
                         (RfpResult.error extraction_result) |}
  else atomic (persist_rfp text extraction_result).

Definition bad_request (msg : pystr) : Response :=
  {| status_code := HTTP_400_BAD_REQUEST; body := ErrorBody msg None |}.

(** [create_rfp_from_text], on [request.data.get('text')]. *)
Definition create_rfp_from_text (text : pyval) (db : Database) : Response * Database :=
  if negb (truthy text) then (bad_request (py "Text field is required"), db)
  else
    match text with
    | PStr s =>
        if str_is_empty (strip s) then
          (bad_request (py "Text must be a non-empty string"), db)
        else
          match create_rfp_try s db with
          | (Ok response, db') => (response, db')
          | (Raise e, db') =>
              if catches ExceptValueError (exc_type e) then
                (bad_request (py "Validation error: " ++ exc_msg e), db')
              else
                ({| status_code := HTTP_500_INTERNAL_SERVER_ERROR;
                    body := ErrorBody (py "Internal server error: " ++ exc_msg e) None |},
                 db')
          end
    | _ => (bad_request (py "Text must be a non-empty string"), db)
    end.

End Views.

(* ===================================================================== *)
(** ** fetch_emails.py: the proposal upsert *)
(* ===================================================================== *)

Section Ingestion.

Context (rt : PyRuntime) (be : Backend).

(** [Decimal(str(x))] of an extracted float. *)
Definition decimal_of_float (x : float) : decimal :=
  Decimal (py_str rt (PFloat x)).

(** Lines 493-497: the assignments to the row that was found. *)
Definition update_fields (existing_proposal : Proposal.t)
    (extracted_data : ProposalResult.t) (body : pystr) : Proposal.t :=
  {| Proposal.id := Proposal.id existing_proposal;
     Proposal.rfp := Proposal.rfp existing_proposal;
     Proposal.vendor := Proposal.vendor existing_proposal;
     Proposal.raw_email_content := body;
     Proposal.price :=
       match ProposalResult.price extracted_data with
       | Some x => Some (decimal_of_float x)
       | None => Proposal.price existing_proposal
       end;
     Proposal.payment_terms :=
       py_or (ProposalResult.payment_terms extracted_data) (PStr []);
     Proposal.warranty :=
       py_or (ProposalResult.warranty extracted_data) (PStr []) |}.

(** Line 510: the price of a new row, kept when it is true. *)
Definition new_price (extracted_data : ProposalResult.t) : option decimal :=
  match ProposalResult.price extracted_data with
  | Some x => if truthy (PFloat x) then Some (decimal_of_float x) else None
  | None => None
  end.

(** Lines 479-521 of [_create_proposal_from_email]: the create-or-update
    of the proposal of [rfp] and [vendor] under [transaction.atomic()],
    reached once the vendor and the RFP are found and the extraction
    succeeded. [.first()] is the head of the rows of the pair; there is
    at most one in a table that satisfies [unique_together], so the order
    in which the query sorts them plays no part. *)
Definition upsert_proposal (rfp vendor : Z) (extracted_data : ProposalResult.t)
    (body : pystr) : orm unit :=
  atomic
    (fun db =>
       match proposals_of rfp vendor db with
       | existing_proposal :: _ =>
           Proposal_save be (update_fields existing_proposal extracted_data body) db
       | [] =>
           (_ <~ Proposal_create be rfp vendor (new_price extracted_data)
                   (py_or (ProposalResult.payment_terms extracted_data) (PStr []))
                   (py_or (ProposalResult.warranty extracted_data) (PStr []))
                   body ;;
            orm_ret tt) db
       end).

(** The rest of the function after the extraction succeeded: [True] when
    the block committed, [False] when [except Exception] caught the
    error. *)
Definition create_proposal_step (rfp vendor : Z) (extracted_data : ProposalResult.t)
    (body : pystr) (db : Database) : bool * Database :=
  match upsert_proposal rfp vendor extracted_data body db with
  | (Ok _, db') => (true, db')
  | (Raise _, db') => (false, db')
  end.

End Ingestion.

(* ===================================================================== *)
(** ** The words of the specification *)
(* ===================================================================== *)

(** "Empty or whitespace-only". *)
Definition whitespace_only (s : pystr) : bool := forallb isspace s.

Definition digit (c : N) : option Z :=
  if ((48 <=? c) && (c <=? 57))%N then Some (Z.of_N c - 48) else None.

Definition two_digits (a b : N) : option Z :=
  match digit a, digit b with
  | Some x, Some y => Some (10 * x + y)
  | _, _ => None
  end.

Definition four_digits (a b c d : N) : option Z :=
  match two_digits a b, two_digits c d with
  | Some x, Some y => Some (100 * x + y)
  | _, _ => None
  end.

Definition is_leap (y : Z) : bool :=
  (y mod 4 =? 0) && (negb (y mod 100 =? 0) || (y mod 400 =? 0)).

Definition days_in_month (y m : Z) : Z :=
  if m =? 2 then (if is_leap y then 29 else 28)
  else if (m =? 4) || (m =? 6) || (m =? 9) || (m =? 11) then 30
  else 31.

Definition valid_ymd (y m d : option Z) : bool :=
  match y, m, d with
  | Some y, Some m, Some d =>
      (1 <=? y) && (1 <=? m) && (m <=? 12) && (1 <=? d) && (d <=? days_in_month y m)
  | _, _, _ => false
  end.

(** "An ISO-8601 calendar date": [YYYY-MM-DD], or [YYYYMMDD] in the basic
    format, naming a day that exists. *)
Definition iso_calendar_date (s : pystr) : bool :=
  match s with
  | [y1; y2; y3; y4; h1; m1; m2; h2; d1; d2] =>
      N.eqb h1 45 && N.eqb h2 45 &&
      valid_ymd (four_digits y1 y2 y3 y4) (two_digits m1 m2) (two_digits d1 d2)
  | [y1; y2; y3; y4; m1; m2; d1; d2] =>
      valid_ymd (four_digits y1 y2 y3 y4) (two_digits m1 m2) (two_digits d1 d2)
  | _ => false
  end.

(** The first and the last character a text that [json.loads] decodes can
    have once the blanks around it are removed: it opens with a brace, a
    bracket, a quote, a minus sign, a digit or the first letter of [true],
    [false], [null], [NaN] or [Infinity], and closes accordingly. *)
Definition json_first (c : N) : bool :=
  existsb (N.eqb c)
    [123; 91; 34; 45; 48; 49; 50; 51; 52; 53; 54; 55; 56; 57; 116; 102; 110; 78; 73]%N.

Definition json_last (c : N) : bool :=
  existsb (N.eqb c)
    [125; 93; 34; 48; 49; 50; 51; 52; 53; 54; 55; 56; 57; 101; 108; 78; 121]%N.

Definition json_delimited (t : pystr) : bool :=
  match strip t, rev (strip t) with
  | a :: _, z :: _ => json_first a && json_last z
  | _, _ => false
  end.

(** [t] between a leading fence, tagged [json] or not, and a trailing
    fence, with blanks [sep1] and [sep2] (line breaks, usually) inside. *)
Definition fenced (tagged : bool) (sep1 sep2 t : pystr) : pystr :=
  py "```" ++ (if tagged then py "json" else []) ++ sep1 ++ t ++ sep2 ++ py "```".

(* ===================================================================== *)
(** ** Notions the statements use *)
(* ===================================================================== *)

(** The world in which the service answers [text]. *)
Definition answering (w : World) (text : pystr) : World :=
  {| GEMINI_API_KEY := GEMINI_API_KEY w;
     generate_content := fun _ => Ok (Some text) |}.

(** The table invariant: primary keys are distinct and below the sequence,
    and no two rows have the same (RFP, Vendor) pair. *)
Definition pair_of (p : Proposal.t) : Z * Z := (Proposal.rfp p, Proposal.vendor p).

Record proposals_wf (db : Database) : Prop := {
  wf_keys : NoDup (map Proposal.id (proposals db));
  wf_fresh : Forall (fun p => Proposal.id p < next_proposal_id db) (proposals db);
  wf_unique : NoDup (map pair_of (proposals db))
}.

(** The deadline the specification describes: the value when it is a text
    that writes an ISO-8601 calendar date, [None] otherwise. *)
Definition deadline_by_spec (v : pyval) : pyval :=
  match v with
  | PStr s => if iso_calendar_date s then v else PNone
  | _ => PNone
  end.

(** The deadline [datetime.fromisoformat] leaves: the value when it is a
    text the parser accepts, [None] otherwise. *)
Definition deadline_by_parser (rt : PyRuntime) (v : pyval) : pyval :=
  match v with
  | PStr s => if fromisoformat_accepts rt s then v else PNone
  | _ => PNone
  end.

(** The entries of a decoded list that the loop keeps: the objects with a
    [name]. *)
Definition named_entry (v : pyval) : bool :=
  match v with
  | PDict d => dict_contains (py "name") d
  | _ => false
  end.

(** The quantity of a kept entry, before the conversion. *)
Definition raw_quantity (v : pyval) : pyval :=
  match v with
  | PDict d => items_get d (py "quantity") (PInt 1)
  | _ => PInt 1
  end.

(** The validated item of a kept entry whose quantity converts to [q]. *)
Definition validated (rt : PyRuntime) (v : pyval) (q : Z) : rfp_item :=
  match v with
  | PDict d =>
      {| name := py_str rt (items_get d (py "name") (PStr []));
         quantity := q;
         specifications := py_str rt (items_get d (py "specifications") (PStr [])) |}
  | _ => {| name := []; quantity := q; specifications := [] |}
  end.


Definition backtick : N := 96.

(** The row [Proposal.objects.create] writes on the create path. *)
Definition created_row (rt : PyRuntime) (db : Database) (rfp vendor : Z)
    (extracted_data : ProposalResult.t) (body : pystr) : Proposal.t :=
  {| Proposal.id := next_proposal_id db;
     Proposal.rfp := rfp;
     Proposal.vendor := vendor;
     Proposal.raw_email_content := body;
     Proposal.price := new_price rt extracted_data;
     Proposal.payment_terms := py_or (ProposalResult.payment_terms extracted_data) (PStr []);
     Proposal.warranty := py_or (ProposalResult.warranty extracted_data) (PStr []) |}.

(** [save] replaces the row that has the primary key of [row]. *)
Definition replace_row (row : Proposal.t) (ps : list Proposal.t) : list Proposal.t :=
  map (fun p => if Proposal.id p =? Proposal.id row then row else p) ps.

(** "A JSON text": the grammar of RFC 8259, and the three literals [NaN],
    [Infinity] and [-Infinity] that Python's decoder reads besides. *)
Definition json_blank (c : N) : bool := existsb (N.eqb c) [32; 9; 10; 13]%N.

Definition json_ws (s : pystr) : bool := forallb json_blank s.

Definition is_digit (c : N) : bool := ((48 <=? c) && (c <=? 57))%N.

Definition is_hex (c : N) : bool :=
  (is_digit c || ((65 <=? c) && (c <=? 70)) || ((97 <=? c) && (c <=? 102)))%N.

(** The characters between the quotes of a string. *)
Inductive json_chars : pystr -> Prop :=
| chars_nil : json_chars []
| chars_plain (c : N) (s : pystr) :
    (32 <=? c)%N = true -> c <> 34%N -> c <> 92%N ->
    json_chars s -> json_chars (c :: s)
| chars_escape (c : N) (s : pystr) :
    existsb (N.eqb c) [34; 92; 47; 98; 102; 110; 114; 116]%N = true ->
    json_chars s -> json_chars (92%N :: c :: s)
| chars_unicode (a b c d : N) (s : pystr) :
    is_hex a && is_hex b && is_hex c && is_hex d = true ->
    json_chars s -> json_chars (92%N :: 117%N :: a :: b :: c :: d :: s).

(** One digit or more. *)
Definition json_digits (s : pystr) : Prop :=
  s <> [] /\ forallb is_digit s = true.

(** [0], or a digit other than [0] followed by digits. *)
Definition json_int (s : pystr) : Prop :=
  s = [48%N] \/
  exists d ds, s = d :: ds /\ is_digit d = true /\ d <> 48%N /\ forallb is_digit ds = true.

Definition json_frac (s : pystr) : Prop :=
  s = [] \/ exists ds, s = 46%N :: ds /\ json_digits ds.

Definition json_exp (s : pystr) : Prop :=
  s = [] \/
  exists e sign ds,
    s = e :: sign ++ ds /\ (e = 101%N \/ e = 69%N) /\
    (sign = [] \/ sign = [43%N] \/ sign = [45%N]) /\ json_digits ds.

Definition json_number (s : pystr) : Prop :=
  exists minus i f e,
    s = minus ++ i ++ f ++ e /\ (minus = [] \/ minus = [45%N]) /\
    json_int i /\ json_frac f /\ json_exp e.

Inductive json_value : pystr -> Prop :=
| value_null : json_value (py "null")
| value_true : json_value (py "true")
| value_false : json_value (py "false")
| value_nan : json_value (py "NaN")
| value_infinity : json_value (py "Infinity")
| value_minus_infinity : json_value (py "-Infinity")
| value_number (s : pystr) : json_number s -> json_value s
| value_string (s : pystr) : json_chars s -> json_value (34%N :: s ++ [34%N])
| value_empty_array (ws : pystr) :
    json_ws ws = true -> json_value (91%N :: ws ++ [93%N])
| value_array (es : pystr) :
    json_elements es -> json_value (91%N :: es ++ [93%N])
| value_empty_object (ws : pystr) :
    json_ws ws = true -> json_value (123%N :: ws ++ [125%N])
| value_object (ms : pystr) :
    json_members ms -> json_value (123%N :: ms ++ [125%N])
with json_elements : pystr -> Prop :=
| elements_last (ws1 v ws2 : pystr) :
    json_ws ws1 = true -> json_value v -> json_ws ws2 = true ->
    json_elements (ws1 ++ v ++ ws2)
| elements_more (ws1 v ws2 es : pystr) :
    json_ws ws1 = true -> json_value v -> json_ws ws2 = true ->
    json_elements es ->
    json_elements (ws1 ++ v ++ ws2 ++ 44%N :: es)
with json_members : pystr -> Prop :=
| members_last (ws1 k ws2 ws3 v ws4 : pystr) :
    json_ws ws1 = true -> json_chars k -> json_ws ws2 = true ->
    json_ws ws3 = true -> json_value v -> json_ws ws4 = true ->
    json_members (ws1 ++ 34%N :: k ++ 34%N :: ws2 ++ 58%N :: ws3 ++ v ++ ws4)
| members_more (ws1 k ws2 ws3 v ws4 ms : pystr) :
    json_ws ws1 = true -> json_chars k -> json_ws ws2 = true ->
    json_ws ws3 = true -> json_value v -> json_ws ws4 = true ->
    json_members ms ->
    json_members (ws1 ++ 34%N :: k ++ 34%N :: ws2 ++ 58%N :: ws3 ++ v ++ ws4 ++ 44%N :: ms).

(** A value with blanks around it. *)
Definition json_text (t : pystr) : Prop :=
  exists ws1 v ws2,
    t = ws1 ++ v ++ ws2 /\ json_ws ws1 = true /\ json_value v /\ json_ws ws2 = true.

(** A text that opens, and one that closes, as a JSON value does. *)
Definition opens_well (s : pystr) : Prop :=
  exists a r, s = a :: r /\ json_first a = true.

Definition closes_well (s : pystr) : Prop :=
  exists z r, rev s = z :: r /\ json_last z = true.

(* ===================================================================== *)
(** ** A runtime, worlds and a backend to run the program on *)
(* ===================================================================== *)

(** CPython's answers on the fragment the examples below use: integer
    literals for [int] and [float] on text, integral floats below [1e16]
    for [str], dates and date-times written [YYYY-MM-DD] and
    [YYYY-MM-DDTHH:MM:SS] for [fromisoformat], and a table of decoded texts
    for [json.loads] (a text outside the table is reported as undecodable).
    Nothing is proved from these choices but the examples themselves. *)
Module Demo.

Fixpoint digits_value (acc : Z) (s : pystr) : option Z :=
  match s with
  | [] => Some acc
  | c :: t =>
      match digit c with
      | Some d => digits_value (10 * acc + d) t
      | None => None
      end
  end.

Definition int_literal (s : pystr) : option Z :=
  match strip s with
  | [] => None
  | c :: t =>
      if N.eqb c 45 then
        match t with [] => None | _ => option_map Z.opp (digits_value 0 t) end
      else if N.eqb c 43 then
        match t with [] => None | _ => digits_value 0 t end
      else digits_value 0 (c :: t)
  end.

Definition repr_integral (f : float) : pystr :=
  match f with
  | S754_zero false => py "0.0"
  | S754_zero true => py "-0.0"
  | S754_infinity false => py "inf"
  | S754_infinity true => py "-inf"
  | S754_nan => py "nan"
  | S754_finite s m e =>
      let z := trunc_float s m e in
      if ((0 <=? e) || (Z.pos m mod 2 ^ (- e) =? 0)) && (Z.abs z <? 10 ^ 16)
      then str_of_int z ++ py ".0"
      else py "<float>"
  end.

Definition valid_hms (h m s : option Z) : bool :=
  match h, m, s with
  | Some h, Some m, Some s => (h <? 24) && (m <? 60) && (s <? 60)
  | _, _, _ => false
  end.

Definition iso_date_or_datetime (s : pystr) : bool :=
  match s with
  | [_; _; _; _; _; _; _; _; _; _] => iso_calendar_date s
  | y1 :: y2 :: y3 :: y4 :: a :: m1 :: m2 :: b :: d1 :: d2 :: _ :: [h1; h2; c1; n1; n2; c2; s1; s2] =>
      iso_calendar_date [y1; y2; y3; y4; a; m1; m2; b; d1; d2] &&
      N.eqb c1 58 && N.eqb c2 58 &&
      valid_hms (two_digits h1 h2) (two_digits n1 n2) (two_digits s1 s2)
  | _ => false
  end.

Fixpoint lookup {A} (table : list (pystr * A)) (k : pystr) : option A :=
  match table with
  | [] => None
  | (k', v) :: rest => if pystr_eqb k k' then Some v else lookup rest k
  end.

Definition runtime (decoded : list (pystr * pyval)) : PyRuntime :=
  {| float_of_str :=
       fun s => option_map (fun z => binary_normalize 53 1024 z 0 false) (int_literal s);
     int_of_str := int_literal;
     repr_float := repr_integral;
     str_of_container := fun _ => py "<container>";
     fromisoformat_accepts := iso_date_or_datetime;
     json_loads :=
       fun s =>
         match lookup decoded s with
         | Some v => Ok v
         | None => Raise (Exc JSONDecodeError (py "Expecting value: line 1 column 1 (char 0)"))
         end;
     error_message := fun fn _ => fn ++ py "() cannot convert the argument" |}.

(** A world with the credential set, in which the service answers [text]. *)
Definition world (text : pystr) : World :=
  {| GEMINI_API_KEY := Some (py "test_key");
     generate_content := fun _ => Ok (Some text) |}.

(** A world with the credential set, in which the call to the service
    raises [Exception("API Error")], as in [test_api_exception_handling]. *)
Definition failing_world : World :=
  {| GEMINI_API_KEY := Some (py "test_key");
     generate_content :=
       fun _ => Raise (Exc (OtherException (py "Exception")) (py "API Error")) |}.

(** A world without the credential. *)
Definition world_without_key : World :=
  {| GEMINI_API_KEY := None;
     generate_content := fun _ => Ok (Some (py "{}")) |}.

(** A backend that stores integers of at most 63 bits, as SQLite does,
    and accepts everything else. *)
Definition backend : Backend :=
  {| rfp_insert_error := fun _ _ => None;
     item_insert_error :=
       fun _ row =>
         if RFPItem.quantity row <? 2 ^ 63 then None
         else Some (Exc OverflowError (py "Python int too large to convert to SQLite INTEGER"));
     proposal_write_error := fun _ _ => None |}.

Definition empty_db : Database :=
  {| rfps := []; rfp_items := []; proposals := [];
     next_rfp_id := 1; next_item_id := 1; next_proposal_id := 1 |}.

(** The float of an integer in range. *)
Definition flt (z : Z) : float := binary_normalize 53 1024 z 0 false.

End Demo.

(** The data of the examples: upstream texts with the objects they decode
    to, taken from [tests.py] where the test suite has them. *)
Module Samples.

Definition newline : pystr := [10%N].

(** [test_markdown_json_cleanup] *)
Definition test_rfp_text : pystr :=
  pyq "{'title': 'Test RFP', 'budget': 10000, 'deadline': null, 'items': []}".

Definition test_rfp_object : pyval :=
  PDict [ (py "title", PStr (py "Test RFP"));
          (py "budget", PInt 10000);
          (py "deadline", PNone);
          (py "items", PList []) ].

(** [test_successful_extraction], with one item. *)
Definition laptops_text : pystr :=
  pyq "{'title': 'Office Laptop Purchase', 'budget': 75000, 'deadline': '2024-03-15', 'items': [{'name': 'Laptops', 'quantity': 50, 'specifications': '16GB RAM'}]}".

Definition laptops_object : pyval :=
  PDict [ (py "title", PStr (py "Office Laptop Purchase"));
          (py "budget", PInt 75000);
          (py "deadline", PStr (py "2024-03-15"));
          (py "items",
           PList [ PDict [ (py "name", PStr (py "Laptops"));
                           (py "quantity", PInt 50);
                           (py "specifications", PStr (py "16GB RAM")) ] ]) ].

(** An item whose quantity the model left out as [null]. *)
Definition null_quantity_text : pystr :=
  pyq "{'title': 'Office Laptop Purchase', 'items': [{'name': 'Laptops', 'quantity': null}]}".

Definition null_quantity_object : pyval :=
  PDict [ (py "title", PStr (py "Office Laptop Purchase"));
          (py "items",
           PList [ PDict [ (py "name", PStr (py "Laptops"));
                           (py "quantity", PNone) ] ]) ].

(** A budget of 10 to the power 400, written out as JSON allows. *)
Definition huge : Z := 10 ^ 400.

Definition huge_budget_text : pystr :=
  pyq "{'title': 'Fleet', 'budget': " ++ str_of_int huge ++ py ", 'items': []}".

Definition huge_budget_object : pyval :=
  PDict [ (py "title", PStr (py "Fleet"));
          (py "budget", PInt huge);
          (py "items", PList []) ].

(** A price of 10 to the power 400. *)
Definition huge_price_text : pystr :=
  pyq "{'price': " ++ str_of_int huge ++ pyq ", 'payment_terms': 'Net 30', 'warranty': null}".

Definition huge_price_object : pyval :=
  PDict [ (py "price", PInt huge);
          (py "payment_terms", PStr (py "Net 30"));
          (py "warranty", PNone) ].

(** An item with more units than a 64-bit column holds. *)
Definition many_units_text : pystr :=
  pyq "{'title': 'Bolts', 'items': [{'name': 'Bolt', 'quantity': 1000000000000000000000}]}".

Definition many_units_object : pyval :=
  PDict [ (py "title", PStr (py "Bolts"));
          (py "items",
           PList [ PDict [ (py "name", PStr (py "Bolt"));
                           (py "quantity", PInt (10 ^ 21)) ] ]) ].

Definition decoded : list (pystr * pyval) :=
  [ (test_rfp_text, test_rfp_object);
    (laptops_text, laptops_object);
    (null_quantity_text, null_quantity_object);
    (huge_budget_text, huge_budget_object);
    (huge_price_text, huge_price_object);
    (many_units_text, many_units_object) ].

Definition runtime : PyRuntime := Demo.runtime decoded.

(** What the request for bolts goes through: the extraction result, the
    RFP row, the store once that row is written, and the error of the
    backend on the item row. *)
Definition bolts_result : RfpResult.t :=
  {| RfpResult.success := true;
     RfpResult.error := None;
     RfpResult.title := PStr (py "Bolts");
     RfpResult.budget := None;
     RfpResult.deadline := PNone;
     RfpResult.items :=
       [ {| name := py "Bolt"; quantity := 10 ^ 21; specifications := [] |} ];
     RfpResult.raw_response := None |}.

Definition bolts_row : RFP.t :=
  {| RFP.id := 1;
     RFP.title := PStr (py "Bolts");
     RFP.natural_language_input := py "We need bolts";
     RFP.budget := None;
     RFP.status := DRAFT |}.

Definition bolts_store : Database :=
  {| rfps := [bolts_row]; rfp_items := []; proposals := [];
     next_rfp_id := 2; next_item_id := 1; next_proposal_id := 1 |}.

Definition bolts_error : exception :=
  Exc OverflowError (py "Python int too large to convert to SQLite INTEGER").

(** Two successful proposal extractions: a quote, then a reply that
    states terms but no price. *)
Definition first_quote : ProposalResult.t :=
  {| ProposalResult.success := true;
     ProposalResult.error := None;
     ProposalResult.price := Some (Demo.flt 68500);
     ProposalResult.payment_terms := PStr (py "Net 30");
     ProposalResult.warranty := PStr (py "1 year");
     ProposalResult.raw_response := None |}.

Definition second_quote : ProposalResult.t :=
  {| ProposalResult.success := true;
     ProposalResult.error := None;
     ProposalResult.price := None;
     ProposalResult.payment_terms := PStr (py "Net 45");
     ProposalResult.warranty := PNone;
     ProposalResult.raw_response := None |}.

End Samples.

(** Every character of a literal without quote, backslash or control
    character is a plain character of a JSON string. *)
Ltac json_chars_of_literal :=
  repeat first
    [ apply chars_nil
    | apply chars_plain; [reflexivity | discriminate | discriminate | ] ].

(* ===================================================================== *)
(** * More of the program: the mail ingestion command, the invitation
      mails and the comparison

    The embedding goes on with

    - [backend/rfp/management/commands/fetch_emails.py]: [handle],
      [_get_email_body], [_extract_email_address],
      [_extract_rfp_id_from_subject] and the whole of
      [_create_proposal_from_email];
    - [backend/rfp/views.py]: [send_rfp_emails] and [get_rfp_comparison].

    The regular expressions of the command are run by a backtracking
    matcher written here; the mail server, the mail service and what the
    Unicode database and the collation of the database answer are, as
    before, fields of records the definitions take as arguments. *)
(* ===================================================================== *)

(* ===================================================================== *)
(** ** Tactics of the later proofs *)
(* ===================================================================== *)

(** One step of a chain of binds that is known to return. *)
Ltac step_bind :=
  match goal with
  | H : bind ?c _ = Ok _ |- _ =>
      let E := fresh "E" in
      destruct c eqn:E; cbn [bind] in H; [|discriminate H]
  end.


(* ===================================================================== *)
(** ** Regular expressions, as fetch_emails.py uses them *)
(* ===================================================================== *)

(** What the Unicode database answers beyond ASCII: whether a code point
    from 128 on is a decimal digit ([str.isdecimal], the class [\d]) and
    whether it is alphanumeric ([str.isalnum], the class [\w] with the
    underscore). *)
Record Unicode : Type := {
  decimal_beyond_ascii : N -> bool;
  alnum_beyond_ascii : N -> bool
}.

Definition ascii_digit (c : N) : bool := ((48 <=? c) && (c <=? 57))%N.

Definition ascii_upper (c : N) : bool := ((65 <=? c) && (c <=? 90))%N.

Definition ascii_lower (c : N) : bool := ((97 <=? c) && (c <=? 122))%N.

(** [.] without [re.DOTALL]: any character but a line feed. *)
Definition re_dot (c : N) : bool := negb (N.eqb c 10).

(** [\s] on text: the characters of [str.isspace]. *)
Definition re_space (c : N) : bool := isspace c.

(** [\d] on text. *)
Definition re_digit (u : Unicode) (c : N) : bool :=
  ascii_digit c || ((128 <=? c)%N && decimal_beyond_ascii u c).

(** [\w] on text. *)
Definition re_word (u : Unicode) (c : N) : bool :=
  ascii_digit c || ascii_upper c || ascii_lower c || N.eqb c 95 ||
  ((128 <=? c)%N && alnum_beyond_ascii u c).

(** [[\w\.-]] *)
Definition re_address_char (u : Unicode) (c : N) : bool :=
  re_word u c || N.eqb c 46 || N.eqb c 45.

Definition to_lower (c : N) : N := if ascii_upper c then (c + 32)%N else c.

(** A literal character of a pattern compiled with [re.IGNORECASE]: an
    ASCII letter matches its two cases, and besides the letter [i] the
    dotted capital and the dotless small i (U+0130, U+0131), the letter [k]
    the Kelvin sign (U+212A) and the letter [s] the long s (U+017F); any
    other ASCII character matches itself. *)
Definition re_ignorecase (c : N) (x : N) : bool :=
  N.eqb (to_lower x) (to_lower c) ||
  (N.eqb (to_lower c) 105 && (N.eqb x 304 || N.eqb x 305)) ||
  (N.eqb (to_lower c) 107 && N.eqb x 8490) ||
  (N.eqb (to_lower c) 115 && N.eqb x 383).

(** The patterns the program writes: a class, a sequence, an alternative,
    an optional part, the greedy and the lazy repetitions of a class, and
    the capturing group (each pattern whose group is read has one). *)
Inductive regex : Type :=
| Eps
| Chr (p : N -> bool)
| Seq (a b : regex)
| Alt (a b : regex)
| Opt (a : regex)
| Star (p : N -> bool)
| Plus (p : N -> bool)
| PlusLazy (p : N -> bool)
| Group (a : regex).

(** A literal, and a literal under [re.IGNORECASE]. *)
Fixpoint lit (s : pystr) : regex :=
  match s with
  | [] => Eps
  | c :: t => Seq (Chr (N.eqb c)) (lit t)
  end.

Fixpoint lit_i (s : pystr) : regex :=
  match s with
  | [] => Eps
  | c :: t => Seq (Chr (re_ignorecase c)) (lit_i t)
  end.

(** The backtracking matcher: [k] is what remains to be matched after the
    pattern, and the first way that lets [k] succeed wins. A greedy
    repetition tries the longest run first, a lazy one the shortest. *)
Fixpoint star_k {X} (p : N -> bool) (s : pystr) (k : pystr -> option X) : option X :=
  match s with
  | c :: t =>
      if p c then
        match star_k p t k with
        | Some x => Some x
        | None => k s
        end
      else k s
  | [] => k []
  end.

Fixpoint plus_lazy_k {X} (p : N -> bool) (s : pystr) (k : pystr -> option X) : option X :=
  match s with
  | c :: t =>
      if p c then
        match k t with
        | Some x => Some x
        | None => plus_lazy_k p t k
        end
      else None
  | [] => None
  end.

(** The text between the start [s] of a match and what is left of it. *)
Definition consumed (s rest : pystr) : pystr :=
  firstn (List.length s - List.length rest) s.

Fixpoint run {X} (r : regex) (s : pystr) (g : pystr)
    (k : pystr -> pystr -> option X) : option X :=
  match r with
  | Eps => k s g
  | Chr p =>
      match s with
      | c :: t => if p c then k t g else None
      | [] => None
      end
  | Seq a b => run a s g (fun s' g' => run b s' g' k)
  | Alt a b =>
      match run a s g k with
      | Some x => Some x
      | None => run b s g k
      end
  | Opt a =>
      match run a s g k with
      | Some x => Some x
      | None => k s g
      end
  | Star p => star_k p s (fun s' => k s' g)
  | Plus p =>
      match s with
      | c :: t => if p c then star_k p t (fun s' => k s' g) else None
      | [] => None
      end
  | PlusLazy p => plus_lazy_k p s (fun s' => k s' g)
  | Group a => run a s g (fun s' _ => k s' (consumed s s'))
  end.

(** A match object: [group(0)], [group(1)] and the text after the match. *)
Record Match : Type := {
  group0 : pystr;
  group1 : pystr;
  after : pystr
}.

(** [re.match(r, s)]: a match at the start of [s]. *)
Definition re_match (r : regex) (s : pystr) : option Match :=
  run r s [] (fun rest g => Some {| group0 := consumed s rest; group1 := g; after := rest |}).

(** [re.search(r, s)]: the match at the leftmost position that has one. *)
Fixpoint re_search (r : regex) (s : pystr) : option Match :=
  match re_match r s with
  | Some m => Some m
  | None =>
      match s with
      | [] => None
      | _ :: t => re_search r t
      end
  end.

(** [re.sub(r, '', s)] for a pattern anchored with [^]: the match at the
    start, if any, is removed, and no later position can match. *)
Definition re_sub_anchored (r : regex) (s : pystr) : pystr :=
  match re_match r s with
  | Some m => after m
  | None => s
  end.

(** [<(.+?)>] *)
Definition angle_pattern : regex :=
  Seq (Chr (N.eqb 60)) (Seq (Group (PlusLazy re_dot)) (Chr (N.eqb 62))).

(** [[\w\.-]+@[\w\.-]+\.\w+] *)
Definition address_pattern (u : Unicode) : regex :=
  Seq (Plus (re_address_char u))
    (Seq (Chr (N.eqb 64))
       (Seq (Plus (re_address_char u))
          (Seq (Chr (N.eqb 46)) (Plus (re_word u))))).

(** [RFP\s*#(\d+)], [re.IGNORECASE] *)
Definition hash_pattern (u : Unicode) : regex :=
  Seq (lit_i (py "RFP"))
    (Seq (Star re_space) (Seq (Chr (N.eqb 35)) (Group (Plus (re_digit u))))).

(** [RFP\s+ID\s*:\s*#?(\d+)], [re.IGNORECASE] *)
Definition id_pattern (u : Unicode) : regex :=
  Seq (lit_i (py "RFP"))
    (Seq (Plus re_space)
       (Seq (lit_i (py "ID"))
          (Seq (Star re_space)
             (Seq (Chr (N.eqb 58))
                (Seq (Star re_space)
                   (Seq (Opt (Chr (N.eqb 35))) (Group (Plus (re_digit u))))))))).

(** [^(Re|Fwd?|Fw):\s*], [re.IGNORECASE]; its group is not read. *)
Definition reply_prefix_pattern : regex :=
  Seq (Alt (lit_i (py "Re"))
         (Alt (Seq (lit_i (py "Fw")) (Opt (Chr (re_ignorecase 100))))
            (lit_i (py "Fw"))))
    (Seq (Chr (N.eqb 58)) (Star re_space)).

(** [RFP\s+Invitation:\s*(.+)], [re.IGNORECASE] *)
Definition invitation_pattern : regex :=
  Seq (lit_i (py "RFP"))
    (Seq (Plus re_space)
       (Seq (lit_i (py "Invitation:"))
          (Seq (Star re_space) (Group (Plus re_dot))))).

(** [_extract_email_address] *)
Definition _extract_email_address (u : Unicode) (sender : pystr) : pystr :=
  match re_search angle_pattern sender with
  | Some m => strip (group1 m)
  | None =>
      match re_search (address_pattern u) sender with
      | Some email_match => strip (group0 email_match)
      | None => strip sender
      end
  end.

(* ===================================================================== *)
(** ** fetch_emails.py: from a message to a proposal *)
(* ===================================================================== *)

(** A row of [Vendor], without its timestamps. *)
Module Vendor.
Record t : Type := {
  id : Z;
  name : pystr;
  email : pystr;
  contact_person : pystr
}.
End Vendor.

(** What the database's collation answers: [iexact field value] is the
    lookup [field__iexact=value]. *)
Record Collation : Type := {
  iexact : pystr -> pystr -> bool
}.

(** One part of the walk of a message: its content type, the text of its
    [Content-Disposition] header (empty when it has none), and what
    [part.get_payload(decode=True).decode()] gives. *)
Record Part : Type := {
  content_type : pystr;
  content_disposition : pystr;
  payload : result pystr
}.

(** A message as [_get_email_body] reads it: the parts [msg.walk()] yields
    when it is multipart; otherwise its decoded payload and the text
    [str(msg.get_payload())] that is used when decoding fails. *)
Inductive Message : Type :=
| Multipart (walk : list Part)
| Simple (decoded : result pystr) (undecoded : pystr).

(** Lines 312-331: the loop over the parts, with [body] as it stands. A bare
    [except] catches whatever the decoding raises. *)
Fixpoint walk_parts (parts : list Part) (body : pystr) : pystr :=
  match parts with
  | [] => body
  | part :: rest =>
      if contains (py "attachment") (content_disposition part) then
        walk_parts rest body
      else if pystr_eqb (content_type part) (py "text/plain") then
        match payload part with
        | Ok text => text
        | Raise _ => walk_parts rest body
        end
      else if pystr_eqb (content_type part) (py "text/html") && str_is_empty body then
        match payload part with
        | Ok text => walk_parts rest text
        | Raise _ => walk_parts rest body
        end
      else walk_parts rest body
  end.

(** [_get_email_body] *)
Definition _get_email_body (msg : Message) : pystr :=
  let body :=
    match msg with
    | Multipart parts => walk_parts parts []
    | Simple decoded undecoded =>
        match decoded with
        | Ok text => text
        | Raise _ => undecoded
        end
    end in
  strip body.

(** The text a [CharField] or [TextField] holds for a value that was
    stored: the value when it is text, [str] of it otherwise; a null is
    no text. *)
Definition stored_text (rt : PyRuntime) (v : pyval) : option pystr :=
  match v with
  | PNone => None
  | _ => Some (py_str rt v)
  end.

Section Resolution.

Context (rt : PyRuntime) (u : Unicode) (coll : Collation).

(** [RFP.objects.filter(title__iexact=title).first()]: the rows are sorted
    by [-created_at], the latest created first; the table keeps them in the
    order of creation. *)
Definition rfp_by_title (title : pystr) (db : Database) : option RFP.t :=
  hd_error
    (filter (fun row =>
               match stored_text rt (RFP.title row) with
               | Some t => iexact coll t title
               | None => false
               end)
       (rev (rfps db))).

(** [RFP.objects.get(id=rfp_id)]; [None] is [RFP.DoesNotExist]. *)
Definition rfp_by_id (rfp_id : Z) (db : Database) : option RFP.t :=
  find (fun row => RFP.id row =? rfp_id) (rfps db).

(** [_extract_rfp_id_from_subject] *)
Definition _extract_rfp_id_from_subject (subject : pystr) (db : Database)
  : result (option Z) :=
  match re_search (hash_pattern u) subject with
  | Some m => n <- py_int rt (PStr (group1 m)) ;; Ok (Some n)
  | None =>
      match re_search (id_pattern u) subject with
      | Some m => n <- py_int rt (PStr (group1 m)) ;; Ok (Some n)
      | None =>
          let clean_subject := strip (re_sub_anchored reply_prefix_pattern subject) in
          match re_search invitation_pattern clean_subject with
          | Some m =>
              let title := strip (group1 m) in
              match rfp_by_title title db with
              | Some rfp => Ok (Some (RFP.id rfp))
              | None => Ok None
              end
          | None => Ok None
          end
      end
  end.

Context (w : World) (be : Backend) (vendors : list Vendor.t).

(** [Vendor.objects.filter(email__iexact=sender_email).first()]; [vendors]
    is the table as the model's ordering (by name) lists it. *)
Definition vendor_by_email (sender_email : pystr) : option Vendor.t :=
  hd_error (filter (fun v => iexact coll (Vendor.email v) sender_email) vendors).

(** [_create_proposal_from_email]: every [return False] of the function,
    the exceptions that its [except Exception] turns into [False], and the
    upsert. *)
Definition _create_proposal_from_email (sender_email subject body : pystr)
    (db : Database) : bool * Database :=
  match vendor_by_email sender_email with
  | None => (false, db)
  | Some vendor =>
      match _extract_rfp_id_from_subject subject db with
      | Raise _ => (false, db)
      | Ok None => (false, db)
      | Ok (Some rfp_id) =>
          if rfp_id =? 0 then (false, db)
          else
            match rfp_by_id rfp_id db with
            | None => (false, db)
            | Some rfp =>
                match extract_proposal_from_email rt w body with
                | Raise _ => (false, db)
                | Ok extracted_data =>
                    if negb (ProposalResult.success extracted_data) then (false, db)
                    else
                      create_proposal_step rt be (RFP.id rfp) (Vendor.id vendor)
                        extracted_data body db
                end
            end
      end
  end.

End Resolution.

(* ===================================================================== *)
(** ** fetch_emails.py: the run of the command *)
(* ===================================================================== *)

(** The options of the command line. *)
Record Options : Type := {
  mark_seen : bool;
  limit : Z;
  create_proposals : bool
}.

(** A fetched message after [email.message_from_bytes]: its [Subject] and
    [From] headers as [_decode_header] gives them, and the message. *)
Record Mail : Type := {
  subject_header : pystr;
  from_header : pystr;
  msg : Message
}.

(** The mail server as the run meets it. [login_error] is the error of
    connecting, logging in or selecting the inbox, whichever fails first;
    [search_unseen] is the answer to [mail.search(None, 'UNSEEN')], whether
    its status is [OK] and the ids of [messages[0].split()]; [fetch] the
    answer to [mail.fetch(id, '(RFC822)')], whether its status is [OK] and
    the tuples of [msg_data], each parsed, or the error its parsing raises;
    [store_error] the error of [mail.store(id, '+FLAGS', '\\Seen')], and
    [logout_error] that of [mail.logout()]. *)
Record Imap : Type := {
  login_error : option exception;
  search_unseen : result (bool * list N);
  fetch : N -> result (bool * list (result Mail));
  store_error : N -> option exception;
  logout_error : option exception
}.

(** What a run has done so far: the store, the ids marked as seen, and the
    two counters. *)
Record Progress : Type := {
  store : Database;
  seen : list N;
  proposals_created : nat;
  proposals_failed : nat
}.

(** How a run ends: it returns after the summary and the logout, it returns
    earlier, or an error reaches one of the two handlers at the end of
    [handle], which print it. *)
Inductive Ending : Type :=
| Completed
| ReturnedEarly
| Failed (e : exception).

(** [l[:n]] *)
Definition slice_to {A} (n : Z) (l : list A) : list A :=
  if 0 <=? n then firstn (Z.to_nat n) l
  else firstn (List.length l - Z.to_nat (- n)) l.

Section Run.

Context (rt : PyRuntime) (u : Unicode) (coll : Collation) (w : World) (be : Backend)
  (vendors : list Vendor.t) (imap : Imap) (options : Options).

(** Lines 152-212: one parsed message. *)
Definition process_mail (m : Mail) (p : Progress) : Progress :=
  let subject := subject_header m in
  let sender := from_header m in
  let sender_email := _extract_email_address u sender in
  let body := _get_email_body (msg m) in
  if create_proposals options && negb (str_is_empty body) then
    let (success, db) :=
      _create_proposal_from_email rt u coll w be vendors sender_email subject body
        (store p) in
    if success then
      {| store := db; seen := seen p;
         proposals_created := S (proposals_created p);
         proposals_failed := proposals_failed p |}
    else
      {| store := db; seen := seen p;
         proposals_created := proposals_created p;
         proposals_failed := S (proposals_failed p) |}
  else p.

(** Lines 147-212: the tuples of one answer; what was done before an error
    stays done. *)
Fixpoint process_parts (msg_data : list (result Mail)) (p : Progress)
  : option exception * Progress :=
  match msg_data with
  | [] => (None, p)
  | Raise e :: _ => (Some e, p)
  | Ok m :: rest => process_parts rest (process_mail m p)
  end.

(** Lines 131-217: the loop over the ids. An answer whose status is not
    [OK] is skipped with [continue], before the flag is set. The progress
    made when an error ends the loop stays. *)
Fixpoint process_emails (email_ids : list N) (p : Progress) : Ending * Progress :=
  match email_ids with
  | [] => (Completed, p)
  | email_id :: rest =>
      match fetch imap email_id with
      | Raise e => (Failed e, p)
      | Ok (false, _) => process_emails rest p
      | Ok (true, msg_data) =>
          match process_parts msg_data p with
          | (Some e, p') => (Failed e, p')
          | (None, p') =>
              if mark_seen options then
                match store_error imap email_id with
                | Some e => (Failed e, p')
                | None =>
                    process_emails rest
                      {| store := store p'; seen := seen p' ++ [email_id];
                         proposals_created := proposals_created p';
                         proposals_failed := proposals_failed p' |}
                end
              else process_emails rest p'
          end
      end
  end.

(** [handle], with the two variables of the environment as [os.getenv]
    gives them. *)
Definition handle (email_user email_password : option pystr) (db : Database)
  : Ending * Progress :=
  let start :=
    {| store := db; seen := []; proposals_created := 0; proposals_failed := 0 |} in
  if key_missing email_user || key_missing email_password then (ReturnedEarly, start)
  else
    match login_error imap with
    | Some e => (Failed e, start)
    | None =>
        match search_unseen imap with
        | Raise e => (Failed e, start)
        | Ok (false, _) => (ReturnedEarly, start)
        | Ok (true, email_ids) =>
            match email_ids with
            | [] =>
                match logout_error imap with
                | Some e => (Failed e, start)
                | None => (ReturnedEarly, start)
                end
            | _ :: _ =>
                let total_emails := Z.of_nat (List.length email_ids) in
                let email_ids :=
                  if limit options <? total_emails then slice_to (limit options) email_ids
                  else email_ids in
                match process_emails email_ids start with
                | (Completed, p) =>
                    match logout_error imap with
                    | Some e => (Failed e, p)
                    | None => (Completed, p)
                    end
                | end_ => end_
                end
            end
        end
    end.

End Run.

(* ===================================================================== *)
(** ** views.py: send_rfp_emails *)
(* ===================================================================== *)

(** A mail handed to [send_mail]: its one recipient, its subject and its
    text. The sender is the constant of the settings. *)
Record Sent : Type := {
  recipient : pystr;
  sent_subject : pystr;
  sent_message : pystr
}.

(** An entry of [failed_vendors]. *)
Record FailedVendor : Type := {
  vendor_id : Z;
  vendor_name : pystr;
  error : pystr
}.

(** The body of the answer 200; the key [failed_vendors] is present when
    the list is not empty. *)
Record SendReport : Type := {
  message : pystr;
  rfp_id : Z;
  rfp_title : pystr;
  emails_sent : nat;
  total_vendors : nat;
  status_of_rfp : rfp_status;       (* the key [rfp_status] *)
  failed_vendors : list FailedVendor
}.

Inductive SendResponse : Type :=
| SendNotFound                               (* 404 of [get_object] *)
| SendError (status_code : Z) (error : pystr)
| SendOk (report : SendReport).              (* 200 *)

Definition HTTP_404_NOT_FOUND : Z := 404.

(** What the view meets outside the tables of the store. [vendor_keys] is
    the list of ids the lookup [id__in] compares with, or the error of the
    lookup when a value of the list is no number; [send_mail_error] the
    error [send_mail] raises for a vendor; [rfp_save_error] the error of
    [rfp.save()]; [decimal_true] and [decimal_str] the truth and the text
    of a budget read from its column. *)
Record Services : Type := {
  vendor_keys : list pyval -> result (list Z);
  send_mail_error : Vendor.t -> option exception;
  rfp_save_error : RFP.t -> option exception;
  decimal_true : decimal -> bool;
  decimal_str : decimal -> pystr
}.

Definition nl : pystr := [10%N].

Definition set_status (rfp : RFP.t) (s : rfp_status) : RFP.t :=
  {| RFP.id := RFP.id rfp;
     RFP.title := RFP.title rfp;
     RFP.natural_language_input := RFP.natural_language_input rfp;
     RFP.budget := RFP.budget rfp;
     RFP.status := s |}.

(** [rfp.save()] of a row that is in the table. *)
Definition save_rfp (rfp : RFP.t) (db : Database) : Database :=
  {| rfps := map (fun r => if RFP.id r =? RFP.id rfp then rfp else r) (rfps db);
     rfp_items := rfp_items db;
     proposals := proposals db;
     next_rfp_id := next_rfp_id db;
     next_item_id := next_item_id db;
     next_proposal_id := next_proposal_id db |}.

(** Line 66: the subject, [f"RFP Invitation: {rfp.title}"]. *)
Definition invitation_subject (title : pystr) : pystr :=
  py "RFP Invitation: " ++ title.

Section Sending.

Context (rt : PyRuntime) (sv : Services) (vendors : list Vendor.t).

(** [rfp.budget if rfp.budget else 'Not specified'], formatted. *)
Definition budget_text (rfp : RFP.t) : pystr :=
  match RFP.budget rfp with
  | Some b => if decimal_true sv b then decimal_str sv b else py "Not specified"
  | None => py "Not specified"
  end.

(** Lines 83-88: the lines of the items, numbered from [idx]. *)
Fixpoint item_lines (idx : Z) (items : list RFPItem.t) : pystr :=
  match items with
  | [] => []
  | item :: rest =>
      (nl ++ str_of_int idx ++ py ". " ++ RFPItem.name item) ++
      (nl ++ py "   Quantity: " ++ str_of_int (RFPItem.quantity item)) ++
      (if str_is_empty (RFPItem.specifications item) then []
       else nl ++ py "   Specifications: " ++ RFPItem.specifications item) ++
      nl ++
      item_lines (idx + 1) rest
  end.

(** Lines 69-96: the text of the mail. *)
Definition email_body (rfp : RFP.t) (items : list RFPItem.t) : pystr :=
  (nl ++ py "Dear Vendor," ++ nl ++ nl ++
   py "You are invited to submit a proposal for the following Request for Proposal (RFP):" ++
   nl ++ nl ++
   py "RFP Title: " ++ py_str rt (RFP.title rfp) ++ nl ++
   py "RFP ID: #" ++ str_of_int (RFP.id rfp) ++ nl ++
   py "Budget: $" ++ budget_text rfp ++ nl ++ nl ++
   py "Requirements:" ++ nl ++
   RFP.natural_language_input rfp ++ nl ++ nl ++
   py "Items Requested:" ++ nl) ++
  item_lines 1 items ++
  (nl ++ py "Please submit your proposal at your earliest convenience." ++ nl ++ nl ++
   py "Best regards," ++ nl ++
   py "RFP Management System" ++ nl).

(** Lines 99-118: the loop over the vendors, with the mails handed over,
    the counter and the failures noted so far. *)
Fixpoint send_all (subject message : pystr) (vs : list Vendor.t)
    (outbox : list Sent) (sent_count : nat) (failed_vendors : list FailedVendor)
  : list Sent * nat * list FailedVendor :=
  match vs with
  | [] => (outbox, sent_count, failed_vendors)
  | vendor :: rest =>
      match send_mail_error sv vendor with
      | None =>
          send_all subject message rest
            (outbox ++ [{| recipient := Vendor.email vendor;
                           sent_subject := subject;
                           sent_message := message |}])
            (S sent_count) failed_vendors
      | Some e =>
          send_all subject message rest outbox sent_count
            (failed_vendors ++ [{| vendor_id := Vendor.id vendor;
                                   vendor_name := Vendor.name vendor;
                                   error := exc_msg e |}])
      end
  end.

(** Lines 127-138: the body of the answer 200. *)
Definition send_report (rfp : RFP.t) (status : rfp_status) (ids : list pyval)
    (sent_count : nat) (failed : list FailedVendor) : SendReport :=
  {| message :=
       match failed with
       | [] => py "RFP emails sent successfully"
       | _ :: _ =>
           py "Sent " ++ str_of_int (Z.of_nat sent_count) ++ py " emails, " ++
           str_of_int (Z.of_nat (List.length failed)) ++ py " failed"
       end;
     rfp_id := RFP.id rfp;
     rfp_title := py_str rt (RFP.title rfp);
     emails_sent := sent_count;
     total_vendors := List.length ids;
     status_of_rfp := status;
     failed_vendors := failed |}.

(** [send_rfp_emails], on the key of the URL and on
    [request.data.get('vendor_ids', [])]. The mails go to [outbox]; an
    error that nothing in the view catches is raised to the framework. *)
Definition send_rfp_emails (pk : Z) (vendor_ids : pyval) (db : Database)
    (outbox : list Sent) : result SendResponse * Database * list Sent :=
  match rfp_by_id pk db with
  | None => (Ok SendNotFound, db, outbox)
  | Some rfp =>
      match vendor_ids with
      | PList ((_ :: _) as ids) =>
          match vendor_keys sv ids with
          | Raise e => (Raise e, db, outbox)
          | Ok keys =>
              let found :=
                filter (fun v => existsb (Z.eqb (Vendor.id v)) keys) vendors in
              match found with
              | [] =>
                  (Ok (SendError HTTP_404_NOT_FOUND
                         (py "No valid vendors found with the provided IDs")),
                   db, outbox)
              | _ :: _ =>
                  let subject := invitation_subject (py_str rt (RFP.title rfp)) in
                  let items :=
                    filter (fun i => RFPItem.rfp i =? RFP.id rfp) (rfp_items db) in
                  match send_all subject (email_body rfp items) found outbox 0 [] with
                  | (outbox', sent_count, failed) =>
                      if (0 <? sent_count)%nat then
                        match rfp_save_error sv (set_status rfp SENT) with
                        | Some e => (Raise e, db, outbox')
                        | None =>
                            (Ok (SendOk (send_report rfp SENT ids sent_count failed)),
                             save_rfp (set_status rfp SENT) db, outbox')
                        end
                      else
                        (Ok (SendOk (send_report rfp (RFP.status rfp) ids sent_count
                                       failed)),
                         db, outbox')
                  end
              end
          end
      | _ =>
          (Ok (SendError HTTP_400_BAD_REQUEST
                 (py "vendor_ids is required and must be a list")),
           db, outbox)
      end
  end.

End Sending.

(* ===================================================================== *)
(** ** views.py: get_rfp_comparison *)
(* ===================================================================== *)

(** An entry of [items], of [proposals], and the object under [rfp] in the
    answer; the timestamps are left out. *)
Module ItemData.
Record t : Type := {
  id : Z;
  name : pystr;
  quantity : Z;
  specifications : pystr
}.
End ItemData.

Module ProposalData.
Record t : Type := {
  id : Z;
  vendor_name : pystr;
  vendor_email : pystr;
  vendor_contact : pystr;
  price : option pystr;
  payment_terms : pystr;
  warranty : pystr;
  raw_email_content : pystr
}.
End ProposalData.

Module RfpData.
Record t : Type := {
  id : Z;
  title : option pystr;
  budget : option pystr;
  status : rfp_status;
  natural_language_input : pystr;
  items : list ItemData.t
}.
End RfpData.

Inductive ComparisonResponse : Type :=
| ComparisonNotFound                          (* 404 of [get_object_or_404] *)
| ComparisonOk (rfp : RfpData.t) (proposals : list ProposalData.t)
    (proposal_count : nat).                   (* 200 *)

Section Comparison.

Context (rt : PyRuntime) (sv : Services) (vendors : list Vendor.t).

(** [str(d) if d else None] of a decimal column. *)
Definition decimal_text (d : option decimal) : option pystr :=
  match d with
  | Some x => if decimal_true sv x then Some (decimal_str sv x) else None
  | None => None
  end.

(** Line 237: [s[:200] + '...' if len(s) > 200 else s]. *)
Definition preview (s : pystr) : pystr :=
  if (200 <? List.length s)%nat then firstn 200 s ++ py "..." else s.

(** Lines 227-239: the entry of a proposal, joined with its vendor by
    [select_related]: a proposal without a vendor row has no entry. *)
Definition proposal_data (proposal : Proposal.t) : list ProposalData.t :=
  match find (fun v => Vendor.id v =? Proposal.vendor proposal) vendors with
  | None => []
  | Some vendor =>
      [{| ProposalData.id := Proposal.id proposal;
          ProposalData.vendor_name := Vendor.name vendor;
          ProposalData.vendor_email := Vendor.email vendor;
          ProposalData.vendor_contact := Vendor.contact_person vendor;
          ProposalData.price := decimal_text (Proposal.price proposal);
          ProposalData.payment_terms := py_str rt (Proposal.payment_terms proposal);
          ProposalData.warranty := py_str rt (Proposal.warranty proposal);
          ProposalData.raw_email_content :=
            preview (Proposal.raw_email_content proposal) |}]
  end.

Definition item_data (item : RFPItem.t) : ItemData.t :=
  {| ItemData.id := RFPItem.id item;
     ItemData.name := RFPItem.name item;
     ItemData.quantity := RFPItem.quantity item;
     ItemData.specifications := RFPItem.specifications item |}.

(** [get_rfp_comparison]. The proposals come in the order of the model,
    the latest submitted first; the table keeps them in the order of their
    creation. *)
Definition get_rfp_comparison (rfp_id : Z) (db : Database) : ComparisonResponse :=
  match rfp_by_id rfp_id db with
  | None => ComparisonNotFound
  | Some rfp =>
      let proposals :=
        rev (filter (fun p => Proposal.rfp p =? RFP.id rfp) (proposals db)) in
      let rfp_data :=
        {| RfpData.id := RFP.id rfp;
           RfpData.title := stored_text rt (RFP.title rfp);
           RfpData.budget := decimal_text (RFP.budget rfp);
           RfpData.status := RFP.status rfp;
           RfpData.natural_language_input := RFP.natural_language_input rfp;
           RfpData.items :=
             map item_data
               (filter (fun i => RFPItem.rfp i =? RFP.id rfp) (rfp_items db)) |} in
      let proposals_data := flat_map proposal_data proposals in
      ComparisonOk rfp_data proposals_data (List.length proposals_data)
  end.

End Comparison.

(* ===================================================================== *)
(** ** Notions the later statements use *)
(* ===================================================================== *)

(** The RFP row a creation from [text] writes for the extraction [r]. *)
Definition new_rfp_row (rt : PyRuntime) (db : Database) (text : pystr)
    (r : RfpResult.t) : RFP.t :=
  {| RFP.id := next_rfp_id db;
     RFP.title := RfpResult.title r;
     RFP.natural_language_input := text;
     RFP.budget := _parse_budget rt (RfpResult.budget r);
     RFP.status := DRAFT |}.

(** The item rows it writes: one per extracted item, in order, with
    consecutive keys from [first_id] on and a quantity of at least 1. *)
Fixpoint item_rows (rfp first_id : Z) (items : list rfp_item) : list RFPItem.t :=
  match items with
  | [] => []
  | item :: rest =>
      {| RFPItem.id := first_id;
         RFPItem.rfp := rfp;
         RFPItem.name := name item;
         RFPItem.quantity := Z.max 1 (quantity item);
         RFPItem.specifications := specifications item |}
      :: item_rows rfp (first_id + 1) rest
  end.

(** [tok] is the literal [l] up to the case of its letters, as a pattern
    compiled with [re.IGNORECASE] reads it. *)
Fixpoint same_ignoring_case (l tok : pystr) : bool :=
  match l, tok with
  | [], [] => true
  | c :: l', x :: tok' => re_ignorecase c x && same_ignoring_case l' tok'
  | _, _ => false
  end.

(** [s'] is what is left of [s] after some characters are read. *)
Definition tail_of (s' s : pystr) : Prop := exists a, s = a ++ s'.

(** What stands before the subject in an answer or a forwarded mail:
    nothing, or [Re], [Fw] or [Fwd] in any case, a colon and white space. *)
Definition reply_mark (p : pystr) : Prop :=
  p = [] \/
  exists tok ws,
    p = tok ++ 58%N :: ws /\
    (same_ignoring_case (py "Re") tok || same_ignoring_case (py "Fw") tok ||
     same_ignoring_case (py "Fwd") tok) = true /\
    forallb re_space ws = true.

(** The text the loop of [_get_email_body] can take from a part as plain
    text, and as HTML: the part is no attachment, of the content type, and
    its payload decodes. *)
Definition plain_text_of (p : Part) : option pystr :=
  if contains (py "attachment") (content_disposition p) then None
  else if pystr_eqb (content_type p) (py "text/plain") then
    match payload p with
    | Ok text => Some text
    | Raise _ => None
    end
  else None.

Definition html_text_of (p : Part) : option pystr :=
  if contains (py "attachment") (content_disposition p) then None
  else if pystr_eqb (content_type p) (py "text/html") then
    match payload p with
    | Ok text => Some text
    | Raise _ => None
    end
  else None.

Definition no_plain_text (p : Part) : bool :=
  match plain_text_of p with
  | None => true
  | Some _ => false
  end.

(** The first HTML text of the parts that is not empty; the empty text when
    there is none. *)
Fixpoint first_html (parts : list Part) : pystr :=
  match parts with
  | [] => []
  | p :: rest =>
      match html_text_of p with
      | Some (c :: t) => c :: t
      | _ => first_html rest
      end
  end.

(** The ids a run goes through, and whether the server answers the fetch
    of an id with the status [OK]. *)
Definition limited (options : Options) (email_ids : list N) : list N :=
  if limit options <? Z.of_nat (List.length email_ids) then
    slice_to (limit options) email_ids
  else email_ids.

Definition fetched_ok (imap : Imap) (email_id : N) : bool :=
  match fetch imap email_id with
  | Ok (true, _) => true
  | _ => false
  end.

(** The progress [p'] continues [p]: the counter of created proposals has
    not gone down, the store is the same when it has not gone up, and the
    tables of RFPs and items are the same in any case. *)
Definition continues (p p' : Progress) : Prop :=
  (proposals_created p <= proposals_created p')%nat /\
  (proposals_created p' = proposals_created p -> store p' = store p) /\
  rfps (store p') = rfps (store p) /\
  rfp_items (store p') = rfp_items (store p).

(** The vendors a request names, the invitation one of them is sent, and
    the entry of [failed_vendors] for a vendor whose mail fails. *)
Definition requested (keys : list Z) (vendors : list Vendor.t) : list Vendor.t :=
  filter (fun v => existsb (Z.eqb (Vendor.id v)) keys) vendors.

Definition reachable (sv : Services) (v : Vendor.t) : bool :=
  match send_mail_error sv v with
  | None => true
  | Some _ => false
  end.

Definition invitation_to (subject message : pystr) (v : Vendor.t) : Sent :=
  {| recipient := Vendor.email v; sent_subject := subject; sent_message := message |}.

Definition failure_of (sv : Services) (v : Vendor.t) : list FailedVendor :=
  match send_mail_error sv v with
  | None => []
  | Some e =>
      [{| vendor_id := Vendor.id v; vendor_name := Vendor.name v; error := exc_msg e |}]
  end.

(** The text up to its first line feed. *)
Fixpoint first_line (s : pystr) : pystr :=
  match s with
  | [] => []
  | c :: t => if N.eqb c 10 then [] else c :: first_line t
  end.

(** The columns of a proposal but for the two timestamps, [submitted_at]
    and [updated_at], which the rows of the store leave out. *)
Definition proposal_columns (p : Proposal.t)
  : Z * Z * Z * pystr * option decimal * pyval * pyval :=
  (Proposal.id p, Proposal.rfp p, Proposal.vendor p, Proposal.raw_email_content p,
   Proposal.price p, Proposal.payment_terms p, Proposal.warranty p).

(** Two stores with the same RFPs and items, and the same proposals column
    by column, the timestamps apart. *)
Definition same_columns (a b : Database) : Prop :=
  rfps a = rfps b /\ rfp_items a = rfp_items b /\
  map proposal_columns (proposals a) = map proposal_columns (proposals b).

(** A repetition stops at the front of [s]: [s] is empty or opens with a
    character outside the class. *)
Definition stops (p : N -> bool) (s : pystr) : bool :=
  match s with
  | [] => true
  | c :: _ => negb (p c)
  end.

(* ===================================================================== *)
(** ** More data to run the program on *)
(* ===================================================================== *)

Module More.

(** Answers that are JSON but not what the prompt asked for, and a quote. *)
Definition list_text : pystr := py "[]".

Definition null_items_text : pystr := pyq "{'title': 'Chairs', 'items': null}".

Definition null_items_object : pyval :=
  PDict [ (py "title", PStr (py "Chairs")); (py "items", PNone) ].

Definition quote_text : pystr :=
  pyq "{'price': 68500, 'payment_terms': 30, 'warranty': null}".

Definition quote_object : pyval :=
  PDict [ (py "price", PInt 68500); (py "payment_terms", PInt 30);
          (py "warranty", PNone) ].

Definition mixed_items_text : pystr :=
  pyq "{'items': [{'name': 'Desk', 'quantity': '4'}, 'chair', {'quantity': 2}, {'name': 'Lamp'}]}".

Definition mixed_items_object : pyval :=
  PDict [ (py "items",
           PList [ PDict [ (py "name", PStr (py "Desk")); (py "quantity", PStr (py "4")) ];
                   PStr (py "chair");
                   PDict [ (py "quantity", PInt 2) ];
                   PDict [ (py "name", PStr (py "Lamp")) ] ]) ].

Definition pens_text : pystr :=
  pyq "{'title': 'Pens', 'budget': 'abc', 'items': [{'name': 'Pen', 'quantity': 0}, {'name': 'Ink', 'quantity': -3, 'specifications': 'blue'}]}".

Definition pens_object : pyval :=
  PDict [ (py "title", PStr (py "Pens"));
          (py "budget", PStr (py "abc"));
          (py "items",
           PList [ PDict [ (py "name", PStr (py "Pen")); (py "quantity", PInt 0) ];
                   PDict [ (py "name", PStr (py "Ink")); (py "quantity", PInt (-3));
                           (py "specifications", PStr (py "blue")) ] ]) ].

Definition pens_result : RfpResult.t :=
  {| RfpResult.success := true;
     RfpResult.error := None;
     RfpResult.title := PStr (py "Pens");
     RfpResult.budget := None;
     RfpResult.deadline := PNone;
     RfpResult.items :=
       [ {| name := py "Pen"; quantity := 0; specifications := [] |};
         {| name := py "Ink"; quantity := -3; specifications := py "blue" |} ];
     RfpResult.raw_response := None |}.

Definition decoded : list (pystr * pyval) :=
  [ (pens_text, pens_object);
    (list_text, PList []);
    (null_items_text, null_items_object);
    (quote_text, quote_object);
    (mixed_items_text, mixed_items_object);
    (Samples.laptops_text, Samples.laptops_object) ].

Definition runtime : PyRuntime := Demo.runtime decoded.

(** The part of the Unicode database the texts below need: the
    Arabic-Indic digits are decimal digits, and they and the letters of
    Latin-1 are alphanumeric. *)
Definition unicode : Unicode :=
  {| decimal_beyond_ascii := fun c => ((1632 <=? c) && (c <=? 1641))%N;
     alnum_beyond_ascii := fun c =>
       (((192 <=? c) && (c <=? 255) && negb (N.eqb c 215) && negb (N.eqb c 247)) ||
        ((1632 <=? c) && (c <=? 1641)))%N |}.

(** SQLite's comparison for [iexact]: equal up to the case of the ASCII
    letters. *)
Definition collation : Collation :=
  {| iexact := fun a b =>
       if list_eq_dec N.eq_dec (map to_lower a) (map to_lower b) then true else false |}.

(** A mail with an HTML part, a plain text part and an attachment that is
    plain text too; and the same mail with an undecodable plain text part. *)
Definition html_part : Part :=
  {| content_type := py "text/html"; content_disposition := [];
     payload := Ok (py "<p>Our quote: <b>$68,500</b></p>") |}.

Definition plain_part : Part :=
  {| content_type := py "text/plain"; content_disposition := [];
     payload := Ok (py "Our quote: $68,500, Net 30.  ") |}.

Definition attached_part : Part :=
  {| content_type := py "text/plain";
     content_disposition := pyq "attachment; filename='terms.txt'";
     payload := Ok (py "General terms of sale") |}.

Definition broken_part : Part :=
  {| content_type := py "text/plain"; content_disposition := [];
     payload := Raise (Exc ValueError (py "invalid start byte")) |}.

(** An answer of a known vendor, a mail of a stranger, and a mailbox of
    four unseen mails: the answer, one the server does not hand out, the
    stranger's, and a fourth. *)
Definition reply_mail : Mail :=
  {| subject_header := py "Re: RFP #2";
     from_header := py "Ana <ana@acme.example>";
     msg := Multipart [html_part; plain_part] |}.

Definition stranger_mail : Mail :=
  {| subject_header := py "Re: RFP #2";
     from_header := py "bob@nowhere.example";
     msg := Simple (Ok (py "Hello, what is this about?")) [] |}.

Definition imap : Imap :=
  {| login_error := None;
     search_unseen := Ok (true, [11; 12; 13; 14]%N);
     fetch := fun i =>
       if N.eqb i 11 then Ok (true, [Ok reply_mail])
       else if N.eqb i 12 then Ok (false, [])
       else Ok (true, [Ok stranger_mail]);
     store_error := fun _ => None;
     logout_error := None |}.

Definition options : Options :=
  {| mark_seen := true; limit := 3; create_proposals := true |}.

Definition options_print_only : Options :=
  {| mark_seen := false; limit := 10; create_proposals := false |}.

(** The store of the two requests after a quote of the vendor 4 for the
    second, sent with a long mail. *)
Definition long_body : pystr :=
  py "Our quote: $68,500, Net 30. " ++ repeat 46%N 230.

Definition compared_store : Database :=
  snd (create_proposal_step Samples.runtime Demo.backend 2 4 Samples.first_quote
         long_body
         {| rfps :=
              [ {| RFP.id := 1; RFP.title := PStr (py "Office laptops 2025");
                   RFP.natural_language_input := py "We need laptops.";
                   RFP.budget := None; RFP.status := DRAFT |};
                {| RFP.id := 2; RFP.title := PStr (py "OFFICE LAPTOPS 2025");
                   RFP.natural_language_input := py "We need laptops again.";
                   RFP.budget := None; RFP.status := DRAFT |} ];
            rfp_items := []; proposals := [];
            next_rfp_id := 3; next_item_id := 1; next_proposal_id := 1 |}).

(** Services that take the numbers of a list as keys and refuse any other
    value, and that cannot reach the vendor 3. *)
Definition services : Services :=
  {| vendor_keys := fix keys (l : list pyval) : result (list Z) :=
       match l with
       | [] => Ok []
       | PInt z :: rest =>
           match keys rest with
           | Ok ks => Ok (z :: ks)
           | Raise e => Raise e
           end
       | _ :: _ =>
           Raise (Exc ValueError (py "Field 'id' expected a number"))
       end;
     send_mail_error := fun v =>
       if Vendor.id v =? 3 then Some (Exc (OtherException (py "SMTPException"))
                                        (py "Connection refused"))
       else None;
     rfp_save_error := fun _ => None;
     decimal_true := fun _ => true;
     decimal_str := fun d => match d with Decimal s => s end |}.

(** Two vendors, in the order of their names. *)
Definition vendors : list Vendor.t :=
  [ {| Vendor.id := 4; Vendor.name := py "Acme"; Vendor.email := py "ana@acme.example";
       Vendor.contact_person := py "Ana" |};
    {| Vendor.id := 3; Vendor.name := py "Bolt"; Vendor.email := py "sales@bolt.example";
       Vendor.contact_person := [] |} ].

(** A store with a request whose title ends with a blank. *)
Definition spaced_rfps : Database :=
  {| rfps :=
       [ {| RFP.id := 1; RFP.title := PStr (py "Office chairs ");
            RFP.natural_language_input := py "We need chairs.";
            RFP.budget := None; RFP.status := SENT |} ];
     rfp_items := []; proposals := [];
     next_rfp_id := 2; next_item_id := 1; next_proposal_id := 1 |}.

(** A store with two requests whose titles differ by case only. *)
Definition two_rfps : Database :=
  {| rfps :=
       [ {| RFP.id := 1; RFP.title := PStr (py "Office laptops 2025");
            RFP.natural_language_input := py "We need laptops.";
            RFP.budget := None; RFP.status := DRAFT |};
         {| RFP.id := 2; RFP.title := PStr (py "OFFICE LAPTOPS 2025");
            RFP.natural_language_input := py "We need laptops again.";
            RFP.budget := None; RFP.status := DRAFT |} ];
     rfp_items := []; proposals := [];
     next_rfp_id := 3; next_item_id := 1; next_proposal_id := 1 |}.

End More.

(** The store after the first quote of the examples is ingested for RFP 7
    and vendor 3, and a quote of nothing. *)
Definition quoted_store : Database :=
  snd (create_proposal_step Samples.runtime Demo.backend 7 3 Samples.first_quote
         (py "Our quote: $68,500, Net 30.") Demo.empty_db).

Definition free_quote : ProposalResult.t :=
  {| ProposalResult.success := true;
     ProposalResult.error := None;
     ProposalResult.price := Some (S754_zero false);
     ProposalResult.payment_terms := PStr (py "Free of charge");
     ProposalResult.warranty := PNone;
     ProposalResult.raw_response := None |}.

(* ===================================================================== *)
(** ** Facts about [strip], [startswith] and [endswith] *)
(* ===================================================================== *)

Unset Implicit Arguments.

Section Strings.

Lemma lstrip_blank (s : pystr) :
  forallb isspace s = true -> lstrip s = [].
Proof.
  induction s as [|c s IH]; simpl; [reflexivity|].
  intros H. apply andb_true_iff in H as [Hc Hs].
  rewrite Hc. now apply IH.
Qed.

Lemma lstrip_nil_blank (s : pystr) :
  lstrip s = [] -> forallb isspace s = true.
Proof.
  induction s as [|c s IH]; simpl; [reflexivity|].
  destruct (isspace c); [exact IH | discriminate].
Qed.

Lemma lstrip_app_blank (b s : pystr) :
  forallb isspace b = true -> lstrip (b ++ s) = lstrip s.
Proof.
  induction b as [|c b IH]; simpl; [reflexivity|].
  intros H. apply andb_true_iff in H as [Hc Hb].
  rewrite Hc. now apply IH.
Qed.

Lemma lstrip_app_keep (s x : pystr) :
  lstrip s <> [] -> lstrip (s ++ x) = lstrip s ++ x.
Proof.
  induction s as [|c s IH]; simpl; [congruence|].
  destruct (isspace c); [exact IH | reflexivity].
Qed.

Lemma lstrip_head (c : N) (s : pystr) :
  isspace c = false -> lstrip (c :: s) = c :: s.
Proof. intros H. simpl. now rewrite H. Qed.

Lemma lstrip_head_not_space (s : pystr) (c : N) (r : pystr) :
  lstrip s = c :: r -> isspace c = false.
Proof.
  induction s as [|a s IH]; simpl; [discriminate|].
  destruct (isspace a) eqn:Ha; [exact IH|].
  intros H. injection H as -> _. exact Ha.
Qed.

Lemma lstrip_idem (s : pystr) : lstrip (lstrip s) = lstrip s.
Proof.
  destruct (lstrip s) as [|c r] eqn:E; [reflexivity|].
  apply lstrip_head. exact (lstrip_head_not_space _ _ _ E).
Qed.

Lemma forallb_rev (f : N -> bool) (s : pystr) :
  forallb f (rev s) = forallb f s.
Proof.
  induction s as [|c s IH]; simpl; [reflexivity|].
  rewrite forallb_app, IH. simpl. rewrite andb_true_r. apply andb_comm.
Qed.

Lemma rstrip_app_blank (s b : pystr) :
  forallb isspace b = true -> rstrip (s ++ b) = rstrip s.
Proof.
  intros H. unfold rstrip. rewrite rev_app_distr.
  rewrite lstrip_app_blank; [reflexivity|]. now rewrite forallb_rev.
Qed.

Lemma rstrip_blank (s : pystr) :
  forallb isspace s = true -> rstrip s = [].
Proof.
  intros H. unfold rstrip. rewrite lstrip_blank; [reflexivity|].
  now rewrite forallb_rev.
Qed.

Lemma rstrip_nil_blank (s : pystr) :
  rstrip s = [] -> forallb isspace s = true.
Proof.
  unfold rstrip. intros H.
  assert (E : lstrip (rev s) = []).
  { destruct (lstrip (rev s)) as [|a l]; [reflexivity|].
    simpl in H. destruct (rev l); discriminate. }
  apply lstrip_nil_blank in E. now rewrite forallb_rev in E.
Qed.

(** The text is stripped to nothing exactly when it is made of blanks. *)
Lemma strip_nil_iff (s : pystr) :
  strip s = [] <-> whitespace_only s = true.
Proof.
  unfold strip, whitespace_only. split.
  - intros H. apply rstrip_nil_blank in H.
    destruct (lstrip s) as [|c r] eqn:E; [now apply lstrip_nil_blank|].
    simpl in H. apply andb_true_iff in H as [Hc _].
    rewrite (lstrip_head_not_space _ _ _ E) in Hc. discriminate.
  - intros H. now rewrite (lstrip_blank _ H).
Qed.

(** The guard of both extraction functions is the specification's
    "empty or whitespace-only". *)
Lemma is_blank_spec (s : pystr) : is_blank s = whitespace_only s.
Proof.
  unfold is_blank.
  destruct (whitespace_only s) eqn:W.
  - apply strip_nil_iff in W. rewrite W. simpl. apply orb_true_r.
  - destruct s as [|c s]; [discriminate|]. simpl.
    destruct (strip (c :: s)) eqn:E; [|reflexivity].
    apply strip_nil_iff in E. congruence.
Qed.

Lemma startswith_app (p s : pystr) : startswith p (p ++ s) = true.
Proof.
  induction p as [|c p IH]; simpl; [reflexivity|].
  now rewrite N.eqb_refl.
Qed.

Lemma skipn_prefix (p s : pystr) : skipn (List.length p) (p ++ s) = s.
Proof. induction p; simpl; auto. Qed.

Lemma endswith_app (p s : pystr) : endswith p (s ++ p) = true.
Proof. unfold endswith. rewrite rev_app_distr. apply startswith_app. Qed.

Lemma slice_to_minus_app (p s : pystr) :
  slice_to_minus (List.length p) (s ++ p) = s.
Proof.
  unfold slice_to_minus. rewrite length_app.
  replace (List.length s + List.length p - List.length p)%nat
    with (List.length s + 0)%nat by lia.
  rewrite firstn_app_2. simpl. apply app_nil_r.
Qed.

Lemma startswith_head (c a : N) (p s : pystr) :
  a <> c -> startswith (c :: p) (a :: s) = false.
Proof.
  intros H. simpl. apply N.eqb_neq in H. now rewrite N.eqb_sym, H.
Qed.

(** A text that opens and closes with characters that are not blanks is
    its own [strip]. *)
Lemma strip_fixed (s : pystr) (a z : N) (r r' : pystr) :
  s = a :: r -> rev s = z :: r' -> isspace a = false -> isspace z = false ->
  strip s = s.
Proof.
  intros Hs Hr Ha Hz. unfold strip, rstrip.
  rewrite Hs, (lstrip_head _ _ Ha), <- Hs, Hr, (lstrip_head _ _ Hz), <- Hr.
  apply rev_involutive.
Qed.

Lemma lstrip_snoc (x : pystr) (c : N) :
  isspace c = false -> lstrip (x ++ [c]) = lstrip x ++ [c].
Proof.
  intros Hc. induction x as [|a x IH]; simpl.
  - now rewrite Hc.
  - destruct (isspace a); [exact IH | reflexivity].
Qed.

(** [strip] keeps the first character that [lstrip] keeps. *)
Lemma strip_lstrip_head (s : pystr) (c : N) (l : pystr) :
  lstrip s = c :: l -> exists r, strip s = c :: r.
Proof.
  intros E. unfold strip, rstrip. rewrite E. simpl.
  rewrite (lstrip_snoc _ _ (lstrip_head_not_space _ _ _ E)).
  rewrite rev_app_distr. simpl. eauto.
Qed.

Lemma strip_head_not_space (s : pystr) (a : N) (r : pystr) :
  strip s = a :: r -> isspace a = false.
Proof.
  intros H.
  destruct (lstrip s) as [|c l] eqn:E.
  - unfold strip in H. rewrite E in H. discriminate.
  - destruct (strip_lstrip_head _ _ _ E) as [r' Hr].
    rewrite Hr in H. injection H as <- _.
    exact (lstrip_head_not_space _ _ _ E).
Qed.

Lemma strip_last_not_space (s : pystr) (z : N) (r : pystr) :
  rev (strip s) = z :: r -> isspace z = false.
Proof.
  unfold strip, rstrip. rewrite rev_involutive.
  apply lstrip_head_not_space.
Qed.

Lemma strip_idem (s : pystr) : strip (strip s) = strip s.
Proof.
  destruct (strip s) as [|a r] eqn:E; [reflexivity|].
  destruct (rev (a :: r)) as [|z r'] eqn:R.
  - apply (f_equal (@List.length N)) in R. rewrite length_rev in R. discriminate.
  - rewrite <- E in R.
    rewrite <- E. apply (strip_fixed (strip s) a z r r' E R).
    + exact (strip_head_not_space _ _ _ E).
    + exact (strip_last_not_space _ _ _ R).
Qed.

(** Blanks around a text that is not blank do not change its [strip]. *)
Lemma strip_padded (b1 b2 t : pystr) :
  forallb isspace b1 = true -> forallb isspace b2 = true ->
  strip (b1 ++ t ++ b2) = strip t.
Proof.
  intros H1 H2. unfold strip. rewrite (lstrip_app_blank _ _ H1).
  destruct (lstrip t) as [|c l] eqn:E.
  - apply lstrip_nil_blank in E.
    rewrite lstrip_blank; [reflexivity|].
    rewrite forallb_app, E, H2. reflexivity.
  - rewrite lstrip_app_keep by congruence.
    rewrite E. apply rstrip_app_blank. exact H2.
Qed.

End Strings.

(* ===================================================================== *)
(** ** utils.py: the guard, the credential and the envelope *)
(* ===================================================================== *)

Section Envelope.

Context (rt : PyRuntime) (w : World).

(** A handler for [Exception] turns every outcome into a return. *)
Lemma try_except_Exception_returns {A} (c : result A) (h : exception -> A) :
  exists a, try_except c ExceptException (fun e => Ok (h e)) = Ok a.
Proof. destruct c as [a|e]; simpl; eauto. Qed.

Lemma rfp_blank (input : pystr) :
  whitespace_only input = true ->
  extract_rfp_from_text rt w input =
  Raise (Exc ValueError (py "Natural language input cannot be empty")).
Proof. intros H. unfold extract_rfp_from_text. now rewrite is_blank_spec, H. Qed.

Lemma proposal_blank (input : pystr) :
  whitespace_only input = true ->
  extract_proposal_from_email rt w input =
  Raise (Exc ValueError (py "Email body cannot be empty")).
Proof. intros H. unfold extract_proposal_from_email. now rewrite is_blank_spec, H. Qed.

Lemma rfp_not_blank (input : pystr) :
  whitespace_only input = false ->
  exists r, extract_rfp_from_text rt w input = Ok r.
Proof.
  intros H. unfold extract_rfp_from_text. rewrite is_blank_spec, H. cbv zeta.
  destruct (key_missing (GEMINI_API_KEY w)); [eauto|].
  apply try_except_Exception_returns.
Qed.

Lemma proposal_not_blank (input : pystr) :
  whitespace_only input = false ->
  exists r, extract_proposal_from_email rt w input = Ok r.
Proof.
  intros H. unfold extract_proposal_from_email. rewrite is_blank_spec, H. cbv zeta.
  destruct (key_missing (GEMINI_API_KEY w)); [eauto|].
  apply try_except_Exception_returns.
Qed.

Lemma rfp_without_key (input : pystr) :
  whitespace_only input = false ->
  key_missing (GEMINI_API_KEY w) = true ->
  extract_rfp_from_text rt w input =
  Ok (rfp_failure (py "GEMINI_API_KEY environment variable not set") None).
Proof.
  intros H K. unfold extract_rfp_from_text. now rewrite is_blank_spec, H, K.
Qed.

Lemma proposal_without_key (input : pystr) :
  whitespace_only input = false ->
  key_missing (GEMINI_API_KEY w) = true ->
  extract_proposal_from_email rt w input =
  Ok (proposal_failure (py "GEMINI_API_KEY environment variable not set") None).
Proof.
  intros H K. unfold extract_proposal_from_email. now rewrite is_blank_spec, H, K.
Qed.

End Envelope.

(** C2. [extract_rfp_from_text] and [extract_proposal_from_email] raise
    exactly when the argument is empty or made of whitespace only, and the
    exception is then the [ValueError] of the guard; on every other argument
    both return a dictionary, whatever the runtime, the credential and the
    service answer. *)
Theorem extraction_raises_iff_blank (rt : PyRuntime) (w : World) (text : pystr) :
  (whitespace_only text = true /\
   extract_rfp_from_text rt w text =
     Raise (Exc ValueError (py "Natural language input cannot be empty")) /\
   extract_proposal_from_email rt w text =
     Raise (Exc ValueError (py "Email body cannot be empty")))
  \/
  (whitespace_only text = false /\
   (exists r, extract_rfp_from_text rt w text = Ok r) /\
   (exists r, extract_proposal_from_email rt w text = Ok r)).
Proof.
  destruct (whitespace_only text) eqn:B; [left | right]; split; try reflexivity; split.
  - now apply rfp_blank.
  - now apply proposal_blank.
  - now apply rfp_not_blank.
  - now apply proposal_not_blank.
Qed.

(** [test_empty_input_raises_error] *)
Example empty_input_raises_error :
  is_ok (extract_rfp_from_text Samples.runtime (Demo.world (py "{}")) []) = false /\
  is_ok (extract_rfp_from_text Samples.runtime (Demo.world (py "{}")) (py "   ")) = false.
Proof. split; reflexivity. Qed.

(** [test_json_parsing_error] *)
Example json_parsing_error :
  exists r msg,
    extract_rfp_from_text Samples.runtime (Demo.world (py "This is not valid JSON"))
      (py "Test input") = Ok r /\
    RfpResult.success r = false /\
    RfpResult.error r = Some msg /\
    contains (py "Failed to parse JSON") msg = true /\
    RfpResult.raw_response r = Some (py "This is not valid JSON").
Proof.
  eexists; eexists. split; [vm_compute; reflexivity|]. repeat split.
Qed.

(** [test_api_exception_handling] *)
Example api_exception_handling :
  exists r,
    extract_rfp_from_text Samples.runtime Demo.failing_world (py "Test input") = Ok r /\
    RfpResult.success r = false /\
    RfpResult.error r = Some (py "Exception: API Error").
Proof.
  eexists. split; [vm_compute; reflexivity|]. split; reflexivity.
Qed.

(** [test_successful_extraction], with the one item of the specification's
    example: the budget is the float 75000.0 and the quantity the integer
    50. *)
Example successful_extraction :
  exists r,
    extract_rfp_from_text Samples.runtime (Demo.world Samples.laptops_text)
      (py "Need 50 laptops, budget $75k") = Ok r /\
    RfpResult.success r = true /\
    RfpResult.error r = None /\
    RfpResult.title r = PStr (py "Office Laptop Purchase") /\
    RfpResult.budget r = Some (Demo.flt 75000) /\
    RfpResult.deadline r = PStr (py "2024-03-15") /\
    RfpResult.items r =
      [ {| name := py "Laptops"; quantity := 50; specifications := py "16GB RAM" |} ].
Proof.
  eexists. split; [vm_compute; reflexivity|]. repeat split.
Qed.

(** C5. Without the credential (unset, or set to the empty string), on every
    argument that is not blank both functions return a dictionary with
    [success] false, an [error] that names [GEMINI_API_KEY], every data
    field [None] and, for the RFP, no item. *)
Theorem missing_credential_envelope (rt : PyRuntime) (w : World) (text : pystr) :
  whitespace_only text = false ->
  key_missing (GEMINI_API_KEY w) = true ->
  (exists r msg,
     extract_rfp_from_text rt w text = Ok r /\
     RfpResult.success r = false /\
     RfpResult.error r = Some msg /\ contains (py "GEMINI_API_KEY") msg = true /\
     RfpResult.title r = PNone /\ RfpResult.budget r = None /\
     RfpResult.deadline r = PNone /\ RfpResult.items r = []) /\
  (exists r msg,
     extract_proposal_from_email rt w text = Ok r /\
     ProposalResult.success r = false /\
     ProposalResult.error r = Some msg /\ contains (py "GEMINI_API_KEY") msg = true /\
     ProposalResult.price r = None /\ ProposalResult.payment_terms r = PNone /\
     ProposalResult.warranty r = PNone).
Proof.
  intros B K. split.
  - eexists; eexists. split; [now apply rfp_without_key|].
    repeat split; reflexivity.
  - eexists; eexists. split; [now apply proposal_without_key|].
    repeat split; reflexivity.
Qed.

Lemma missing_credential_envelope_witness :
  whitespace_only (py "Test input") = false /\
  key_missing (GEMINI_API_KEY Demo.world_without_key) = true /\
  (exists r msg,
     extract_rfp_from_text (Demo.runtime []) Demo.world_without_key
       (py "Test input") = Ok r /\
     RfpResult.success r = false /\
     RfpResult.error r = Some msg /\ contains (py "GEMINI_API_KEY") msg = true /\
     RfpResult.title r = PNone /\ RfpResult.budget r = None /\
     RfpResult.deadline r = PNone /\ RfpResult.items r = []) /\
  (exists r msg,
     extract_proposal_from_email (Demo.runtime []) Demo.world_without_key
       (py "Test input") = Ok r /\
     ProposalResult.success r = false /\
     ProposalResult.error r = Some msg /\ contains (py "GEMINI_API_KEY") msg = true /\
     ProposalResult.price r = None /\ ProposalResult.payment_terms r = PNone /\
     ProposalResult.warranty r = PNone).
Proof.
  split; [reflexivity|]. split; [reflexivity|].
  apply (missing_credential_envelope (Demo.runtime []) Demo.world_without_key
           (py "Test input")); reflexivity.
Defined.

(* ===================================================================== *)
(** ** utils.py: the Markdown fence *)
(* ===================================================================== *)

Section Fence.

Lemma fence_literal : py "```" = [backtick; backtick; backtick].
Proof. reflexivity. Qed.

Lemma tagged_fence_literal : py "```json" = py "```" ++ py "json".
Proof. reflexivity. Qed.

Lemma json_literal : py "json" = [106; 115; 111; 110]%N.
Proof. reflexivity. Qed.

Lemma json_first_plain (c : N) :
  json_first c = true -> isspace c = false /\ c <> backtick /\ c <> 106%N.
Proof.
  unfold json_first. simpl. intros H.
  repeat (apply orb_true_iff in H; destruct H as [H|H]);
    try discriminate;
    apply N.eqb_eq in H; subst c; repeat split; discriminate.
Qed.

Lemma json_last_plain (c : N) :
  json_last c = true -> isspace c = false /\ c <> backtick.
Proof.
  unfold json_last. simpl. intros H.
  repeat (apply orb_true_iff in H; destruct H as [H|H]);
    try discriminate;
    apply N.eqb_eq in H; subst c; repeat split; discriminate.
Qed.

Lemma isspace_plain (c : N) :
  isspace c = true -> c <> backtick /\ c <> 106%N.
Proof.
  unfold isspace. simpl. intros H.
  repeat (apply orb_true_iff in H; destruct H as [H|H]);
    try discriminate;
    apply N.eqb_eq in H; subst c; split; discriminate.
Qed.

(** Neither test of the cleaning step fires on a text that opens and
    closes with other characters than a backtick. *)
Lemma clean_without_fence (s : pystr) (a z : N) (r r' : pystr) :
  strip s = a :: r -> rev (strip s) = z :: r' ->
  a <> backtick -> z <> backtick ->
  clean_response_text s = strip s.
Proof.
  intros E R Ha Hz. unfold clean_response_text.
  rewrite tagged_fence_literal, fence_literal. rewrite E.
  cbn [app]. rewrite !(startswith_head backtick a _ _ Ha).
  unfold endswith. rewrite <- E, R. cbn [rev app].
  rewrite (startswith_head backtick z _ _ Hz).
  apply strip_idem.
Qed.

(** The cleaning step on a fenced text whose content opens with neither a
    backtick nor the letter [j]. *)
Lemma clean_fenced (tagged : bool) (c : N) (rest : pystr) :
  c <> backtick -> c <> 106%N ->
  clean_response_text
    (py "```" ++ (if tagged then py "json" else []) ++ (c :: rest) ++ py "```")
  = strip (c :: rest).
Proof.
  intros Hb Hj. unfold clean_response_text.
  set (inner := (c :: rest) ++ py "```").
  assert (Hin : inner = c :: (rest ++ py "```")) by reflexivity.
  assert (Hstrip : forall u, u = py "```" ++ (if tagged then py "json" else []) ++ inner ->
                             strip u = u).
  { intros u ->.
    destruct (rev (py "```" ++ (if tagged then py "json" else []) ++ inner))
      as [|z r'] eqn:R.
    - apply (f_equal (@List.length N)) in R. rewrite length_rev in R.
      rewrite fence_literal in R. discriminate.
    - assert (z = backtick) as ->.
      { unfold inner in R. rewrite !app_assoc in R. rewrite rev_app_distr in R.
        rewrite fence_literal in R. cbn [rev app] in R. now injection R as <- _. }
      eapply strip_fixed; [rewrite fence_literal; reflexivity | exact R | reflexivity..]. }
  rewrite (Hstrip _ eq_refl).
  assert (S3 : startswith (py "```") inner = false).
  { rewrite Hin, fence_literal. now apply startswith_head. }
  assert (E3 : endswith (py "```") inner = true) by apply endswith_app.
  assert (Sl : slice_to_minus 3 inner = c :: rest).
  { exact (slice_to_minus_app (py "```") (c :: rest)). }
  destruct tagged.
  - replace (py "```" ++ py "json" ++ inner) with (py "```json" ++ inner) by reflexivity.
    rewrite startswith_app.
    replace (slice_from 7 (py "```json" ++ inner)) with inner by reflexivity.
    now rewrite S3, E3, Sl.
  - assert (S7 : startswith (py "```json") (py "```" ++ [] ++ inner) = false).
    { rewrite Hin, tagged_fence_literal, fence_literal, json_literal.
      cbn [app startswith]. rewrite !N.eqb_refl. cbn [andb].
      apply andb_false_iff. left. apply N.eqb_neq. congruence. }
    rewrite S7.
    replace (py "```" ++ [] ++ inner) with (py "```" ++ inner) by reflexivity.
    rewrite startswith_app.
    replace (slice_from 3 (py "```" ++ inner)) with inner by reflexivity.
    now rewrite E3, Sl.
Qed.

(** The content of a fence opens with a blank or with the first character
    of the text. *)
Lemma content_head (sep1 sep2 t : pystr) :
  forallb isspace sep1 = true -> json_delimited t = true ->
  exists c rest, sep1 ++ t ++ sep2 = c :: rest /\ c <> backtick /\ c <> 106%N.
Proof.
  intros H1 J. unfold json_delimited in J.
  destruct (strip t) as [|a r] eqn:E; [discriminate|].
  destruct (rev (a :: r)) as [|z r'] eqn:R; [discriminate|].
  apply andb_true_iff in J as [Ja _].
  destruct sep1 as [|b sep1].
  - destruct t as [|c t]; [discriminate|]. exists c, (t ++ sep2).
    split; [reflexivity|].
    destruct (isspace c) eqn:Sc; [now apply isspace_plain|].
    destruct (strip_lstrip_head (c :: t) c t (lstrip_head c t Sc)) as [r0 Hr0].
    rewrite Hr0 in E. injection E as -> _.
    now apply json_first_plain in Ja.
  - exists b, (sep1 ++ t ++ sep2). split; [reflexivity|].
    simpl in H1. apply andb_true_iff in H1 as [Hb _]. now apply isspace_plain.
Qed.

(** The cleaning step gives the same text with and without the fence. *)
Lemma clean_fence_transparent (tagged : bool) (sep1 sep2 t : pystr) :
  forallb isspace sep1 = true -> forallb isspace sep2 = true ->
  json_delimited t = true ->
  clean_response_text (fenced tagged sep1 sep2 t) = clean_response_text t.
Proof.
  intros H1 H2 J.
  destruct (content_head sep1 sep2 t H1 J) as (c & rest & Hc & Hb & Hj).
  unfold fenced.
  replace (sep1 ++ t ++ sep2 ++ py "```") with ((sep1 ++ t ++ sep2) ++ py "```")
    by (now rewrite <- !app_assoc).
  rewrite Hc, (clean_fenced tagged c rest Hb Hj), <- Hc.
  rewrite (strip_padded sep1 sep2 t H1 H2).
  unfold json_delimited in J.
  destruct (strip t) as [|a r] eqn:E; [discriminate|].
  destruct (rev (a :: r)) as [|z r'] eqn:R; [discriminate|].
  apply andb_true_iff in J as [Ja Jz].
  apply json_first_plain in Ja as (_ & Ha & _).
  apply json_last_plain in Jz as (_ & Hz).
  rewrite <- E in R.
  rewrite (clean_without_fence t a z r r' E R Ha Hz). now rewrite E.
Qed.

(** On a text that is delimited as a JSON text is, the cleaning step is
    [strip]; and on that text inside a fence it gives the same. *)
Lemma clean_delimited (t : pystr) :
  json_delimited t = true -> clean_response_text t = strip t /\ strip t <> [].
Proof.
  intros J. unfold json_delimited in J.
  destruct (strip t) as [|a r] eqn:E; [discriminate|].
  destruct (rev (a :: r)) as [|z r'] eqn:R; [discriminate|].
  apply andb_true_iff in J as [Ja Jz].
  apply json_first_plain in Ja as (_ & Ha & _).
  apply json_last_plain in Jz as (_ & Hz).
  rewrite <- E in R.
  rewrite (clean_without_fence t a z r r' E R Ha Hz). rewrite E.
  split; [reflexivity | discriminate].
Qed.

Lemma clean_fenced_delimited (tagged : bool) (sep1 sep2 t : pystr) :
  forallb isspace sep1 = true -> forallb isspace sep2 = true ->
  json_delimited t = true ->
  clean_response_text (fenced tagged sep1 sep2 t) = strip t.
Proof.
  intros H1 H2 J.
  rewrite (clean_fence_transparent tagged sep1 sep2 t H1 H2 J).
  exact (proj1 (clean_delimited t J)).
Qed.

(** *** Every JSON text is delimited as the cleaning step needs *)

Lemma json_ws_isspace (s : pystr) :
  json_ws s = true -> forallb isspace s = true.
Proof.
  unfold json_ws. induction s as [|c s IH]; simpl; [reflexivity|].
  intros H. apply andb_true_iff in H as [Hc Hs]. rewrite (IH Hs), andb_true_r.
  unfold json_blank in Hc. simpl in Hc.
  repeat (apply orb_true_iff in Hc; destruct Hc as [Hc|Hc]);
    try discriminate; apply N.eqb_eq in Hc; subst c; reflexivity.
Qed.

Lemma digit_cases (c : N) :
  is_digit c = true -> json_first c = true /\ json_last c = true.
Proof.
  unfold is_digit. intros H. apply andb_true_iff in H as [L U].
  apply N.leb_le in L, U.
  assert (C : (c = 48 \/ c = 49 \/ c = 50 \/ c = 51 \/ c = 52 \/
               c = 53 \/ c = 54 \/ c = 55 \/ c = 56 \/ c = 57)%N) by lia.
  repeat (destruct C as [->|C]; [split; reflexivity|]). subst c. split; reflexivity.
Qed.

Lemma closes_well_app (a b : pystr) : closes_well b -> closes_well (a ++ b).
Proof.
  intros (z & r & Hr & Hz). exists z, (r ++ rev a).
  split; [|exact Hz]. now rewrite rev_app_distr, Hr.
Qed.

Lemma closes_well_snoc (s : pystr) (z : N) :
  json_last z = true -> closes_well (s ++ [z]).
Proof.
  intros Hz. apply closes_well_app. exists z, []. split; [reflexivity | exact Hz].
Qed.

Lemma digits_close_well (s : pystr) :
  s <> [] -> forallb is_digit s = true -> closes_well s.
Proof.
  intros Hne Hd. destruct (rev s) as [|z r] eqn:R.
  - apply (f_equal (@rev N)) in R. rewrite rev_involutive in R. now destruct Hne.
  - exists z, r. split; [exact R|].
    assert (Hin : In z s) by (apply in_rev; rewrite R; now left).
    apply (proj1 (forallb_forall _ _) Hd) in Hin. now apply digit_cases.
Qed.

Lemma int_digits (i : pystr) :
  json_int i -> i <> [] /\ forallb is_digit i = true /\ opens_well i.
Proof.
  intros [->|(d & ds & -> & Hd & _ & Hds)].
  - repeat split; [discriminate | exists 48%N, []; now split].
  - repeat split; [discriminate | simpl; now rewrite Hd, Hds |].
    exists d, ds. split; [reflexivity | now apply digit_cases].
Qed.

Lemma number_delimited (s : pystr) :
  json_number s -> opens_well s /\ closes_well s.
Proof.
  intros (minus & i & f & e & -> & Hm & Hi & Hf & He).
  destruct (int_digits i Hi) as (Hne & Hd & (a & r & -> & Ha)).
  split.
  - destruct Hm as [->| ->].
    + exists a, (r ++ f ++ e). now split.
    + exists 45%N, ((a :: r) ++ f ++ e). now split.
  - apply closes_well_app.
    destruct He as [->|(c & sign & ds & -> & _ & _ & Hne' & Hds)].
    + rewrite app_nil_r.
      destruct Hf as [->|(ds & -> & Hne' & Hds)].
      * rewrite app_nil_r. now apply digits_close_well.
      * apply closes_well_app.
        apply (closes_well_app [46%N]). now apply digits_close_well.
    + rewrite app_assoc. apply closes_well_app.
      apply (closes_well_app (c :: sign)). now apply digits_close_well.
Qed.

Lemma value_delimited (v : pystr) :
  json_value v -> opens_well v /\ closes_well v.
Proof.
  intros H. destruct H;
    try (split; [eexists; eexists; split; reflexivity
                | eexists; eexists; split; reflexivity]).
  - now apply number_delimited.
  - split; [exists 34%N, (s ++ [34%N]); now split|].
    apply (closes_well_snoc (34%N :: s)). reflexivity.
  - split; [exists 91%N, (ws ++ [93%N]); now split|].
    apply (closes_well_snoc (91%N :: ws)). reflexivity.
  - split; [exists 91%N, (es ++ [93%N]); now split|].
    apply (closes_well_snoc (91%N :: es)). reflexivity.
  - split; [exists 123%N, (ws ++ [125%N]); now split|].
    apply (closes_well_snoc (123%N :: ws)). reflexivity.
  - split; [exists 123%N, (ms ++ [125%N]); now split|].
    apply (closes_well_snoc (123%N :: ms)). reflexivity.
Qed.

(** A JSON text, stripped, is its value: it opens and closes with the
    characters a value opens and closes with. *)
Lemma json_text_delimited (t : pystr) :
  json_text t -> json_delimited t = true.
Proof.
  intros (ws1 & v & ws2 & -> & H1 & Hv & H2).
  destruct (value_delimited v Hv) as ((a & r & Ev & Ha) & (z & r' & Rv & Hz)).
  unfold json_delimited.
  rewrite (strip_padded ws1 ws2 v (json_ws_isspace _ H1) (json_ws_isspace _ H2)).
  rewrite (strip_fixed v a z r r' Ev Rv
             (proj1 (json_first_plain a Ha)) (proj1 (json_last_plain z Hz))).
  rewrite Rv, Ev. now rewrite Ha, Hz.
Qed.

End Fence.

(** C7. For every JSON text [t], the response made of [t] inside a Markdown
    fence (a leading fence, tagged [json] or not, and a trailing fence, with
    any blanks, line breaks usually, between fence and text) is cleaned to
    [t] without the white space around it, which is not empty and is what
    [t] alone is cleaned to. So [json.loads] is given that text in both
    cases, both extraction functions return the same result as on the bare
    [t], and when the decoder reads an object from the text, the result is
    the one built from that object. *)
Theorem fence_stripping_is_transparent
    (rt : PyRuntime) (w : World) (tagged : bool) (sep1 sep2 t input : pystr) :
  json_text t ->
  forallb isspace sep1 = true ->
  forallb isspace sep2 = true ->
  clean_response_text (fenced tagged sep1 sep2 t) = clean_response_text t /\
  json_loads rt (clean_response_text (fenced tagged sep1 sep2 t)) =
    json_loads rt (clean_response_text t) /\
  extract_rfp_from_text rt (answering w (fenced tagged sep1 sep2 t)) input =
    extract_rfp_from_text rt (answering w t) input /\
  extract_proposal_from_email rt (answering w (fenced tagged sep1 sep2 t)) input =
    extract_proposal_from_email rt (answering w t) input /\
  clean_response_text (fenced tagged sep1 sep2 t) = strip t /\
  clean_response_text t = strip t /\
  strip t <> [] /\
  (whitespace_only input = false ->
   key_missing (GEMINI_API_KEY w) = false ->
   forall data,
     json_loads rt (strip t) = Ok data ->
     extract_rfp_from_text rt (answering w (fenced tagged sep1 sep2 t)) input =
       try_except (normalize_rfp rt data) ExceptException
         (fun e => Ok (rfp_failure (describe e) None)) /\
     extract_proposal_from_email rt (answering w (fenced tagged sep1 sep2 t)) input =
       try_except (normalize_proposal rt data) ExceptException
         (fun e => Ok (proposal_failure (describe e) None))).
Proof.
  intros Jt H1 H2. pose proof (json_text_delimited t Jt) as J.
  pose proof (clean_fence_transparent tagged sep1 sep2 t H1 H2 J) as C.
  pose proof (clean_fenced_delimited tagged sep1 sep2 t H1 H2 J) as F.
  destruct (clean_delimited t J) as [B Ne].
  assert (Ht : str_is_empty t = false).
  { destruct t; [discriminate J | reflexivity]. }
  assert (Hf : str_is_empty (fenced tagged sep1 sep2 t) = false) by reflexivity.
  split; [exact C|]. split; [now rewrite C|].
  split; [|split; [|split; [exact F | split; [exact B | split; [exact Ne|]]]]].
  - unfold extract_rfp_from_text.
    cbn [answering GEMINI_API_KEY generate_content bind]. cbv zeta.
    now rewrite Hf, Ht, C.
  - unfold extract_proposal_from_email.
    cbn [answering GEMINI_API_KEY generate_content bind]. cbv zeta.
    now rewrite Hf, Ht, C.
  - intros Hi Hk data D.
    unfold extract_rfp_from_text, extract_proposal_from_email.
    rewrite is_blank_spec, Hi.
    cbn [answering GEMINI_API_KEY generate_content bind]. cbv zeta.
    rewrite Hk, Hf, F, D. split; reflexivity.
Qed.

(** The answer of [test_markdown_json_cleanup] is a JSON text. *)
Lemma test_rfp_text_is_json : json_text Samples.test_rfp_text.
Proof.
  exists [], Samples.test_rfp_text, [].
  split; [reflexivity|]. split; [reflexivity|]. split; [|reflexivity].
  apply (@value_object
           (pyq "'title': 'Test RFP', 'budget': 10000, 'deadline': null, 'items': []")).
  apply (@members_more [] (py "title") [] [32%N] (pyq "'Test RFP'") []
           (pyq " 'budget': 10000, 'deadline': null, 'items': []"));
    try reflexivity; try json_chars_of_literal.
  { apply (@value_string (py "Test RFP")). json_chars_of_literal. }
  apply (@members_more [32%N] (py "budget") [] [32%N] (py "10000") []
           (pyq " 'deadline': null, 'items': []"));
    try reflexivity; try json_chars_of_literal.
  { apply value_number. exists [], (py "10000"), [], [].
    split; [reflexivity|]. split; [now left|]. split; [|split; now left].
    right. exists 49%N, (py "0000"). repeat split. discriminate. }
  apply (@members_more [32%N] (py "deadline") [] [32%N] (py "null") []
           (pyq " 'items': []"));
    try reflexivity; try json_chars_of_literal.
  { apply value_null. }
  apply (@members_last [32%N] (py "items") [] [32%N] (py "[]") []);
    try reflexivity; try json_chars_of_literal.
  apply (@value_empty_array []). reflexivity.
Qed.

Lemma fence_stripping_is_transparent_witness :
  json_text Samples.test_rfp_text /\
  forallb isspace Samples.newline = true /\
  clean_response_text (fenced true Samples.newline Samples.newline Samples.test_rfp_text)
    = clean_response_text Samples.test_rfp_text /\
  extract_rfp_from_text Samples.runtime
    (answering (Demo.world [])
       (fenced true Samples.newline Samples.newline Samples.test_rfp_text))
    (py "Test input")
  = extract_rfp_from_text Samples.runtime
      (answering (Demo.world []) Samples.test_rfp_text) (py "Test input") /\
  clean_response_text (fenced true Samples.newline Samples.newline Samples.test_rfp_text)
    = Samples.test_rfp_text /\
  exists r,
    extract_rfp_from_text Samples.runtime
      (answering (Demo.world [])
         (fenced true Samples.newline Samples.newline Samples.test_rfp_text))
      (py "Test input") = Ok r /\
    RfpResult.success r = true /\ RfpResult.title r = PStr (py "Test RFP").
Proof.
  split; [exact test_rfp_text_is_json|]. split; [reflexivity|].
  pose proof (fence_stripping_is_transparent Samples.runtime (Demo.world []) true
                Samples.newline Samples.newline Samples.test_rfp_text (py "Test input")
                test_rfp_text_is_json eq_refl eq_refl)
    as (C & _ & R & _ & F & _ & _ & P).
  split; [exact C|]. split; [exact R|].
  split; [rewrite F; vm_compute; reflexivity|].
  destruct (P eq_refl eq_refl Samples.test_rfp_object) as [Pr _];
    [vm_compute; reflexivity|].
  eexists. split; [rewrite Pr; vm_compute; reflexivity|].
  split; reflexivity.
Defined.

(** [test_markdown_json_cleanup]: the fenced answer is decoded, the title is
    kept and the budget becomes the float 10000.0. *)
Example markdown_json_cleanup :
  exists r,
    extract_rfp_from_text Samples.runtime
      (Demo.world (fenced true Samples.newline Samples.newline Samples.test_rfp_text))
      (py "Test input") = Ok r /\
    RfpResult.success r = true /\
    RfpResult.title r = PStr (py "Test RFP") /\
    RfpResult.budget r = Some (Demo.flt 10000).
Proof. eexists. split; [vm_compute; reflexivity|]. repeat split. Qed.

(* ===================================================================== *)
(** ** utils.py: the validation of the decoded object *)
(* ===================================================================== *)

Section Normalization.

Context (rt : PyRuntime).

(** [float] raises nothing but the three errors of the conversion. *)
Lemma py_float_errors (v : pyval) (e : exception) :
  py_float rt v = Raise e ->
  exc_type e = ValueError \/ exc_type e = TypeError \/ exc_type e = OverflowError.
Proof.
  destruct v as [ |b|z|f|s|l|d]; simpl; unfold raise_builtin;
    try (intros H; injection H as <-; simpl; tauto); try discriminate.
  - destruct (float_of_int z); [discriminate|].
    intros H; injection H as <-; simpl; tauto.
  - destruct (float_of_str rt s); [discriminate|].
    intros H; injection H as <-; simpl; tauto.
Qed.

(** The numeric field, case by case: the float when the conversion
    returns, [None] on a [ValueError] or a [TypeError], and the
    [OverflowError] of an integer beyond the floats goes on. *)
Lemma validate_number_cases (v : pyval) :
  v <> PNone ->
  match py_float rt v with
  | Ok f => validate_number rt v = Ok (Some f)
  | Raise e =>
      if catches ExceptValueOrTypeError (exc_type e)
      then validate_number rt v = Ok None
      else validate_number rt v = Raise e /\ exc_type e = OverflowError
  end.
Proof.
  intros Hv. unfold validate_number.
  assert (is_none v = false) as -> by (destruct v; simpl; congruence).
  destruct (py_float rt v) as [f|e] eqn:E; simpl; [reflexivity|].
  destruct (py_float_errors v e E) as [H|[H|H]]; rewrite H; simpl; auto.
Qed.

Lemma validate_number_overflow (z : Z) :
  float_of_int z = None ->
  validate_number rt (PInt z) =
  Raise (Exc OverflowError (error_message rt (py "float") (PInt z))).
Proof. intros H. unfold validate_number. simpl. now rewrite H. Qed.

(** The deadline check never raises. *)
Lemma validate_deadline_cases (v : pyval) :
  validate_deadline rt v = Ok (if truthy v then deadline_by_parser rt v else v).
Proof.
  unfold validate_deadline. destruct (truthy v); [|reflexivity].
  destruct v as [ |b|z|f|s|l|d]; try reflexivity.
  simpl. destruct (fromisoformat_accepts rt s); reflexivity.
Qed.

(** The loop over the entries, when every kept entry has a quantity that
    [int] converts: the kept entries in order, each with its converted
    quantity. *)
Lemma validate_items_all_convert (l : list pyval) :
  Forall (fun v => named_entry v = true -> is_ok (py_int rt (raw_quantity v)) = true) l ->
  exists qs,
    validate_items rt l = Ok qs /\
    Forall2 (fun v item => exists q, py_int rt (raw_quantity v) = Ok q /\
                                     item = validated rt v q)
      (filter named_entry l) qs.
Proof.
  induction 1 as [|v l Hv _ IH].
  - exists []. split; [reflexivity | constructor].
  - destruct IH as (qs & Hqs & F).
    destruct v as [ |b|z|f|s|l0|d];
      try (exists qs; split; [exact Hqs | exact F]).
    simpl. destruct (dict_contains (py "name") d) eqn:N.
    + simpl in Hv. rewrite N in Hv. specialize (Hv eq_refl).
      destruct (py_int rt (items_get d (py "quantity") (PInt 1))) as [q|e] eqn:Q;
        [|discriminate].
      simpl. rewrite Hqs. simpl. eexists. split; [reflexivity|].
      constructor; [|exact F]. exists q. split; [exact Q | reflexivity].
    + exists qs. split; [exact Hqs | exact F].
Qed.

(** The loop stops at a kept entry whose quantity [int] refuses. *)
Lemma validate_items_bad_quantity (pre post : list pyval) (d : list (pystr * pyval))
    (e : exception) :
  dict_contains (py "name") d = true ->
  py_int rt (items_get d (py "quantity") (PInt 1)) = Raise e ->
  exists e', validate_items rt (pre ++ PDict d :: post) = Raise e'.
Proof.
  intros N Q. induction pre as [|v pre IH].
  - cbn [app validate_items]. rewrite N, Q. simpl. eauto.
  - destruct IH as (e' & IH). rewrite <- app_comm_cons.
    destruct v as [ |b|z|f|s|l0|d0]; cbn [validate_items];
      try solve [rewrite IH; eauto].
    destruct (dict_contains (py "name") d0); [|rewrite IH; eauto].
    destruct (py_int rt (items_get d0 (py "quantity") (PInt 1)));
      cbn [bind]; [|eauto].
    rewrite IH. cbn [bind]. eauto.
Qed.

Lemma normalize_rfp_dict (d : list (pystr * pyval)) :
  normalize_rfp rt (PDict d) =
  (budget <- validate_number rt (items_get d (py "budget") PNone) ;;
   deadline <- validate_deadline rt (items_get d (py "deadline") PNone) ;;
   entries <- py_iter rt (items_get d (py "items") (PList [])) ;;
   validated_items <- validate_items rt entries ;;
   Ok {| RfpResult.success := true;
         RfpResult.error := None;
         RfpResult.title := items_get d (py "title") (PStr (py "Untitled RFP"));
         RfpResult.budget := budget;
         RfpResult.deadline := deadline;
         RfpResult.items := validated_items;
         RfpResult.raw_response := None |}).
Proof. reflexivity. Qed.

Lemma normalize_proposal_dict (d : list (pystr * pyval)) :
  normalize_proposal rt (PDict d) =
  (price <- validate_number rt (items_get d (py "price") PNone) ;;
   Ok {| ProposalResult.success := true;
         ProposalResult.error := None;
         ProposalResult.price := price;
         ProposalResult.payment_terms := items_get d (py "payment_terms") PNone;
         ProposalResult.warranty := items_get d (py "warranty") PNone;
         ProposalResult.raw_response := None |}).
Proof. reflexivity. Qed.

(** What an extraction returns once the service has answered a text that
    is decoded: the validated object, or the failing dictionary that
    describes the exception the validation raised. *)
Lemma rfp_decoded (w : World) (input text : pystr) (data : pyval) :
  whitespace_only input = false ->
  key_missing (GEMINI_API_KEY w) = false ->
  str_is_empty text = false ->
  json_loads rt (clean_response_text text) = Ok data ->
  extract_rfp_from_text rt (answering w text) input =
  Ok match normalize_rfp rt data with
     | Ok r => r
     | Raise e => rfp_failure (describe e) None
     end.
Proof.
  intros B K T J. unfold extract_rfp_from_text.
  rewrite is_blank_spec, B. cbn [answering GEMINI_API_KEY generate_content bind].
  cbv zeta. rewrite K, T, J. destruct (normalize_rfp rt data); reflexivity.
Qed.

Lemma proposal_decoded (w : World) (input text : pystr) (data : pyval) :
  whitespace_only input = false ->
  key_missing (GEMINI_API_KEY w) = false ->
  str_is_empty text = false ->
  json_loads rt (clean_response_text text) = Ok data ->
  extract_proposal_from_email rt (answering w text) input =
  Ok match normalize_proposal rt data with
     | Ok r => r
     | Raise e => proposal_failure (describe e) None
     end.
Proof.
  intros B K T J. unfold extract_proposal_from_email.
  rewrite is_blank_spec, B. cbn [answering GEMINI_API_KEY generate_content bind].
  cbv zeta. rewrite K, T, J. destruct (normalize_proposal rt data); reflexivity.
Qed.

End Normalization.

(** C3 (the loop does not do what the claim says of a quantity that cannot
    be converted). Entries that are not objects or have no name are dropped,
    and a kept entry gets [int] of its quantity, 1 when it has none
    ([validate_items_all_convert]); but [int] is called outside any handler
    of its own, so when the answer decodes to an object whose items hold a
    named entry with a quantity [int] refuses ([null], a word, a list, a
    NaN), the error reaches the outer [except Exception] and the whole
    extraction returns [success] false with no item. *)
Theorem bad_quantity_fails_extraction
    (rt : PyRuntime) (w : World) (input text : pystr)
    (d item : list (pystr * pyval)) (pre post : list pyval) (e : exception) :
  whitespace_only input = false ->
  key_missing (GEMINI_API_KEY w) = false ->
  str_is_empty text = false ->
  json_loads rt (clean_response_text text) = Ok (PDict d) ->
  items_get d (py "items") (PList []) = PList (pre ++ PDict item :: post) ->
  dict_contains (py "name") item = true ->
  py_int rt (items_get item (py "quantity") (PInt 1)) = Raise e ->
  exists r,
    extract_rfp_from_text rt (answering w text) input = Ok r /\
    RfpResult.success r = false /\
    RfpResult.items r = [].
Proof.
  intros B K T J I N Q.
  rewrite (rfp_decoded rt w input text (PDict d) B K T J).
  eexists. split; [reflexivity|].
  rewrite normalize_rfp_dict, I.
  destruct (validate_items_bad_quantity rt pre post item e N Q) as (e' & V).
  destruct (validate_number rt (items_get d (py "budget") PNone)); cbn [bind];
    [|split; reflexivity].
  rewrite validate_deadline_cases. cbn [bind py_iter].
  rewrite V. split; reflexivity.
Qed.

Lemma bad_quantity_fails_extraction_witness :
  json_loads Samples.runtime (clean_response_text Samples.null_quantity_text)
    = Ok Samples.null_quantity_object /\
  exists r,
    extract_rfp_from_text Samples.runtime
      (answering (Demo.world []) Samples.null_quantity_text)
      (py "We need laptops for the office") = Ok r /\
    RfpResult.success r = false /\
    RfpResult.items r = [].
Proof.
  split; [reflexivity|].
  apply (bad_quantity_fails_extraction Samples.runtime (Demo.world [])
           (py "We need laptops for the office") Samples.null_quantity_text
           [ (py "title", PStr (py "Office Laptop Purchase"));
             (py "items",
              PList [ PDict [ (py "name", PStr (py "Laptops"));
                              (py "quantity", PNone) ] ]) ]
           [ (py "name", PStr (py "Laptops")); (py "quantity", PNone) ]
           [] []
           (Exc TypeError (error_message Samples.runtime (py "int") PNone)));
    reflexivity.
Defined.

(** The claim of C4 fails on the code: a date with a time of day is not a
    calendar date and is kept, and the false values [0] and the empty text
    are not replaced by [None]. *)
Lemma deadline_counterexample :
  (validate_deadline Samples.runtime (PStr (py "2024-03-15T10:30:00"))
     = Ok (PStr (py "2024-03-15T10:30:00")) /\
   deadline_by_spec (PStr (py "2024-03-15T10:30:00")) = PNone) /\
  (validate_deadline Samples.runtime (PInt 0) = Ok (PInt 0) /\
   deadline_by_spec (PInt 0) = PNone) /\
  (validate_deadline Samples.runtime (PStr []) = Ok (PStr []) /\
   deadline_by_spec (PStr []) = PNone).
Proof. repeat split; reflexivity. Qed.

(** C4, amended. For every decoded deadline that is true (not [None], not
    an empty or zero value), the value is kept exactly when it is a text
    that [datetime.fromisoformat] accepts, which covers dates and dates
    with a time, and is replaced by [None] otherwise; the check itself
    never raises, so no deadline fails the extraction. *)
Theorem deadline_kept_iff_parser_accepts (rt : PyRuntime) (v : pyval) :
  truthy v = true ->
  validate_deadline rt v = Ok (deadline_by_parser rt v) /\
  (deadline_by_parser rt v = v \/ deadline_by_parser rt v = PNone) /\
  (deadline_by_parser rt v = v <->
   exists s, v = PStr s /\ fromisoformat_accepts rt s = true).
Proof.
  intros T. split; [|split].
  - now rewrite validate_deadline_cases, T.
  - destruct v as [ |b|z|f|s|l|d]; simpl; auto.
    destruct (fromisoformat_accepts rt s); auto.
  - destruct v as [ |b|z|f|s|l|d]; simpl; split;
      try discriminate; try (intros (s0 & H & _); discriminate).
    + destruct (fromisoformat_accepts rt s) eqn:A; [eauto | discriminate].
    + intros (s0 & H & A). injection H as <-. now rewrite A.
Qed.

Lemma deadline_kept_iff_parser_accepts_witness :
  truthy (PStr (py "2024-03-15")) = true /\
  validate_deadline Samples.runtime (PStr (py "2024-03-15")) = Ok (PStr (py "2024-03-15")) /\
  truthy (PStr (py "March 15")) = true /\
  validate_deadline Samples.runtime (PStr (py "March 15")) = Ok PNone.
Proof.
  split; [reflexivity|].
  split; [exact (proj1 (deadline_kept_iff_parser_accepts Samples.runtime
                          (PStr (py "2024-03-15")) eq_refl))|].
  split; [reflexivity|].
  exact (proj1 (deadline_kept_iff_parser_accepts Samples.runtime
                  (PStr (py "March 15")) eq_refl)).
Defined.

(** C8 (the numeric guard misses one error of the conversion). A value that
    [float] converts is kept as that float and one on which [float] raises
    [ValueError] or [TypeError] becomes [None] ([validate_number_cases]);
    but an integer beyond the range of the floats makes [float] raise
    [OverflowError], which [except (ValueError, TypeError)] lets through to
    the outer handler: the extraction returns [success] false, for the
    budget of an RFP and for the price of a proposal alike. *)
Theorem overflowing_number_fails_extraction
    (rt : PyRuntime) (w : World) (input text : pystr)
    (d : list (pystr * pyval)) (z : Z) :
  whitespace_only input = false ->
  key_missing (GEMINI_API_KEY w) = false ->
  str_is_empty text = false ->
  json_loads rt (clean_response_text text) = Ok (PDict d) ->
  float_of_int z = None ->
  (items_get d (py "budget") PNone = PInt z ->
   exists r,
     extract_rfp_from_text rt (answering w text) input = Ok r /\
     RfpResult.success r = false /\
     RfpResult.error r =
       Some (py "OverflowError: " ++ error_message rt (py "float") (PInt z)) /\
     RfpResult.budget r = None) /\
  (items_get d (py "price") PNone = PInt z ->
   exists r,
     extract_proposal_from_email rt (answering w text) input = Ok r /\
     ProposalResult.success r = false /\
     ProposalResult.error r =
       Some (py "OverflowError: " ++ error_message rt (py "float") (PInt z)) /\
     ProposalResult.price r = None).
Proof.
  intros B K T J F. split; intros G.
  - rewrite (rfp_decoded rt w input text (PDict d) B K T J).
    eexists. split; [reflexivity|].
    rewrite normalize_rfp_dict, G, (validate_number_overflow rt z F).
    repeat split; reflexivity.
  - rewrite (proposal_decoded rt w input text (PDict d) B K T J).
    eexists. split; [reflexivity|].
    rewrite normalize_proposal_dict, G, (validate_number_overflow rt z F).
    repeat split; reflexivity.
Qed.

Lemma overflowing_number_fails_extraction_witness :
  float_of_int Samples.huge = None /\
  (exists r,
     extract_rfp_from_text Samples.runtime
       (answering (Demo.world []) Samples.huge_budget_text)
       (py "We need a fleet of trucks") = Ok r /\
     RfpResult.success r = false /\
     RfpResult.error r =
       Some (py "OverflowError: " ++
             error_message Samples.runtime (py "float") (PInt Samples.huge)) /\
     RfpResult.budget r = None) /\
  (exists r,
     extract_proposal_from_email Samples.runtime
       (answering (Demo.world []) Samples.huge_price_text)
       (py "Our quote is attached") = Ok r /\
     ProposalResult.success r = false /\
     ProposalResult.error r =
       Some (py "OverflowError: " ++
             error_message Samples.runtime (py "float") (PInt Samples.huge)) /\
     ProposalResult.price r = None).
Proof.
  split; [vm_compute; reflexivity|]. split.
  - apply (overflowing_number_fails_extraction Samples.runtime (Demo.world [])
             (py "We need a fleet of trucks") Samples.huge_budget_text
             [ (py "title", PStr (py "Fleet"));
               (py "budget", PInt Samples.huge);
               (py "items", PList []) ]
             Samples.huge);
      vm_compute; reflexivity.
  - apply (overflowing_number_fails_extraction Samples.runtime (Demo.world [])
             (py "Our quote is attached") Samples.huge_price_text
             [ (py "price", PInt Samples.huge);
               (py "payment_terms", PStr (py "Net 30"));
               (py "warranty", PNone) ]
             Samples.huge);
      vm_compute; reflexivity.
Defined.

(* ===================================================================== *)
(** ** views.py: quantities and the atomic creation *)
(* ===================================================================== *)

Section Quantities.

Context (rt : PyRuntime).



(** Whatever it returns is at least 1. *)
Lemma parse_quantity_at_least_one (v : pyval) (q : Z) :
  _parse_quantity rt v = Ok q -> 1 <= q.
Proof.
  unfold _parse_quantity.
  destruct (py_int rt v) as [z|e]; cbn [bind try_except].
  - intros H. injection H as H. lia.
  - destruct (catches ExceptValueOrTypeError (exc_type e)); [|discriminate].
    intros H. injection H as H. lia.
Qed.

(** On the integer quantities [create_rfp_from_text] passes, it returns. *)
Lemma parse_quantity_int (z : Z) : _parse_quantity rt (PInt z) = Ok (Z.max 1 z).
Proof. reflexivity. Qed.

End Quantities.



Section Creation.

Context (rt : PyRuntime) (w : World) (be : Backend).









(** The block under [transaction.atomic()] leaves the store it found when
    it raises. *)
Lemma atomic_raise {A} (body : orm A) (db db' : Database) (e : exception) :
  body db = (Raise e, db') -> atomic body db = (Raise e, db).
Proof. intros H. unfold atomic. now rewrite H. Qed.

(** Creating the items raises as soon as the backend refuses one. *)
Lemma persist_rfp_item_failure (text : pystr) (r : RfpResult.t)
    (db db1 db2 : Database) (row : RFP.t) (e : exception) :
  RFP_create be (RfpResult.title r) text (_parse_budget rt (RfpResult.budget r)) DRAFT db
    = (Ok row, db1) ->
  create_items rt be (RFP.id row) (RfpResult.items r) db1 = (Raise e, db2) ->
  persist_rfp rt be text r db = (Raise e, db2).
Proof.
  intros C I. unfold persist_rfp. unfold orm_bind at 1. rewrite C.
  unfold orm_bind at 1. now rewrite I.
Qed.

End Creation.



(** C6. In [create_rfp_from_text], when the extraction succeeded, the RFP
    row was written, and the backend then refuses one of the item rows, the
    store the request leaves is the store it found: the RFP row and the
    items written before the failure, present inside the transaction, are
    not observable afterwards, and the response is an error (400 or 500),
    not a creation. *)
Theorem rfp_creation_is_all_or_nothing
    (rt : PyRuntime) (w : World) (be : Backend) (text : pystr) (r : RfpResult.t)
    (db db1 db2 : Database) (row : RFP.t) (e : exception) :
  whitespace_only text = false ->
  extract_rfp_from_text rt w text = Ok r ->
  RfpResult.success r = true ->
  RFP_create be (RfpResult.title r) text (_parse_budget rt (RfpResult.budget r)) DRAFT db
    = (Ok row, db1) ->
  create_items rt be (RFP.id row) (RfpResult.items r) db1 = (Raise e, db2) ->
  In row (rfps db2) /\
  snd (create_rfp_from_text rt w be (PStr text) db) = db /\
  (status_code (fst (create_rfp_from_text rt w be (PStr text) db)) = HTTP_400_BAD_REQUEST \/
   status_code (fst (create_rfp_from_text rt w be (PStr text) db))
     = HTTP_500_INTERNAL_SERVER_ERROR).
Proof.
  intros B X S C I.
  assert (Hin : In row (rfps db2)).
  { assert (Hk : forall l rfp d1 d2 o,
               create_items rt be rfp l d1 = (o, d2) -> rfps d2 = rfps d1).
    { induction l as [|item l IH]; intros rfp d1 d2 o H.
      - injection H as _ <-. reflexivity.
      - cbn [create_items] in H. unfold orm_bind at 1 in H. unfold orm_lift in H.
        rewrite parse_quantity_int in H. unfold orm_bind at 1 in H.
        unfold RFPItem_create at 1 in H.
        destruct (item_insert_error be d1 _).
        + injection H as _ <-. reflexivity.
        + apply IH in H. exact H. }
    rewrite (Hk _ _ _ _ _ I).
    unfold RFP_create in C. destruct (rfp_insert_error be db _); [discriminate|].
    injection C as <- <-. cbn [rfps]. apply in_or_app. right. now left. }
  split; [exact Hin|].
  assert (T : truthy (PStr text) = true).
  { destruct text; [discriminate B | reflexivity]. }
  assert (E : str_is_empty (strip text) = false).
  { destruct (strip text) eqn:Q; [|reflexivity].
    apply strip_nil_iff in Q. congruence. }
  assert (Y : create_rfp_try rt w be text db = (Raise e, db)).
  { unfold create_rfp_try, orm_bind, orm_lift. rewrite X, S. cbn [negb].
    apply atomic_raise with (db' := db2).
    now apply persist_rfp_item_failure with (db1 := db1) (row := row). }
  unfold create_rfp_from_text. rewrite T. cbn [negb]. rewrite E, Y.
  destruct (catches ExceptValueError (exc_type e)); cbn [fst snd status_code bad_request];
    auto.
Qed.

Lemma rfp_creation_is_all_or_nothing_witness :
  whitespace_only (py "We need bolts") = false /\
  snd (create_rfp_from_text Samples.runtime (Demo.world Samples.many_units_text)
         Demo.backend (PStr (py "We need bolts")) Demo.empty_db)
    = Demo.empty_db /\
  status_code
    (fst (create_rfp_from_text Samples.runtime (Demo.world Samples.many_units_text)
            Demo.backend (PStr (py "We need bolts")) Demo.empty_db))
    = HTTP_500_INTERNAL_SERVER_ERROR.
Proof.
  split; [reflexivity|].
  destruct (rfp_creation_is_all_or_nothing Samples.runtime
              (Demo.world Samples.many_units_text) Demo.backend
              (py "We need bolts") Samples.bolts_result Demo.empty_db
              Samples.bolts_store Samples.bolts_store Samples.bolts_row
              Samples.bolts_error)
    as (_ & Hdb & _); try (vm_compute; reflexivity).
  split; [exact Hdb | vm_compute; reflexivity].
Defined.

(** When the backend accepts every row, the same request writes the RFP and
    its item and answers 201. *)
Example rfp_creation_success :
  let out := create_rfp_from_text Samples.runtime (Demo.world Samples.laptops_text)
               Demo.backend (PStr (py "Need 50 laptops")) Demo.empty_db in
  status_code (fst out) = HTTP_201_CREATED /\
  map RFP.title (rfps (snd out)) = [PStr (py "Office Laptop Purchase")] /\
  map RFP.budget (rfps (snd out)) = [Some (Decimal (py "75000.0"))] /\
  map (fun i => (RFPItem.rfp i, RFPItem.name i, RFPItem.quantity i)) (rfp_items (snd out))
    = [(1, py "Laptops", 50)].
Proof. repeat split; vm_compute; reflexivity. Qed.

(* ===================================================================== *)
(** ** fetch_emails.py: one proposal per (RFP, Vendor) *)
(* ===================================================================== *)

Section ProposalTable.

Lemma same_pair_iff (a b : Z) (p : Proposal.t) :
  same_pair a b p = true <-> pair_of p = (a, b).
Proof.
  unfold same_pair, pair_of. rewrite andb_true_iff, !Z.eqb_eq.
  split; [intros [-> ->]; reflexivity | intros H; injection H; auto].
Qed.

Lemma in_map_inj {A B} (f : A -> B) (l : list A) (x y : A) :
  NoDup (map f l) -> In x l -> In y l -> f x = f y -> x = y.
Proof.
  induction l as [|a l IH]; simpl; [tauto|].
  intros N Hx Hy E. apply NoDup_cons_iff in N as [Na N].
  destruct Hx as [->|Hx], Hy as [->|Hy]; auto.
  - exfalso. apply Na. rewrite E. now apply in_map.
  - exfalso. apply Na. rewrite <- E. now apply in_map.
Qed.

(** With distinct pairs, the rows of a pair are the row that has it. *)
Lemma filter_pair_single (a b : Z) (ps : list Proposal.t) (r : Proposal.t) :
  NoDup (map pair_of ps) -> In r ps -> same_pair a b r = true ->
  filter (same_pair a b) ps = [r].
Proof.
  induction ps as [|p ps IH]; simpl; [tauto|].
  intros N Hin S. apply NoDup_cons_iff in N as [Np N].
  assert (Hnone : same_pair a b p = true -> filter (same_pair a b) ps = []).
  { intros Sp. destruct (filter (same_pair a b) ps) as [|q l] eqn:F; [reflexivity|].
    exfalso. apply Np.
    assert (Hq : In q (filter (same_pair a b) ps)) by (rewrite F; now left).
    apply filter_In in Hq as [Hq Sq].
    apply same_pair_iff in Sp, Sq. rewrite Sp, <- Sq. now apply in_map. }
  destruct Hin as [->|Hin].
  - rewrite S. now rewrite (Hnone S).
  - destruct (same_pair a b p) eqn:Sp; [|now apply IH].
    exfalso. specialize (Hnone eq_refl).
    assert (Hr : In r (filter (same_pair a b) ps)) by (apply filter_In; auto).
    now rewrite Hnone in Hr.
Qed.

(** The uniqueness invariant, as the specification words it. *)
Lemma wf_at_most_one (db : Database) (a b : Z) :
  proposals_wf db -> (List.length (proposals_of a b db) <= 1)%nat.
Proof.
  intros W. unfold proposals_of.
  destruct (filter (same_pair a b) (proposals db)) as [|r l] eqn:F; [simpl; lia|].
  assert (Hr : In r (filter (same_pair a b) (proposals db))) by (rewrite F; now left).
  apply filter_In in Hr as [Hin S].
  rewrite (filter_pair_single a b _ r (wf_unique W) Hin S) in F.
  injection F as <-. simpl. lia.
Qed.

Lemma NoDup_snoc {A} (l : list A) (x : A) :
  NoDup l -> ~ In x l -> NoDup (l ++ [x]).
Proof.
  induction l as [|a l IH]; simpl; intros N H.
  - constructor; [tauto | constructor].
  - apply NoDup_cons_iff in N as [Na N]. constructor.
    + intros Hin. apply in_app_or in Hin as [Hin|[->|[]]]; tauto.
    + apply IH; tauto.
Qed.

Lemma replace_row_ids (row : Proposal.t) (ps : list Proposal.t) :
  map Proposal.id (replace_row row ps) = map Proposal.id ps.
Proof.
  unfold replace_row. rewrite map_map. apply map_ext. intros p.
  destruct (Proposal.id p =? Proposal.id row) eqn:E; [|reflexivity].
  apply Z.eqb_eq in E. now rewrite E.
Qed.

Lemma replace_row_pairs (row r0 : Proposal.t) (ps : list Proposal.t) :
  NoDup (map Proposal.id ps) -> In r0 ps ->
  Proposal.id row = Proposal.id r0 -> pair_of row = pair_of r0 ->
  map pair_of (replace_row row ps) = map pair_of ps.
Proof.
  intros N Hin Hid Hp. unfold replace_row. rewrite map_map.
  apply map_ext_in. intros p Hp_in.
  destruct (Proposal.id p =? Proposal.id row) eqn:E; [|reflexivity].
  apply Z.eqb_eq in E. rewrite Hid in E.
  now rewrite (in_map_inj Proposal.id ps p r0 N Hp_in Hin E).
Qed.

Lemma replace_row_in (row r0 : Proposal.t) (ps : list Proposal.t) :
  In r0 ps -> Proposal.id row = Proposal.id r0 -> In row (replace_row row ps).
Proof.
  intros Hin Hid. unfold replace_row. apply in_map_iff.
  exists r0. split; [|exact Hin]. now rewrite Hid, Z.eqb_refl.
Qed.

End ProposalTable.

Section Upsert.

Context (rt : PyRuntime) (be : Backend).

Lemma update_fields_key (r0 : Proposal.t) (e : ProposalResult.t) (body : pystr) :
  Proposal.id (update_fields rt r0 e body) = Proposal.id r0 /\
  pair_of (update_fields rt r0 e body) = pair_of r0.
Proof. split; reflexivity. Qed.

(** [save] of the updated row, in a table that satisfies the invariant:
    the unique constraint does not fire, and when the backend accepts the
    write the row replaces the one that was found. *)
Lemma save_updated (db : Database) (rfp vendor : Z) (r0 : Proposal.t)
    (e : ProposalResult.t) (body : pystr) :
  proposals_wf db -> In r0 (proposals db) -> same_pair rfp vendor r0 = true ->
  (exists x, Proposal_save be (update_fields rt r0 e body) db = (Raise x, db)) \/
  (exists db',
     Proposal_save be (update_fields rt r0 e body) db = (Ok tt, db') /\
     proposals_of rfp vendor db' = [update_fields rt r0 e body] /\
     proposals_wf db').
Proof.
  intros W Hin S. unfold Proposal_save.
  set (row := update_fields rt r0 e body).
  assert (V : existsb (fun p => negb (Proposal.id p =? Proposal.id row)
                                && same_pair (Proposal.rfp row) (Proposal.vendor row) p)
                (proposals db) = false).
  { destruct (existsb _ (proposals db)) eqn:X; [|reflexivity].
    apply existsb_exists in X as (p & Hp & C).
    apply andb_true_iff in C as [C1 C2].
    apply same_pair_iff in C2.
    assert (p = r0) as ->.
    { apply (in_map_inj pair_of (proposals db) p r0 (wf_unique W) Hp Hin).
      rewrite C2. reflexivity. }
    cbn [row update_fields Proposal.id] in C1. now rewrite Z.eqb_refl in C1. }
  rewrite V.
  destruct (proposal_write_error be db row) as [x|]; [left; eauto|].
  right. eexists. split; [reflexivity|].
  assert (Hpairs : map pair_of (replace_row row (proposals db)) = map pair_of (proposals db)).
  { apply (replace_row_pairs row r0 (proposals db) (wf_keys W) Hin); reflexivity. }
  split; [|constructor; cbn [proposals next_proposal_id with_proposals]].
  - unfold proposals_of. cbn [proposals with_proposals].
    apply filter_pair_single.
    + fold (replace_row row (proposals db)). rewrite Hpairs. exact (wf_unique W).
    + now apply (replace_row_in row r0).
    + exact S.
  - fold (replace_row row (proposals db)). rewrite replace_row_ids. exact (wf_keys W).
  - fold (replace_row row (proposals db)).
    apply (proj1 (Forall_map Proposal.id (fun i => i < next_proposal_id db) _)).
    rewrite replace_row_ids. apply Forall_map. exact (wf_fresh W).
  - fold (replace_row row (proposals db)). rewrite Hpairs. exact (wf_unique W).
Qed.

(** [create], in a table that has no row of the pair and satisfies the
    invariant. *)
Lemma create_new (db : Database) (rfp vendor : Z) (e : ProposalResult.t) (body : pystr) :
  proposals_wf db -> proposals_of rfp vendor db = [] ->
  (exists x,
     Proposal_create be rfp vendor (new_price rt e)
       (py_or (ProposalResult.payment_terms e) (PStr []))
       (py_or (ProposalResult.warranty e) (PStr [])) body db = (Raise x, db)) \/
  (exists db',
     Proposal_create be rfp vendor (new_price rt e)
       (py_or (ProposalResult.payment_terms e) (PStr []))
       (py_or (ProposalResult.warranty e) (PStr [])) body db
     = (Ok (created_row rt db rfp vendor e body), db') /\
     proposals_of rfp vendor db' = [created_row rt db rfp vendor e body] /\
     proposals_wf db').
Proof.
  intros W F. unfold Proposal_create.
  assert (V : existsb (same_pair rfp vendor) (proposals db) = false).
  { destruct (existsb _ (proposals db)) eqn:X; [|reflexivity].
    apply existsb_exists in X as (p & Hp & C).
    assert (Hf : In p (proposals_of rfp vendor db)) by (apply filter_In; auto).
    now rewrite F in Hf. }
  rewrite V. fold (created_row rt db rfp vendor e body).
  destruct (proposal_write_error be db _) as [x|]; [left; eauto|].
  right. eexists. split; [reflexivity|].
  assert (Hnew : ~ In (next_proposal_id db) (map Proposal.id (proposals db))).
  { intros Hin. apply in_map_iff in Hin as (p & Hid & Hp).
    pose proof (proj1 (Forall_forall _ _) (wf_fresh W) p Hp) as L. simpl in L. lia. }
  assert (Hpair : ~ In (rfp, vendor) (map pair_of (proposals db))).
  { intros Hin. apply in_map_iff in Hin as (p & Hq & Hp).
    assert (Hf : In p (proposals_of rfp vendor db)).
    { apply filter_In. split; [exact Hp | now apply same_pair_iff]. }
    now rewrite F in Hf. }
  split; [|constructor; cbn [proposals next_proposal_id with_proposals]].
  - unfold proposals_of. cbn [proposals with_proposals].
    rewrite filter_app. fold (proposals_of rfp vendor db). rewrite F.
    assert (Sn : same_pair rfp vendor (created_row rt db rfp vendor e body) = true)
      by (apply same_pair_iff; reflexivity).
    cbn [filter app]. now rewrite Sn.
  - rewrite map_app. cbn [map created_row Proposal.id].
    apply NoDup_snoc; [exact (wf_keys W) | exact Hnew].
  - apply Forall_app. split.
    + eapply Forall_impl; [|exact (wf_fresh W)]. simpl. intros; lia.
    + constructor; [cbn [created_row Proposal.id]; lia | constructor].
  - rewrite map_app. cbn [map created_row pair_of Proposal.rfp Proposal.vendor].
    apply NoDup_snoc; [exact (wf_unique W) | exact Hpair].
Qed.

End Upsert.

Section UpsertSpec.

Context (rt : PyRuntime) (be : Backend).

Lemma found_row (db : Database) (rfp vendor : Z) (r0 : Proposal.t) (l : list Proposal.t) :
  proposals_of rfp vendor db = r0 :: l ->
  In r0 (proposals db) /\ same_pair rfp vendor r0 = true.
Proof.
  intros F. apply filter_In. fold (proposals_of rfp vendor db). rewrite F. now left.
Qed.

(** The upsert either raises and leaves the table as it was, or commits:
    then the pair has exactly one row, the new one on the create path and
    the found one with its fields reassigned on the update path, and the
    invariant holds again. *)
Lemma upsert_cases (db : Database) (rfp vendor : Z) (e : ProposalResult.t)
    (body : pystr) :
  proposals_wf db ->
  (exists x, upsert_proposal rt be rfp vendor e body db = (Raise x, db)) \/
  (exists db',
     upsert_proposal rt be rfp vendor e body db = (Ok tt, db') /\
     proposals_wf db' /\
     proposals_of rfp vendor db' =
       [ match proposals_of rfp vendor db with
         | [] => created_row rt db rfp vendor e body
         | existing_proposal :: _ => update_fields rt existing_proposal e body
         end ]).
Proof.
  intros W. unfold upsert_proposal, atomic.
  destruct (proposals_of rfp vendor db) as [|r0 l] eqn:F.
  - unfold orm_bind, orm_ret.
    destruct (create_new rt be db rfp vendor e body W F)
      as [(x & H)|(db' & H & P & W')]; rewrite H.
    + left. eauto.
    + right. exists db'. auto.
  - destruct (found_row db rfp vendor r0 l F) as [Hin S].
    destruct (save_updated rt be db rfp vendor r0 e body W Hin S)
      as [(x & H)|(db' & H & P & W')]; rewrite H.
    + left. eauto.
    + right. exists db'. auto.
Qed.

(** Every upsert preserves the invariant, whether it commits or not. *)
Lemma upsert_preserves_wf (db : Database) (rfp vendor : Z) (e : ProposalResult.t)
    (body : pystr) :
  proposals_wf db ->
  proposals_wf (snd (upsert_proposal rt be rfp vendor e body db)).
Proof.
  intros W.
  destruct (upsert_cases db rfp vendor e body W) as [(x & H)|(db' & H & W' & _)];
    rewrite H; assumption.
Qed.

Lemma step_committed (db db' : Database) (rfp vendor : Z) (e : ProposalResult.t)
    (body : pystr) :
  create_proposal_step rt be rfp vendor e body db = (true, db') ->
  upsert_proposal rt be rfp vendor e body db = (Ok tt, db').
Proof.
  unfold create_proposal_step.
  destruct (upsert_proposal rt be rfp vendor e body db) as [[[]|x] d]; intros H;
    [injection H as <-; reflexivity | discriminate].
Qed.

End UpsertSpec.

(** The claim of C1 fails on the code: after a run that stored a price, a
    second run whose extraction found no price leaves the one row of the
    pair with the first run's price, not with the second run's null. *)
Lemma second_run_keeps_first_price :
  ProposalResult.price Samples.second_quote = None /\
  map (fun p => (Proposal.price p, Proposal.payment_terms p, Proposal.warranty p))
    (proposals_of 7 3
       (snd (create_proposal_step Samples.runtime Demo.backend 7 3
               Samples.second_quote (py "Terms are now Net 45.")
               (snd (create_proposal_step Samples.runtime Demo.backend 7 3
                       Samples.first_quote (py "Our quote: $68,500, Net 30.")
                       Demo.empty_db)))))
  = [ (Some (Decimal (py "68500.0")), PStr (py "Net 45"), PStr []) ].
Proof. split; vm_compute; reflexivity. Qed.

(** C1, amended. Every upsert preserves the invariant of the table, under
    which each (RFP, Vendor) pair has at most one row. After two runs in
    sequence that both commit the upsert for a pair, the pair has exactly
    one row: the row the first run left, updated in place by the second;
    its payment terms, warranty and raw mail are the second run's (the
    empty text for a term the extraction left null), and its price is the
    second run's when that is not null and the stored price otherwise. *)
Theorem two_runs_leave_one_row
    (rt : PyRuntime) (be : Backend) (rfp vendor : Z)
    (e1 e2 : ProposalResult.t) (body1 body2 : pystr) (db0 db1 db2 : Database) :
  proposals_wf db0 ->
  create_proposal_step rt be rfp vendor e1 body1 db0 = (true, db1) ->
  create_proposal_step rt be rfp vendor e2 body2 db1 = (true, db2) ->
  (forall e body db,
     proposals_wf db ->
     proposals_wf (snd (upsert_proposal rt be rfp vendor e body db)) /\
     forall a b,
       (List.length (proposals_of a b (snd (upsert_proposal rt be rfp vendor e body db)))
        <= 1)%nat) /\
  exists r1 r2,
    proposals_of rfp vendor db1 = [r1] /\
    proposals_of rfp vendor db2 = [r2] /\
    Proposal.id r2 = Proposal.id r1 /\
    Proposal.raw_email_content r2 = body2 /\
    Proposal.payment_terms r2 = py_or (ProposalResult.payment_terms e2) (PStr []) /\
    Proposal.warranty r2 = py_or (ProposalResult.warranty e2) (PStr []) /\
    Proposal.price r2 =
      match ProposalResult.price e2 with
      | Some x => Some (decimal_of_float rt x)
      | None => Proposal.price r1
      end.
Proof.
  intros W0 S1 S2. split.
  - intros e body db W.
    pose proof (upsert_preserves_wf rt be db rfp vendor e body W) as W'.
    split; [exact W'|]. intros a b. now apply wf_at_most_one.
  - apply step_committed in S1, S2.
    destruct (upsert_cases rt be db0 rfp vendor e1 body1 W0)
      as [(x & H)|(d1 & H & W1 & P1)]; rewrite H in S1; [discriminate|].
    injection S1 as <-.
    destruct (upsert_cases rt be d1 rfp vendor e2 body2 W1)
      as [(x & H')|(d2 & H' & W2 & P2)]; rewrite H' in S2; [discriminate|].
    injection S2 as <-.
    rewrite P1 in P2.
    eexists. eexists. split; [exact P1|]. split; [exact P2|].
    repeat split; reflexivity.
Qed.

Lemma two_runs_leave_one_row_witness :
  proposals_wf Demo.empty_db /\
  exists r1 r2,
    proposals_of 7 3
      (snd (create_proposal_step Samples.runtime Demo.backend 7 3
              Samples.first_quote (py "Our quote: $68,500, Net 30.")
              Demo.empty_db)) = [r1] /\
    proposals_of 7 3
      (snd (create_proposal_step Samples.runtime Demo.backend 7 3
              Samples.second_quote (py "Terms are now Net 45.")
              (snd (create_proposal_step Samples.runtime Demo.backend 7 3
                      Samples.first_quote (py "Our quote: $68,500, Net 30.")
                      Demo.empty_db)))) = [r2] /\
    Proposal.id r2 = Proposal.id r1 /\
    Proposal.raw_email_content r2 = py "Terms are now Net 45." /\
    Proposal.payment_terms r2 = PStr (py "Net 45") /\
    Proposal.warranty r2 = PStr [] /\
    Proposal.price r2 = Proposal.price r1.
Proof.
  assert (W : proposals_wf Demo.empty_db).
  { constructor; simpl; constructor. }
  split; [exact W|].
  destruct (two_runs_leave_one_row Samples.runtime Demo.backend 7 3
              Samples.first_quote Samples.second_quote
              (py "Our quote: $68,500, Net 30.") (py "Terms are now Net 45.")
              Demo.empty_db _ _ W
              (surjective_pairing _) (surjective_pairing _))
    as (_ & r1 & r2 & P1 & P2 & Hid & Hraw & Hpt & Hw & Hp).
  exists r1, r2. repeat split; assumption.
Defined.



(* ===================================================================== *)
(** ** More of utils.py: what the returned dictionary always satisfies *)
(* ===================================================================== *)

Section Dictionaries.

Context (rt : PyRuntime).

Lemma validate_number_none (v : pyval) (o : option float) :
  validate_number rt v = Ok o ->
  match o with
  | Some f => py_float rt v = Ok f /\ v <> PNone
  | None => v = PNone \/ exists e, py_float rt v = Raise e
  end.
Proof.
  unfold validate_number. destruct (is_none v) eqn:N.
  - intros H. injection H as <-. left. destruct v; try discriminate; reflexivity.
  - destruct (py_float rt v) as [f|e] eqn:F; cbn [bind try_except].
    + intros H. injection H as <-. split; [reflexivity|]. intros ->. discriminate.
    + destruct (catches ExceptValueOrTypeError (exc_type e)); [|discriminate].
      intros H. injection H as <-. right. eauto.
Qed.

(** The loop over the entries, read backwards: when it ends without an
    error, the validated items are the named objects of the list, in
    order, each with [int] of its quantity. *)
Lemma validate_items_inv (l : list pyval) (qs : list rfp_item) :
  validate_items rt l = Ok qs ->
  Forall2 (fun v item => exists q, py_int rt (raw_quantity v) = Ok q /\
                                   item = validated rt v q)
    (filter named_entry l) qs.
Proof.
  revert qs. induction l as [|v l IH]; intros qs H.
  - injection H as <-. constructor.
  - destruct v as [ |b|z|f|s|l0|d]; cbn [validate_items filter named_entry] in *;
      try (now apply IH).
    destruct (dict_contains (py "name") d) eqn:N; [|now apply IH].
    destruct (py_int rt (items_get d (py "quantity") (PInt 1))) as [q|e] eqn:Q;
      cbn [bind] in H; [|discriminate].
    destruct (validate_items rt l) as [qs'|e]; cbn [bind] in H; [|discriminate].
    injection H as <-. constructor; [|now apply IH].
    exists q. split; [exact Q | reflexivity].
Qed.

Lemma normalize_rfp_success (data : pyval) (r : RfpResult.t) :
  normalize_rfp rt data = Ok r ->
  RfpResult.success r = true /\ RfpResult.error r = None /\
  RfpResult.raw_response r = None.
Proof.
  unfold normalize_rfp. intros H. repeat step_bind.
  injection H as <-. repeat split.
Qed.

Lemma normalize_proposal_success (data : pyval) (r : ProposalResult.t) :
  normalize_proposal rt data = Ok r ->
  ProposalResult.success r = true /\ ProposalResult.error r = None /\
  ProposalResult.raw_response r = None.
Proof.
  unfold normalize_proposal. intros H. repeat step_bind.
  injection H as <-. repeat split.
Qed.

End Dictionaries.

(** X1. Whatever the runtime, the credential and the service answer, a
    dictionary that [extract_rfp_from_text] or
    [extract_proposal_from_email] returns is of one of two kinds: [success]
    true with no [error]; or [success] false with an [error] text and every
    data field [None] (and no item): a failing dictionary never carries
    partial data. *)
Theorem returned_dictionary_is_uniform (rt : PyRuntime) (w : World) (text : pystr) :
  (forall r,
     extract_rfp_from_text rt w text = Ok r ->
     (RfpResult.success r = true /\ RfpResult.error r = None) \/
     (RfpResult.success r = false /\ RfpResult.error r <> None /\
      RfpResult.title r = PNone /\ RfpResult.budget r = None /\
      RfpResult.deadline r = PNone /\ RfpResult.items r = [])) /\
  (forall r,
     extract_proposal_from_email rt w text = Ok r ->
     (ProposalResult.success r = true /\ ProposalResult.error r = None) \/
     (ProposalResult.success r = false /\ ProposalResult.error r <> None /\
      ProposalResult.price r = None /\ ProposalResult.payment_terms r = PNone /\
      ProposalResult.warranty r = PNone)).
Proof.
  split; intros r.
  - unfold extract_rfp_from_text.
    destruct (is_blank text); [discriminate|]. cbv zeta.
    destruct (key_missing (GEMINI_API_KEY w)).
    { intros H. injection H as <-. right. repeat split; discriminate. }
    destruct (generate_content w (RfpPrompt text)) as [[t|]|e]; cbn [bind try_except];
      try (intros H; injection H as <-; right; repeat split; discriminate).
    destruct (str_is_empty t);
      [intros H; injection H as <-; right; repeat split; discriminate|].
    cbv zeta.
    destruct (json_loads rt (clean_response_text t)) as [data|e].
    + destruct (normalize_rfp rt data) as [r'|e] eqn:N; cbn [catches].
      * intros H. injection H as <-. left.
        destruct (normalize_rfp_success rt data r' N) as (S & E & _). now split.
      * intros H. injection H as <-. right. repeat split; discriminate.
    + destruct (catches ExceptJSONDecodeError (exc_type e)); cbn [catches];
        intros H; injection H as <-; right; repeat split; discriminate.
  - unfold extract_proposal_from_email.
    destruct (is_blank text); [discriminate|]. cbv zeta.
    destruct (key_missing (GEMINI_API_KEY w)).
    { intros H. injection H as <-. right. repeat split; discriminate. }
    destruct (generate_content w (ProposalPrompt text)) as [[t|]|e];
      cbn [bind try_except];
      try (intros H; injection H as <-; right; repeat split; discriminate).
    destruct (str_is_empty t);
      [intros H; injection H as <-; right; repeat split; discriminate|].
    cbv zeta.
    destruct (json_loads rt (clean_response_text t)) as [data|e].
    + destruct (normalize_proposal rt data) as [r'|e] eqn:N; cbn [catches].
      * intros H. injection H as <-. left.
        destruct (normalize_proposal_success rt data r' N) as (S & E & _). now split.
      * intros H. injection H as <-. right. repeat split; discriminate.
    + destruct (catches ExceptJSONDecodeError (exc_type e)); cbn [catches];
        intros H; injection H as <-; right; repeat split; discriminate.
Qed.

Lemma returned_dictionary_is_uniform_witness :
  exists r,
    extract_rfp_from_text Samples.runtime (Demo.world (py "This is not valid JSON"))
      (py "Test input") = Ok r /\
    RfpResult.success r = false /\ RfpResult.error r <> None /\
    RfpResult.title r = PNone /\ RfpResult.items r = [].
Proof.
  eexists. split; [vm_compute; reflexivity|].
  destruct (proj1 (returned_dictionary_is_uniform Samples.runtime
                     (Demo.world (py "This is not valid JSON")) (py "Test input"))
              _ eq_refl) as [[S _]|(S & E & T & _ & _ & I)].
  - discriminate S.
  - repeat split; assumption.
Defined.

(** X2. An answer that is valid JSON but not an object (a list, a text, a
    number, [true], [null]) fails either extraction: [.get] raises
    [AttributeError], which the outer handler turns into [success] false.
    For the RFP the same happens when the object's [items] is [null], a
    number or a boolean, which the loop cannot iterate ([TypeError]),
    provided the budget was accepted. *)
Theorem non_object_answer_fails
    (rt : PyRuntime) (w : World) (input text : pystr) (data : pyval) :
  whitespace_only input = false ->
  key_missing (GEMINI_API_KEY w) = false ->
  str_is_empty text = false ->
  json_loads rt (clean_response_text text) = Ok data ->
  ((forall d, data <> PDict d) ->
   extract_rfp_from_text rt (answering w text) input =
     Ok (rfp_failure (py "AttributeError: " ++ error_message rt (py "get") data) None) /\
   extract_proposal_from_email rt (answering w text) input =
     Ok (proposal_failure
           (py "AttributeError: " ++ error_message rt (py "get") data) None)) /\
  (forall d items budget,
     data = PDict d ->
     items_get d (py "items") (PList []) = items ->
     (items = PNone \/ (exists b, items = PBool b) \/ (exists z, items = PInt z) \/
      (exists f, items = PFloat f)) ->
     validate_number rt (items_get d (py "budget") PNone) = Ok budget ->
     extract_rfp_from_text rt (answering w text) input =
       Ok (rfp_failure (py "TypeError: " ++ error_message rt (py "iter") items) None)).
Proof.
  intros B K T J. split.
  - intros ND.
    rewrite (rfp_decoded rt w input text data B K T J).
    rewrite (proposal_decoded rt w input text data B K T J).
    destruct data as [ |b|z|f|s|l|d]; try (split; reflexivity).
    now destruct (ND d).
  - intros d items budget -> I C V.
    rewrite (rfp_decoded rt w input text (PDict d) B K T J).
    rewrite normalize_rfp_dict, V. cbn [bind]. rewrite validate_deadline_cases.
    cbn [bind]. rewrite I.
    destruct C as [->|[[b ->]|[[z ->]|[f ->]]]]; reflexivity.
Qed.

Lemma non_object_answer_fails_witness :
  json_loads More.runtime (clean_response_text More.list_text) = Ok (PList []) /\
  extract_rfp_from_text More.runtime (answering (Demo.world []) More.list_text)
    (py "Test input") =
  Ok (rfp_failure
        (py "AttributeError: " ++ error_message More.runtime (py "get") (PList [])) None) /\
  extract_rfp_from_text More.runtime (answering (Demo.world []) More.null_items_text)
    (py "Test input") =
  Ok (rfp_failure
        (py "TypeError: " ++ error_message More.runtime (py "iter") PNone) None).
Proof.
  split; [reflexivity|]. split.
  - apply (proj1 (non_object_answer_fails More.runtime (Demo.world []) (py "Test input")
                    More.list_text (PList []) eq_refl eq_refl eq_refl eq_refl)).
    intros d. discriminate.
  - apply (proj2 (non_object_answer_fails More.runtime (Demo.world []) (py "Test input")
                    More.null_items_text More.null_items_object
                    eq_refl eq_refl eq_refl eq_refl)
             [ (py "title", PStr (py "Chairs")); (py "items", PNone) ] PNone None
             eq_refl eq_refl (or_introl eq_refl) eq_refl).
Defined.

(** X3. What a successful RFP extraction holds, read off the decoded object
    [d]: the title is the object's [title] as it is, [null] included, and
    [Untitled RFP] only when the key is absent; the budget is [float] of the
    object's budget, or [None] when that is null or [float] refuses it; the
    deadline is the object's when false, and otherwise the text
    [fromisoformat] accepts or [None]; the items are the entries of the
    list that are objects with a [name], in order, each with its name and
    specifications as text and [int] of its quantity. *)
Theorem successful_rfp_fields
    (rt : PyRuntime) (w : World) (input text : pystr)
    (d : list (pystr * pyval)) (r : RfpResult.t) :
  whitespace_only input = false ->
  key_missing (GEMINI_API_KEY w) = false ->
  str_is_empty text = false ->
  json_loads rt (clean_response_text text) = Ok (PDict d) ->
  extract_rfp_from_text rt (answering w text) input = Ok r ->
  RfpResult.success r = true ->
  RfpResult.title r = items_get d (py "title") (PStr (py "Untitled RFP")) /\
  match RfpResult.budget r with
  | Some f => py_float rt (items_get d (py "budget") PNone) = Ok f
  | None => items_get d (py "budget") PNone = PNone \/
            exists e, py_float rt (items_get d (py "budget") PNone) = Raise e
  end /\
  RfpResult.deadline r =
    (if truthy (items_get d (py "deadline") PNone)
     then deadline_by_parser rt (items_get d (py "deadline") PNone)
     else items_get d (py "deadline") PNone) /\
  exists entries,
    py_iter rt (items_get d (py "items") (PList [])) = Ok entries /\
    Forall2 (fun v item => exists q, py_int rt (raw_quantity v) = Ok q /\
                                     item = validated rt v q)
      (filter named_entry entries) (RfpResult.items r).
Proof.
  intros B K T J X S.
  rewrite (rfp_decoded rt w input text (PDict d) B K T J) in X.
  destruct (normalize_rfp rt (PDict d)) as [r'|e] eqn:N.
  2:{ injection X as <-. discriminate S. }
  injection X as ->. rewrite normalize_rfp_dict in N.
  destruct (validate_number rt (items_get d (py "budget") PNone)) as [b|e] eqn:V;
    cbn [bind] in N; [|discriminate].
  rewrite validate_deadline_cases in N. cbn [bind] in N.
  destruct (py_iter rt (items_get d (py "items") (PList []))) as [entries|e] eqn:I;
    cbn [bind] in N; [|discriminate].
  destruct (validate_items rt entries) as [qs|e] eqn:Q; cbn [bind] in N; [|discriminate].
  injection N as <-. cbn.
  split; [reflexivity|]. split.
  - pose proof (validate_number_none rt _ _ V) as H. destruct b; tauto.
  - split; [reflexivity|]. exists entries. split; [reflexivity|].
    now apply validate_items_inv.
Qed.

Lemma successful_rfp_fields_witness :
  exists r,
    extract_rfp_from_text More.runtime (answering (Demo.world []) More.mixed_items_text)
      (py "Furniture") = Ok r /\
    RfpResult.success r = true /\
    RfpResult.title r = PStr (py "Untitled RFP") /\
    RfpResult.items r =
      [ {| name := py "Desk"; quantity := 4; specifications := [] |};
        {| name := py "Lamp"; quantity := 1; specifications := [] |} ].
Proof.
  eexists. split; [vm_compute; reflexivity|]. split; [reflexivity|].
  destruct (successful_rfp_fields More.runtime (Demo.world []) (py "Furniture")
              More.mixed_items_text
              [ (py "items",
                 PList [ PDict [ (py "name", PStr (py "Desk"));
                                 (py "quantity", PStr (py "4")) ];
                         PStr (py "chair");
                         PDict [ (py "quantity", PInt 2) ];
                         PDict [ (py "name", PStr (py "Lamp")) ] ]) ]
              _ eq_refl eq_refl eq_refl eq_refl eq_refl eq_refl)
    as (Ht & _).
  split; [exact Ht | reflexivity].
Defined.

(** X4. What a successful proposal extraction holds: the price is [float]
    of the object's price, or [None] when that is null or [float] refuses
    it; the payment terms and the warranty are the object's values as they
    are, of whatever JSON type, and [None] when the key is absent: only the
    price is validated. *)
Theorem successful_proposal_fields
    (rt : PyRuntime) (w : World) (input text : pystr)
    (d : list (pystr * pyval)) (r : ProposalResult.t) :
  whitespace_only input = false ->
  key_missing (GEMINI_API_KEY w) = false ->
  str_is_empty text = false ->
  json_loads rt (clean_response_text text) = Ok (PDict d) ->
  extract_proposal_from_email rt (answering w text) input = Ok r ->
  ProposalResult.success r = true ->
  match ProposalResult.price r with
  | Some f => py_float rt (items_get d (py "price") PNone) = Ok f
  | None => items_get d (py "price") PNone = PNone \/
            exists e, py_float rt (items_get d (py "price") PNone) = Raise e
  end /\
  ProposalResult.payment_terms r = items_get d (py "payment_terms") PNone /\
  ProposalResult.warranty r = items_get d (py "warranty") PNone.
Proof.
  intros B K T J X S.
  rewrite (proposal_decoded rt w input text (PDict d) B K T J) in X.
  destruct (normalize_proposal rt (PDict d)) as [r'|e] eqn:N.
  2:{ injection X as <-. discriminate S. }
  injection X as ->. rewrite normalize_proposal_dict in N.
  destruct (validate_number rt (items_get d (py "price") PNone)) as [b|e] eqn:V;
    cbn [bind] in N; [|discriminate].
  injection N as <-. cbn. split; [|split; reflexivity].
  pose proof (validate_number_none rt _ _ V) as H. destruct b; tauto.
Qed.

Lemma successful_proposal_fields_witness :
  exists r,
    extract_proposal_from_email More.runtime (answering (Demo.world []) More.quote_text)
      (py "Our quote") = Ok r /\
    ProposalResult.success r = true /\
    ProposalResult.price r = Some (Demo.flt 68500) /\
    ProposalResult.payment_terms r = PInt 30 /\
    ProposalResult.warranty r = PNone.
Proof.
  eexists. split; [vm_compute; reflexivity|]. split; [reflexivity|].
  destruct (successful_proposal_fields More.runtime (Demo.world []) (py "Our quote")
              More.quote_text
              [ (py "price", PInt 68500); (py "payment_terms", PInt 30);
                (py "warranty", PNone) ]
              _ eq_refl eq_refl eq_refl eq_refl eq_refl eq_refl)
    as (_ & Hp & Hw).
  split; [reflexivity|]. split; [exact Hp | exact Hw].
Defined.

(* ===================================================================== *)
(** ** More of views.py: what create_rfp_from_text writes *)
(* ===================================================================== *)

Section CreationWrites.

Context (rt : PyRuntime) (w : World) (be : Backend).

Lemma create_items_ok (rfp : Z) (l : list rfp_item) (db db' : Database) :
  create_items rt be rfp l db = (Ok tt, db') ->
  rfps db' = rfps db /\
  rfp_items db' = rfp_items db ++ item_rows rfp (next_item_id db) l /\
  proposals db' = proposals db /\
  next_rfp_id db' = next_rfp_id db /\
  next_proposal_id db' = next_proposal_id db.
Proof.
  revert db. induction l as [|item l IH]; intros db H.
  - injection H as <-. cbn [item_rows]. rewrite app_nil_r. repeat split.
  - cbn [create_items] in H. unfold orm_bind at 1 in H. unfold orm_lift in H.
    rewrite parse_quantity_int in H. unfold orm_bind at 1 in H.
    unfold RFPItem_create at 1 in H.
    destruct (item_insert_error be db _); [discriminate|].
    apply IH in H. cbn [rfps rfp_items proposals next_rfp_id next_item_id
                          next_proposal_id] in H.
    destruct H as (H1 & H2 & H3 & H4 & H5).
    repeat split; try assumption.
    rewrite H2, <- app_assoc. reflexivity.
Qed.

Lemma persist_rfp_ok (text : pystr) (r : RfpResult.t) (db db' : Database)
    (resp : Response) :
  persist_rfp rt be text r db = (Ok resp, db') ->
  status_code resp = HTTP_201_CREATED /\
  rfps db' = rfps db ++ [new_rfp_row rt db text r] /\
  rfp_items db' =
    rfp_items db ++ item_rows (next_rfp_id db) (next_item_id db) (RfpResult.items r) /\
  proposals db' = proposals db.
Proof.
  unfold persist_rfp. unfold orm_bind at 1. unfold RFP_create.
  fold (new_rfp_row rt db text r).
  destruct (rfp_insert_error be db (new_rfp_row rt db text r)); [discriminate|].
  unfold orm_bind at 1.
  destruct (create_items rt be _ (RfpResult.items r) _) as [[[]|e] db1] eqn:C;
    [|discriminate].
  apply create_items_ok in C.
  cbn [rfps rfp_items proposals next_rfp_id next_item_id next_proposal_id] in C.
  destruct C as (C1 & C2 & C3 & _).
  unfold orm_bind, serialize, orm_ret. intros H. injection H as <- <-.
  repeat split; assumption.
Qed.

End CreationWrites.

(** X5. Whatever the request, the runtime, the service and the backend do,
    [create_rfp_from_text] either answers 201 or leaves the store exactly
    as it found it: every refusal of the request (400), failed extraction
    (422) and failed write (400, 500) is without effect on the store. *)
Theorem only_created_changes_the_store
    (rt : PyRuntime) (w : World) (be : Backend) (text : pyval) (db : Database) :
  status_code (fst (create_rfp_from_text rt w be text db)) = HTTP_201_CREATED \/
  snd (create_rfp_from_text rt w be text db) = db.
Proof.
  unfold create_rfp_from_text.
  destruct (truthy text); [|right; reflexivity]. cbn [negb].
  destruct text as [ |b|z|f|s|l|d]; try (right; reflexivity).
  destruct (str_is_empty (strip s)); [right; reflexivity|].
  unfold create_rfp_try, orm_bind, orm_lift.
  destruct (extract_rfp_from_text rt w s) as [r|e].
  - destruct (negb (RfpResult.success r)); [right; reflexivity|].
    unfold atomic.
    destruct (persist_rfp rt be s r db) as [[resp|e] db'] eqn:P.
    + left. exact (proj1 (persist_rfp_ok rt be s r db db' resp P)).
    + right. destruct (catches ExceptValueError (exc_type e)); reflexivity.
  - right. destruct (catches ExceptValueError (exc_type e)); reflexivity.
Qed.

(** X6. When [create_rfp_from_text] answers 201 for a text, the store has
    gained exactly one RFP row, with the next key, the extracted title, the
    request text, the extracted budget as a decimal and status draft, and
    one item row per extracted item, in order, each referring to that RFP
    with a quantity raised to 1 when the extracted one is lower; the
    proposals are untouched. *)
Theorem created_writes_rfp_and_items
    (rt : PyRuntime) (w : World) (be : Backend) (text : pystr) (r : RfpResult.t)
    (db : Database) :
  extract_rfp_from_text rt w text = Ok r ->
  status_code (fst (create_rfp_from_text rt w be (PStr text) db)) = HTTP_201_CREATED ->
  rfps (snd (create_rfp_from_text rt w be (PStr text) db)) =
    rfps db ++ [new_rfp_row rt db text r] /\
  rfp_items (snd (create_rfp_from_text rt w be (PStr text) db)) =
    rfp_items db ++ item_rows (next_rfp_id db) (next_item_id db) (RfpResult.items r) /\
  proposals (snd (create_rfp_from_text rt w be (PStr text) db)) = proposals db.
Proof.
  intros X. unfold create_rfp_from_text.
  destruct (truthy (PStr text)); [|discriminate]. cbn [negb].
  destruct (str_is_empty (strip text)); [discriminate|].
  unfold create_rfp_try, orm_bind, orm_lift. rewrite X.
  destruct (negb (RfpResult.success r)); [discriminate|].
  unfold atomic.
  destruct (persist_rfp rt be text r db) as [[resp|e] db'] eqn:P.
  - intros _. cbn [snd]. exact (proj2 (persist_rfp_ok rt be text r db db' resp P)).
  - destruct (catches ExceptValueError (exc_type e)); discriminate.
Qed.

Lemma created_writes_rfp_and_items_witness :
  extract_rfp_from_text More.runtime (Demo.world More.pens_text) (py "We need pens")
    = Ok More.pens_result /\
  map (fun i => (RFPItem.id i, RFPItem.rfp i, RFPItem.name i, RFPItem.quantity i))
    (rfp_items (snd (create_rfp_from_text More.runtime (Demo.world More.pens_text)
                       Demo.backend (PStr (py "We need pens")) Samples.bolts_store)))
  = [ (1, 2, py "Pen", 1); (2, 2, py "Ink", 1) ] /\
  map RFP.id (rfps (snd (create_rfp_from_text More.runtime (Demo.world More.pens_text)
                           Demo.backend (PStr (py "We need pens")) Samples.bolts_store)))
  = [1; 2].
Proof.
  assert (X : extract_rfp_from_text More.runtime (Demo.world More.pens_text)
                (py "We need pens") = Ok More.pens_result) by (vm_compute; reflexivity).
  split; [exact X|].
  destruct (created_writes_rfp_and_items More.runtime (Demo.world More.pens_text)
              Demo.backend (py "We need pens") More.pens_result Samples.bolts_store X)
    as (R & I & _); [vm_compute; reflexivity|].
  rewrite R, I. split; reflexivity.
Defined.

(* ===================================================================== *)
(** ** More of fetch_emails.py: what the upsert leaves alone *)
(* ===================================================================== *)

Section UpsertFrame.

Context (rt : PyRuntime) (be : Backend).

Lemma filter_replace_row_other (P : Proposal.t -> bool) (row : Proposal.t)
    (ps : list Proposal.t) :
  P row = false ->
  (forall p, In p ps -> Proposal.id p = Proposal.id row -> P p = false) ->
  filter P (replace_row row ps) = filter P ps.
Proof.
  intros Hrow Hps. induction ps as [|p ps IH]; [reflexivity|].
  cbn [replace_row map filter]. fold (replace_row row ps).
  rewrite IH by (intros q Hq; apply Hps; now right).
  destruct (Proposal.id p =? Proposal.id row) eqn:E; [|reflexivity].
  apply Z.eqb_eq in E. rewrite Hrow, (Hps p (or_introl eq_refl) E). reflexivity.
Qed.

Lemma atomic_raise_unchanged {A} (body : orm A) (db db' : Database) (x : exception) :
  atomic body db = (Raise x, db') -> db' = db.
Proof.
  unfold atomic. destruct (body db) as [[a|e] d]; intros H; [discriminate|].
  now injection H.
Qed.

Lemma upsert_tables (db db' : Database) (rfp vendor : Z) (e : ProposalResult.t)
    (body : pystr) (o : result unit) :
  upsert_proposal rt be rfp vendor e body db = (o, db') ->
  rfps db' = rfps db /\ rfp_items db' = rfp_items db.
Proof.
  unfold upsert_proposal, atomic.
  destruct (proposals_of rfp vendor db) as [|r0 l].
  - unfold orm_bind, orm_ret, Proposal_create.
    destruct (existsb _ _); [intros H; injection H as _ <-; now split|].
    destruct (proposal_write_error be db _);
      intros H; injection H as _ <-; now split.
  - unfold Proposal_save.
    destruct (existsb _ _); [intros H; injection H as _ <-; now split|].
    destruct (proposal_write_error be db _);
      intros H; injection H as _ <-; now split.
Qed.

End UpsertFrame.

(** X7. The upsert for a pair touches nothing else: in a table that
    satisfies the key and uniqueness constraints, the proposals of every
    other (RFP, Vendor) pair are the same rows after it as before, whether
    it commits or not; the RFP and item tables are never written; and when
    the run returns [False] the whole store is the one it started from. *)
Theorem upsert_touches_one_pair
    (rt : PyRuntime) (be : Backend) (rfp vendor : Z) (e : ProposalResult.t)
    (body : pystr) (db : Database) :
  proposals_wf db ->
  (forall a b,
     (a, b) <> (rfp, vendor) ->
     proposals_of a b (snd (create_proposal_step rt be rfp vendor e body db)) =
     proposals_of a b db) /\
  rfps (snd (create_proposal_step rt be rfp vendor e body db)) = rfps db /\
  rfp_items (snd (create_proposal_step rt be rfp vendor e body db)) = rfp_items db /\
  (fst (create_proposal_step rt be rfp vendor e body db) = false ->
   snd (create_proposal_step rt be rfp vendor e body db) = db).
Proof.
  intros W. unfold create_proposal_step.
  destruct (upsert_proposal rt be rfp vendor e body db) as [[[]|x] db'] eqn:U;
    cbn [fst snd];
    destruct (upsert_tables rt be db db' rfp vendor e body _ U) as (T1 & T2).
  - split; [|split; [exact T1 | split; [exact T2 | discriminate]]].
    intros a b Hab.
    unfold upsert_proposal, atomic in U.
    destruct (proposals_of rfp vendor db) as [|r0 l] eqn:F.
    + unfold orm_bind, orm_ret, Proposal_create in U.
      destruct (existsb _ _); [discriminate|].
      destruct (proposal_write_error be db _); [discriminate|].
      injection U as <-. unfold proposals_of. cbn [proposals with_proposals].
      rewrite filter_app. cbn [filter].
      assert (Sn : same_pair a b
                     {| Proposal.id := next_proposal_id db; Proposal.rfp := rfp;
                        Proposal.vendor := vendor; Proposal.raw_email_content := body;
                        Proposal.price := new_price rt e;
                        Proposal.payment_terms :=
                          py_or (ProposalResult.payment_terms e) (PStr []);
                        Proposal.warranty :=
                          py_or (ProposalResult.warranty e) (PStr []) |} = false).
      { destruct (same_pair a b _) eqn:Sp; [|reflexivity].
        apply same_pair_iff in Sp. unfold pair_of in Sp. cbn in Sp. congruence. }
      rewrite Sn. apply app_nil_r.
    + destruct (found_row db rfp vendor r0 l F) as [Hin S].
      unfold Proposal_save in U.
      destruct (existsb _ _); [discriminate|].
      destruct (proposal_write_error be db _); [discriminate|].
      injection U as <-.
      change (filter (same_pair a b)
                (replace_row (update_fields rt r0 e body) (proposals db)) =
              filter (same_pair a b) (proposals db)).
      apply same_pair_iff in S.
      apply filter_replace_row_other.
      * destruct (same_pair a b _) eqn:Sp; [|reflexivity].
        apply same_pair_iff in Sp.
        change (pair_of (update_fields rt r0 e body)) with (pair_of r0) in Sp.
        congruence.
      * intros p Hp Hid.
        change (Proposal.id (update_fields rt r0 e body)) with (Proposal.id r0) in Hid.
        rewrite (in_map_inj Proposal.id (proposals db) p r0 (wf_keys W) Hp Hin Hid).
        destruct (same_pair a b r0) eqn:Sp; [|reflexivity].
        apply same_pair_iff in Sp. congruence.
  - assert (db' = db) as ->.
    { unfold upsert_proposal in U. exact (atomic_raise_unchanged _ _ _ _ U). }
    repeat split; reflexivity.
Qed.

Lemma quoted_store_wf : proposals_wf quoted_store.
Proof.
  apply (upsert_preserves_wf Samples.runtime Demo.backend Demo.empty_db 7 3
           Samples.first_quote (py "Our quote: $68,500, Net 30.")).
  constructor; simpl; constructor.
Qed.

Lemma upsert_touches_one_pair_witness :
  proposals_wf quoted_store /\
  proposals_of 7 3
    (snd (create_proposal_step Samples.runtime Demo.backend 7 4 Samples.second_quote
            (py "Terms are now Net 45.") quoted_store))
  = proposals_of 7 3 quoted_store /\
  List.length (proposals_of 7 3 quoted_store) = 1%nat.
Proof.
  split; [exact quoted_store_wf|]. split; [|vm_compute; reflexivity].
  apply (proj1 (upsert_touches_one_pair Samples.runtime Demo.backend 7 4
                  Samples.second_quote (py "Terms are now Net 45.") quoted_store
                  quoted_store_wf)).
  discriminate.
Defined.

(** X8. A quote of zero is stored differently on the two paths: when the
    pair had no proposal, the committed upsert leaves a row without price
    (line 510 keeps the price only when it is true), and when the pair had
    one, it leaves the row with the price 0.0 (line 493 tests [is not
    None]). *)
Theorem zero_price_is_null_only_on_create
    (rt : PyRuntime) (be : Backend) (rfp vendor : Z) (e : ProposalResult.t)
    (body : pystr) (db db' : Database) (sign : bool) :
  proposals_wf db ->
  ProposalResult.price e = Some (S754_zero sign) ->
  upsert_proposal rt be rfp vendor e body db = (Ok tt, db') ->
  exists row,
    proposals_of rfp vendor db' = [row] /\
    Proposal.price row =
      match proposals_of rfp vendor db with
      | [] => None
      | _ :: _ => Some (decimal_of_float rt (S754_zero sign))
      end.
Proof.
  intros W P U.
  destruct (upsert_cases rt be db rfp vendor e body W) as [(x & H)|(d & H & _ & F)];
    rewrite H in U; [discriminate|].
  injection U as <-. eexists. split; [exact F|].
  destruct (proposals_of rfp vendor db) as [|r0 l].
  - cbn [created_row Proposal.price]. unfold new_price. now rewrite P.
  - cbn [update_fields Proposal.price]. now rewrite P.
Qed.

Lemma zero_price_is_null_only_on_create_witness :
  map Proposal.price
    (proposals_of 7 4
       (snd (upsert_proposal Samples.runtime Demo.backend 7 4 free_quote
               (py "No charge.") quoted_store))) = [None] /\
  map Proposal.price
    (proposals_of 7 3
       (snd (upsert_proposal Samples.runtime Demo.backend 7 3 free_quote
               (py "No charge.") quoted_store))) = [Some (Decimal (py "0.0"))].
Proof.
  split.
  - destruct (zero_price_is_null_only_on_create Samples.runtime Demo.backend 7 4
                free_quote (py "No charge.") quoted_store _ false quoted_store_wf
                eq_refl (surjective_pairing _)) as (row & F & P).
    rewrite F. cbn [map]. rewrite P. vm_compute. reflexivity.
  - destruct (zero_price_is_null_only_on_create Samples.runtime Demo.backend 7 3
                free_quote (py "No charge.") quoted_store _ false quoted_store_wf
                eq_refl (surjective_pairing _)) as (row & F & P).
    rewrite F. cbn [map]. rewrite P. vm_compute. reflexivity.
Defined.

Section Idempotence.

Context (rt : PyRuntime) (be : Backend).

Lemma replace_row_same (row : Proposal.t) (ps : list Proposal.t) :
  NoDup (map Proposal.id ps) -> In row ps -> replace_row row ps = ps.
Proof.
  intros N Hin. unfold replace_row.
  rewrite <- (map_id ps) at 2. apply map_ext_in. intros p Hp.
  destruct (Proposal.id p =? Proposal.id row) eqn:E; [|reflexivity].
  apply Z.eqb_eq in E. symmetry.
  exact (in_map_inj Proposal.id ps p row N Hp Hin E).
Qed.

Lemma update_fields_idem (r : Proposal.t) (e : ProposalResult.t) (body : pystr) :
  update_fields rt (update_fields rt r e body) e body = update_fields rt r e body.
Proof.
  unfold update_fields. cbn. destruct (ProposalResult.price e); reflexivity.
Qed.

Lemma update_after_create (db : Database) (rfp vendor : Z) (e : ProposalResult.t)
    (body : pystr) :
  (forall s, ProposalResult.price e <> Some (S754_zero s)) ->
  update_fields rt (created_row rt db rfp vendor e body) e body =
  created_row rt db rfp vendor e body.
Proof.
  intros NZ. unfold update_fields, created_row, new_price. cbn.
  destruct (ProposalResult.price e) as [[s|s| |s m x]|] eqn:P;
    try reflexivity.
  now destruct (NZ s).
Qed.

(** A committed upsert whose row is already in the table as it would be
    written leaves the store as it is. *)
Lemma upsert_fixed (db db' : Database) (rfp vendor : Z) (e : ProposalResult.t)
    (body : pystr) (r : Proposal.t) :
  proposals_wf db ->
  proposals_of rfp vendor db = [r] ->
  update_fields rt r e body = r ->
  upsert_proposal rt be rfp vendor e body db = (Ok tt, db') ->
  db' = db.
Proof.
  intros W F Fix U. unfold upsert_proposal, atomic in U. cbv beta in U.
  rewrite F, Fix in U. unfold Proposal_save in U.
  destruct (existsb _ _); [discriminate|].
  destruct (proposal_write_error be db r); [discriminate|].
  injection U as <-.
  fold (replace_row r (proposals db)).
  destruct (found_row db rfp vendor r [] F) as [Hin _].
  rewrite (replace_row_same r (proposals db) (wf_keys W) Hin).
  destruct db; reflexivity.
Qed.

End Idempotence.

(** X9. Ingesting the same mail again leaves every column but the
    timestamp as it was. When two runs in sequence commit the upsert for a
    pair with the same extraction and the same body, the second finds the
    row of the first and writes the values it already has: the RFPs, the
    items and, column by column ([id], [rfp], [vendor], [raw_email_content],
    [price], [payment_terms], [warranty]), the proposals are after the
    second run what they were after the first, unless the first run created
    the row and the price is zero; and a third such run never changes what
    the second left. The statement is silent on [updated_at]: every
    [existing_proposal.save()] sets it to the time of the run, so the row in
    the database does change there, on each run. (The command leaves mails
    unread unless asked otherwise, so every run meets them again.) *)
Theorem repeated_ingestion_keeps_the_columns
    (rt : PyRuntime) (be : Backend) (rfp vendor : Z) (e : ProposalResult.t)
    (body : pystr) (db0 db1 db2 db3 : Database) :
  proposals_wf db0 ->
  create_proposal_step rt be rfp vendor e body db0 = (true, db1) ->
  create_proposal_step rt be rfp vendor e body db1 = (true, db2) ->
  create_proposal_step rt be rfp vendor e body db2 = (true, db3) ->
  same_columns db3 db2 /\
  ((forall s, ProposalResult.price e <> Some (S754_zero s)) -> same_columns db2 db1) /\
  (proposals_of rfp vendor db0 <> [] -> same_columns db2 db1).
Proof.
  intros W0 S1 S2 S3. apply step_committed in S1, S2, S3.
  destruct (upsert_cases rt be db0 rfp vendor e body W0)
    as [(x & H)|(d1 & H & W1 & P1)]; rewrite H in S1; [discriminate|].
  injection S1 as <-.
  destruct (upsert_cases rt be d1 rfp vendor e body W1)
    as [(x & H')|(d2 & H' & W2 & P2)]; rewrite H' in S2; [discriminate|].
  injection S2 as <-. rewrite P1 in P2.
  assert (same : forall a b : Database, a = b -> same_columns a b)
    by (intros a b ->; repeat split).
  split; [|split].
  - apply same.
    apply (upsert_fixed rt be d2 db3 rfp vendor e body _ W2 P2);
      [apply update_fields_idem | exact S3].
  - intros NZ. apply same.
    apply (upsert_fixed rt be d1 d2 rfp vendor e body _ W1 P1); [|exact H'].
    destruct (proposals_of rfp vendor db0) as [|r0 l].
    + now apply update_after_create.
    + apply update_fields_idem.
  - intros NE. apply same.
    apply (upsert_fixed rt be d1 d2 rfp vendor e body _ W1 P1); [|exact H'].
    destruct (proposals_of rfp vendor db0) as [|r0 l]; [now destruct NE|].
    apply update_fields_idem.
Qed.

Lemma repeated_ingestion_keeps_the_columns_witness :
  proposals_wf Demo.empty_db /\
  same_columns
    (snd (create_proposal_step Samples.runtime Demo.backend 7 3 Samples.first_quote
            (py "Our quote: $68,500, Net 30.") quoted_store))
    quoted_store.
Proof.
  assert (W : proposals_wf Demo.empty_db) by (constructor; simpl; constructor).
  split; [exact W|].
  destruct (repeated_ingestion_keeps_the_columns Samples.runtime Demo.backend 7 3
              Samples.first_quote (py "Our quote: $68,500, Net 30.")
              Demo.empty_db quoted_store _ _ W
              (surjective_pairing _) (surjective_pairing _) (surjective_pairing _))
    as (_ & H & _).
  apply H. intros s. discriminate.
Defined.

(* ===================================================================== *)
(** ** The matcher *)
(* ===================================================================== *)

Section Matcher.

Lemma consumed_app (a rest : pystr) : consumed (a ++ rest) rest = a.
Proof.
  unfold consumed. rewrite length_app.
  replace (List.length a + List.length rest - List.length rest)%nat
    with (List.length a + 0)%nat by lia.
  rewrite firstn_app_2. simpl. apply app_nil_r.
Qed.

Lemma star_k_stops {X} (p : N -> bool) (s : pystr) (k : pystr -> option X) :
  stops p s = true -> star_k p s k = k s.
Proof.
  destruct s as [|c t]; simpl; [reflexivity|].
  intros H. apply negb_true_iff in H. now rewrite H.
Qed.

(** No way through a run of the class lets the continuation succeed. *)
Lemma star_k_all_fail {X} (p : N -> bool) (a rest : pystr) (k : pystr -> option X) :
  forallb p a = true -> stops p rest = true ->
  (forall b c, a = b ++ c -> k (c ++ rest) = None) ->
  star_k p (a ++ rest) k = None.
Proof.
  induction a as [|x a IH]; intros Ha Hs Hk.
  - cbn [app]. rewrite (star_k_stops p rest k Hs). exact (Hk [] [] eq_refl).
  - cbn [forallb] in Ha. apply andb_true_iff in Ha as [Hx Ha].
    cbn [app star_k]. rewrite Hx, IH; auto.
    + exact (Hk [] (x :: a) eq_refl).
    + intros b c ->. exact (Hk (x :: b) c eq_refl).
Qed.

(** A greedy repetition gives back characters until the continuation
    succeeds: it keeps [a1] when what follows, [a2], is the shortest tail of
    the run from which the continuation succeeds. *)
Lemma star_k_backtrack {X} (p : N -> bool) (a1 a2 rest : pystr)
    (k : pystr -> option X) (x : X) :
  forallb p (a1 ++ a2) = true -> stops p rest = true ->
  k (a2 ++ rest) = Some x ->
  (forall b c, a2 = b ++ c -> b <> [] -> k (c ++ rest) = None) ->
  star_k p (a1 ++ a2 ++ rest) k = Some x.
Proof.
  intros Ha Hs Hk Hf. rewrite forallb_app in Ha. apply andb_true_iff in Ha as [H1 H2].
  induction a1 as [|y a1 IH].
  - cbn [app]. clear H1. revert Hk Hf. generalize dependent a2.
    intros a2. destruct a2 as [|z a2]; intros H2 Hk Hf.
    + cbn [app] in *. now rewrite (star_k_stops p rest k Hs).
    + cbn [forallb] in H2. apply andb_true_iff in H2 as [Hz H2].
      cbn [app star_k]. rewrite Hz.
      rewrite (star_k_all_fail p a2 rest k H2 Hs).
      * exact Hk.
      * intros b c ->. apply (Hf (z :: b) c); [reflexivity | discriminate].
  - cbn [forallb] in H1. apply andb_true_iff in H1 as [Hy H1].
    cbn [app star_k]. rewrite Hy, (IH H1). reflexivity.
Qed.

(** A greedy repetition takes the whole run when the continuation accepts
    what follows it. *)
Lemma star_k_greedy {X} (p : N -> bool) (a rest : pystr) (k : pystr -> option X) (x : X) :
  forallb p a = true -> stops p rest = true -> k rest = Some x ->
  star_k p (a ++ rest) k = Some x.
Proof.
  intros Ha Hs Hk.
  pose proof (star_k_backtrack p a [] rest k x) as H. cbn [app] in H.
  rewrite app_nil_r in H. apply H; auto.
  intros b c E Hb. destruct b; [now destruct Hb | discriminate].
Qed.

(** A lazy repetition stops at the first place from which the continuation
    succeeds. *)
Lemma plus_lazy_k_first {X} (p : N -> bool) (a rest : pystr) (k : pystr -> option X)
    (x : X) :
  forallb p a = true -> a <> [] ->
  (forall b c, a = b ++ c -> b <> [] -> c <> [] -> k (c ++ rest) = None) ->
  k rest = Some x ->
  plus_lazy_k p (a ++ rest) k = Some x.
Proof.
  induction a as [|y a IH]; intros Ha Hne Hf Hk; [now destruct Hne|].
  cbn [forallb] in Ha. apply andb_true_iff in Ha as [Hy Ha].
  cbn [app plus_lazy_k]. rewrite Hy.
  destruct a as [|z a].
  - cbn [app]. now rewrite Hk.
  - rewrite (Hf [y] (z :: a) eq_refl) by discriminate.
    apply IH; auto; [discriminate|].
    intros b c E Hb Hc. apply (Hf (y :: b) c); [now rewrite E | discriminate | exact Hc].
Qed.

Lemma run_lit_i {X} (l tok s g : pystr) (k : pystr -> pystr -> option X) :
  same_ignoring_case l tok = true ->
  run (lit_i l) (tok ++ s) g k = k s g.
Proof.
  revert tok. induction l as [|c l IH]; intros [|x tok] H; try discriminate.
  - reflexivity.
  - cbn [same_ignoring_case] in H. apply andb_true_iff in H as [Hc Hl].
    cbn [lit_i run app]. rewrite Hc. now apply IH.
Qed.

(** [re.search] skips the positions at which the pattern does not match. *)
Lemma re_search_skip (r : regex) (pre s : pystr) :
  (forall a b, pre = a ++ b -> b <> [] -> re_match r (b ++ s) = None) ->
  re_search r (pre ++ s) = re_search r s.
Proof.
  induction pre as [|c pre IH]; intros H; [reflexivity|].
  assert (E : re_match r (c :: pre ++ s) = None)
    by (apply (H [] (c :: pre) eq_refl); discriminate).
  cbn [app re_search]. rewrite E.
  apply IH. intros a b -> Hb. exact (H (c :: a) b eq_refl Hb).
Qed.

Lemma re_search_here (r : regex) (s : pystr) (m : Match) :
  re_match r s = Some m -> re_search r s = Some m.
Proof. intros H. destruct s; cbn [re_search]; now rewrite H. Qed.

(** The continuation of a pattern is only ever given tails of the text. *)
Lemma tail_of_refl (s : pystr) : tail_of s s.
Proof. now exists []. Qed.

Lemma tail_of_cons (c : N) (s' s : pystr) : tail_of s' s -> tail_of s' (c :: s).
Proof. intros [a ->]. now exists (c :: a). Qed.

Lemma tail_of_trans (a b c : pystr) : tail_of a b -> tail_of b c -> tail_of a c.
Proof. intros [x ->] [y ->]. exists (y ++ x). now rewrite app_assoc. Qed.

Lemma star_k_tails {X} (p : N -> bool) (s : pystr) (k : pystr -> option X) :
  (forall s', tail_of s' s -> k s' = None) -> star_k p s k = None.
Proof.
  induction s as [|c t IH]; intros H.
  - exact (H [] (tail_of_refl [])).
  - cbn [star_k]. rewrite IH.
    + destruct (p c); exact (H _ (tail_of_refl _)).
    + intros s' T. apply H. now apply tail_of_cons.
Qed.

Lemma plus_lazy_k_tails {X} (p : N -> bool) (s : pystr) (k : pystr -> option X) :
  (forall s', tail_of s' s -> k s' = None) -> plus_lazy_k p s k = None.
Proof.
  induction s as [|c t IH]; intros H; [reflexivity|].
  cbn [plus_lazy_k]. destruct (p c); [|reflexivity].
  rewrite (H t (tail_of_cons c t t (tail_of_refl t))).
  apply IH. intros s' T. apply H. now apply tail_of_cons.
Qed.

(** A pattern fails when what follows it fails on every tail of the text. *)
Lemma run_tails {X} (r : regex) (s g : pystr) (k : pystr -> pystr -> option X) :
  (forall s' g', tail_of s' s -> k s' g' = None) -> run r s g k = None.
Proof.
  revert s g k. induction r as [ |p|a IHa b IHb|a IHa b IHb|a IHa|p|p|p|a IHa];
    intros s g k H; cbn [run].
  - apply H, tail_of_refl.
  - destruct s as [|c t]; [reflexivity|]. destruct (p c); [|reflexivity].
    apply H. apply tail_of_cons, tail_of_refl.
  - apply IHa. intros s' g' T. apply IHb. intros s'' g'' T'.
    apply H. exact (tail_of_trans _ _ _ T' T).
  - rewrite (IHa s g k H). now apply IHb.
  - rewrite (IHa s g k H). apply H, tail_of_refl.
  - apply star_k_tails. intros s' T. now apply H.
  - destruct s as [|c t]; [reflexivity|]. destruct (p c); [|reflexivity].
    apply star_k_tails. intros s' T. apply H. now apply tail_of_cons.
  - apply plus_lazy_k_tails. intros s' T. now apply H.
  - apply IHa. intros s' g' T. now apply H.
Qed.

Lemma consumed_all (s : pystr) : consumed s [] = s.
Proof.
  unfold consumed. change (List.length (@nil N)) with 0%nat.
  rewrite Nat.sub_0_r. apply firstn_all.
Qed.

Lemma star_k_takes_all {X} (p : N -> bool) (a rest : pystr) (k : pystr -> option X) :
  forallb p a = true -> stops p rest = true -> k rest <> None ->
  star_k p (a ++ rest) k = k rest.
Proof.
  intros Ha Hs Hk. destruct (k rest) as [x|] eqn:E; [|now destruct Hk].
  now apply star_k_greedy.
Qed.

End Matcher.

(* ===================================================================== *)
(** ** fetch_emails.py: the address of the sender *)
(* ===================================================================== *)

Section Sender.

Lemma existsb_middle {A} (f : A -> bool) (a : list A) (x : A) (b : list A) :
  existsb f (a ++ x :: b) = false -> f x = false.
Proof.
  rewrite existsb_app. intros H. apply orb_false_iff in H as [_ H].
  cbn [existsb] in H. now apply orb_false_iff in H as [H _].
Qed.

Lemma re_search_none (r : regex) (s : pystr) :
  (forall s', tail_of s' s -> re_match r s' = None) -> re_search r s = None.
Proof.
  induction s as [|c t IH]; intros H.
  - cbn [re_search]. now rewrite (H [] (tail_of_refl [])).
  - cbn [re_search]. rewrite (H _ (tail_of_refl _)). apply IH.
    intros s' T. apply H. now apply tail_of_cons.
Qed.

Lemma existsb_tail {A} (f : A -> bool) (s' s : list A) :
  (exists a, s = a ++ s') -> existsb f s = false -> existsb f s' = false.
Proof.
  intros [a ->]. rewrite existsb_app. intros H. now apply orb_false_iff in H as [_ H].
Qed.

Lemma angle_needs_bracket (s : pystr) :
  existsb (N.eqb 60) s = false -> re_search angle_pattern s = None.
Proof.
  intros H. apply re_search_none. intros s' T.
  pose proof (existsb_tail _ _ _ T H) as H'.
  destruct s' as [|c t]; [reflexivity|].
  cbn [existsb] in H'. apply orb_false_iff in H' as [Hc _].
  unfold re_match, angle_pattern. cbn [run]. now rewrite Hc.
Qed.

Lemma address_needs_at (u : Unicode) (s : pystr) :
  existsb (N.eqb 64) s = false -> re_search (address_pattern u) s = None.
Proof.
  intros H. apply re_search_none. intros s' T.
  pose proof (existsb_tail _ _ _ T H) as H'.
  unfold re_match, address_pattern. cbn [run]. 
  change (run (Plus (re_address_char u)) s' [] (fun s0 g' => run (Seq (Chr (N.eqb 64)) (Seq (Plus (re_address_char u)) (Seq (Chr (N.eqb 46)) (Plus (re_word u))))) s0 g' (fun rest g => Some {| group0 := consumed s' rest; group1 := g; after := rest |})) = None).
  apply run_tails. intros s'' g' T'.
  pose proof (existsb_tail _ _ _ T' H') as H''.
  destruct s'' as [|c t]; [reflexivity|].
  cbn [existsb] in H''. apply orb_false_iff in H'' as [Hc _].
  cbn [run]. now rewrite Hc.
Qed.

Lemma span_last (p : N -> bool) (b : pystr) :
  b <> [] -> p (last b 0%N) = false ->
  exists a x r, b = a ++ x :: r /\ forallb p a = true /\ p x = false.
Proof.
  induction b as [|c b IH]; intros Hne Hl; [now destruct Hne|].
  destruct (p c) eqn:Hc.
  - destruct b as [|c' b].
    + cbn [last] in Hl. congruence.
    + destruct IH as (a & x & r & E & Ha & Hx); [discriminate | exact Hl |].
      exists (c :: a), x, r. rewrite E. cbn [forallb app]. now rewrite Hc, Ha.
  - now exists [], c, b.
Qed.

Lemma stops_rev_last (p : N -> bool) (a b : pystr) :
  b <> [] -> stops p (rev (a ++ b)) = true -> p (last b 0%N) = false.
Proof.
  intros Hne. destruct (exists_last Hne) as (b' & x & ->).
  rewrite last_last, app_assoc, rev_unit. cbn [stops].
  now intros H%negb_true_iff.
Qed.

Lemma word_is_address_char (u : Unicode) (c : N) :
  re_word u c = true -> re_address_char u c = true.
Proof. unfold re_address_char. now intros ->. Qed.

Lemma forallb_impl {A} (p q : A -> bool) (l : list A) :
  (forall x, p x = true -> q x = true) -> forallb p l = true -> forallb q l = true.
Proof.
  intros H. rewrite !forallb_forall. auto.
Qed.

Lemma stops_weaken (p q : N -> bool) (s : pystr) :
  (forall x, q x = true -> p x = true) -> stops p s = true -> stops q s = true.
Proof.
  intros H. destruct s as [|c t]; [reflexivity|]. cbn [stops].
  intros Hp%negb_true_iff. apply negb_true_iff.
  destruct (q c) eqn:E; [|reflexivity]. apply H in E. congruence.
Qed.

Lemma address_here (u : Unicode) (l d t post : pystr) :
  l <> [] -> forallb (re_address_char u) l = true ->
  d <> [] -> forallb (re_address_char u) d = true ->
  t <> [] -> forallb (re_word u) t = true ->
  stops (re_address_char u) post = true ->
  re_match (address_pattern u) (l ++ 64%N :: d ++ 46%N :: t ++ post) =
  Some {| group0 := l ++ 64%N :: d ++ 46%N :: t; group1 := []; after := post |}.
Proof.
  intros Hl Pl Hd Pd Ht Pt Hs.
  destruct l as [|l0 l]; [now destruct Hl|].
  destruct d as [|d0 d]; [now destruct Hd|].
  destruct t as [|t0 t]; [now destruct Ht|].
  cbn [forallb] in Pl, Pd, Pt.
  apply andb_true_iff in Pl as [Pl0 Pl].
  apply andb_true_iff in Pd as [Pd0 Pd].
  apply andb_true_iff in Pt as [Pt0 Pt].
  unfold re_match, address_pattern. cbn [run app]. rewrite Pl0.
  apply star_k_greedy; [exact Pl | reflexivity |].
  cbn [run]. rewrite N.eqb_refl, Pd0.
  change (d ++ 46%N :: t0 :: t ++ post) with (d ++ (46%N :: t0 :: t) ++ post).
  apply star_k_backtrack.
  - rewrite forallb_app, Pd. cbn [forallb andb].
    rewrite (word_is_address_char u t0 Pt0).
    now rewrite (forallb_impl _ _ t (word_is_address_char u) Pt).
  - exact Hs.
  - cbn [run app]. rewrite N.eqb_refl, Pt0.
    apply star_k_greedy; [exact Pt | exact (stops_weaken _ _ post (word_is_address_char u) Hs) |].
    f_equal. f_equal.
    replace (l0 :: l ++ 64%N :: d0 :: d ++ 46%N :: t0 :: t ++ post)
      with ((l0 :: l ++ 64%N :: d0 :: d ++ 46%N :: t0 :: t) ++ post).
    + apply consumed_app.
    + cbn [app]. rewrite <- !app_assoc. cbn [app]. rewrite <- !app_assoc. reflexivity.
  - intros b c E Hb. destruct b as [|b0 b]; [now destruct Hb|].
    injection E as _ E.
    assert (Pc : forallb (re_word u) c = true).
    { assert (P' : forallb (re_word u) (t0 :: t) = true) by (cbn [forallb]; now rewrite Pt0, Pt).
      rewrite E, forallb_app in P'. now apply andb_true_iff in P' as [_ P']. }
    destruct c as [|c0 c].
    + cbn [app run]. destruct post as [|q post]; [reflexivity|].
      cbn [stops] in Hs. apply negb_true_iff in Hs.
      destruct (N.eqb 46 q) eqn:Eq; [|reflexivity].
      apply N.eqb_eq in Eq. subst q. discriminate Hs.
    + cbn [forallb] in Pc. apply andb_true_iff in Pc as [Pc0 _].
      cbn [app run].
      destruct (N.eqb 46 c0) eqn:Eq; [|reflexivity].
      apply N.eqb_eq in Eq. subst c0. discriminate Pc0.
Qed.

Lemma no_address_before (u : Unicode) (pre b0 b rest : pystr) :
  pre = b0 ++ b -> b <> [] ->
  existsb (N.eqb 64) pre = false ->
  stops (re_address_char u) (rev pre) = true ->
  re_match (address_pattern u) (b ++ rest) = None.
Proof.
  intros -> Hb Hat Hs.
  pose proof (stops_rev_last _ _ _ Hb Hs) as Hl.
  destruct (span_last _ b Hb Hl) as (a & x & r & -> & Pa & Px).
  rewrite existsb_app in Hat. apply orb_false_iff in Hat as [_ Hat].
  unfold re_match, address_pattern. cbn [run].
  destruct a as [|a0 a].
  - cbn [app]. now rewrite Px.
  - cbn [forallb] in Pa. apply andb_true_iff in Pa as [Pa0 Pa].
    cbn [app]. rewrite Pa0. rewrite <- app_assoc. 
    apply star_k_all_fail; [exact Pa | cbn [app stops]; now rewrite Px |].
    intros b1 c1 ->.
    assert (Hc : existsb (N.eqb 64) (c1 ++ x :: r) = false).
    { replace ((a0 :: b1 ++ c1) ++ x :: r) with ((a0 :: b1) ++ c1 ++ x :: r) in Hat
        by (cbn [app]; now rewrite <- app_assoc).
      rewrite existsb_app in Hat. now apply orb_false_iff in Hat as [_ Hat]. }
    rewrite <- app_assoc.
    destruct c1 as [|c0 c1]; cbn [app existsb] in Hc |- *;
      apply orb_false_iff in Hc as [Hc _]; cbn [run]; now rewrite Hc.
Qed.

Lemma address_chars_hold_no_bracket (u : Unicode) (l : pystr) :
  forallb (re_address_char u) l = true -> existsb (N.eqb 60) l = false.
Proof.
  induction l as [|c l IH]; [reflexivity|]. cbn [forallb existsb].
  intros [Hc Hl]%andb_true_iff. rewrite (IH Hl), orb_false_r.
  destruct (N.eqb 60 c) eqn:E; [|reflexivity].
  apply N.eqb_eq in E. subst c. discriminate Hc.
Qed.

End Sender.

(** X10. A sender written with angle brackets gives what stands between the
    first [<] and the next [>] after at least one character, stripped: the
    text before holds no [<], the text between is not empty, has no line
    feed, and no [>] after its first character. Nothing checks that it is
    an address. *)
Theorem address_between_angle_brackets (u : Unicode) (pre addr post : pystr) :
  existsb (N.eqb 60) pre = false ->
  addr <> [] ->
  forallb re_dot addr = true ->
  existsb (N.eqb 62) (tl addr) = false ->
  _extract_email_address u (pre ++ 60%N :: addr ++ 62%N :: post) = strip addr.
Proof.
  intros Hpre Hne Hdot Hgt. unfold _extract_email_address.
  rewrite re_search_skip.
  2:{ intros a b -> Hb. destruct b as [|c b]; [now destruct Hb|].
      apply existsb_middle in Hpre.
      unfold re_match, angle_pattern. cbn [run app]. now rewrite Hpre. }
  rewrite (re_search_here _ _
             {| group0 := 60%N :: addr ++ [62%N]; group1 := addr; after := post |}).
  - reflexivity.
  - unfold re_match, angle_pattern. cbn [run]. rewrite N.eqb_refl.
    apply plus_lazy_k_first; auto.
    + intros b c -> Hb Hc. destruct c as [|x c]; [now destruct Hc|].
      destruct b as [|y b]; [now destruct Hb|].
      cbn [app tl] in Hgt. apply existsb_middle in Hgt.
      cbv beta. cbn [app run]. now rewrite Hgt.
    + cbn [run]. rewrite N.eqb_refl, consumed_app.
      f_equal. f_equal.
      replace (60%N :: addr ++ 62%N :: post) with ((60%N :: addr ++ [62%N]) ++ post)
        by (cbn [app]; now rewrite <- app_assoc).
      apply consumed_app.
Qed.

Lemma address_between_angle_brackets_witness :
  _extract_email_address More.unicode (py "Ana <hello> <ana@acme.example>") =
  py "hello".
Proof.
  apply (address_between_angle_brackets More.unicode (py "Ana ") (py "hello")
           (py " <ana@acme.example>")).
  - vm_compute; reflexivity.
  - discriminate.
  - vm_compute; reflexivity.
  - vm_compute; reflexivity.
Defined.

(** X11. Without a [<] in the sender, an address that stands in it is found
    and returned: the text before it has no [@] and is empty or ends
    outside the class of the address characters, the local part and the
    domain are of that class, the last label of word characters, and what
    follows is empty or opens outside the class. *)
Theorem address_inside_text (u : Unicode) (pre l d t post : pystr) :
  existsb (N.eqb 60) (pre ++ post) = false ->
  existsb (N.eqb 64) pre = false ->
  stops (re_address_char u) (rev pre) = true ->
  l <> [] -> forallb (re_address_char u) l = true ->
  d <> [] -> forallb (re_address_char u) d = true ->
  t <> [] -> forallb (re_word u) t = true ->
  stops (re_address_char u) post = true ->
  _extract_email_address u (pre ++ l ++ 64%N :: d ++ 46%N :: t ++ post) =
  strip (l ++ 64%N :: d ++ 46%N :: t).
Proof.
  intros Hlt Hat Hs Hl Pl Hd Pd Ht Pt Hp. unfold _extract_email_address.
  rewrite existsb_app in Hlt. apply orb_false_iff in Hlt as [Hlt1 Hlt2].
  rewrite angle_needs_bracket.
  2:{ rewrite existsb_app, Hlt1, existsb_app, (address_chars_hold_no_bracket u l Pl).
      cbn [existsb orb]. rewrite existsb_app, (address_chars_hold_no_bracket u d Pd).
      cbn [existsb orb]. rewrite existsb_app, Hlt2.
      rewrite (address_chars_hold_no_bracket u t
                 (forallb_impl _ _ t (word_is_address_char u) Pt)).
      reflexivity. }
  rewrite re_search_skip.
  2:{ intros a b E Hb. exact (no_address_before u pre a b _ E Hb Hat Hs). }
  rewrite (re_search_here _ _ _ (address_here u l d t post Hl Pl Hd Pd Ht Pt Hp)).
  reflexivity.
Qed.

Lemma address_inside_text_witness :
  _extract_email_address More.unicode (py "from ana.b@mail.acme.example (Ana)") =
  py "ana.b@mail.acme.example".
Proof.
  apply (address_inside_text More.unicode (py "from ") (py "ana.b") (py "mail.acme")
           (py "example") (py " (Ana)"));
    try discriminate; vm_compute; reflexivity.
Defined.

(** X12. A sender with neither [<] nor [@] is returned as it is, stripped:
    the function gives back text that is no address rather than nothing. *)
Theorem sender_without_address_is_kept (u : Unicode) (sender : pystr) :
  existsb (N.eqb 60) sender = false ->
  existsb (N.eqb 64) sender = false ->
  _extract_email_address u sender = strip sender.
Proof.
  intros H1 H2. unfold _extract_email_address.
  now rewrite (angle_needs_bracket _ H1), (address_needs_at u _ H2).
Qed.

Lemma sender_without_address_is_kept_witness :
  _extract_email_address More.unicode (py "  Ana of Acme ") = py "Ana of Acme".
Proof.
  rewrite (sender_without_address_is_kept More.unicode (py "  Ana of Acme "));
    vm_compute; reflexivity.
Defined.


(* ===================================================================== *)
(** ** fetch_emails.py: the RFP a subject names *)
(* ===================================================================== *)

Section Numbered.

Lemma letter_r_cases (x : N) :
  re_ignorecase 82 x = true -> x = 82%N \/ x = 114%N.
Proof.
  unfold re_ignorecase. change (to_lower 82) with 114%N.
  cbn [N.eqb Pos.eqb andb]. rewrite !orb_false_r.
  intros H%N.eqb_eq. unfold to_lower in H.
  destruct (ascii_upper x); [left | right]; lia.
Qed.

Lemma token_rfp (tok : pystr) :
  same_ignoring_case (py "RFP") tok = true ->
  exists x1 x2 x3, tok = [x1; x2; x3] /\ (x1 = 82%N \/ x1 = 114%N).
Proof.
  change (py "RFP") with [82%N; 70%N; 80%N].
  destruct tok as [|x1 [|x2 [|x3 [|x4 tok]]]]; cbn [same_ignoring_case];
    rewrite ?andb_false_r; try discriminate.
  intros [H1 _]%andb_true_iff. exists x1, x2, x3. split; [reflexivity|].
  now apply letter_r_cases.
Qed.

Lemma star_k_total {X} (p : N -> bool) (s : pystr) (k : pystr -> option X) :
  (forall s', k s' <> None) -> star_k p s k <> None.
Proof.
  intros H. induction s as [|c t IH]; cbn [star_k]; [apply H|].
  destruct (p c); [|apply H].
  destruct (star_k p t k); [discriminate | apply H].
Qed.

Lemma re_search_none_inv (r : regex) (s a b : pystr) :
  re_search r s = None -> s = a ++ b -> re_match r b = None.
Proof.
  intros H ->. induction a as [|c a IH].
  - cbn [app] in H. destruct b; cbn [re_search] in H;
      destruct (re_match r _); [discriminate | reflexivity | discriminate | reflexivity].
  - apply IH. cbn [app re_search] in H.
    destruct (re_match r (c :: a ++ b)); [discriminate | exact H].
Qed.

(** White space, [#] and digits that do not match before the end of a text
    do not match either when a letter R follows the text. *)
Lemma hash_part_extend (u : Unicode) (b : pystr) (x : N) (T : pystr)
    (fin fin' : pystr -> pystr -> option Match) :
  x = 82%N \/ x = 114%N ->
  (forall s g, fin' s g <> None) ->
  star_k re_space b
    (fun s' => run (Seq (Chr (N.eqb 35)) (Group (Plus (re_digit u)))) s' [] fin') = None ->
  star_k re_space (b ++ x :: T)
    (fun s' => run (Seq (Chr (N.eqb 35)) (Group (Plus (re_digit u)))) s' [] fin) = None.
Proof.
  intros Hx Hfin. induction b as [|c b IH]; intros H.
  - cbn [app star_k]. destruct Hx as [-> | ->]; reflexivity.
  - cbn [app star_k] in H |- *. destruct (re_space c) eqn:Hc.
    + destruct (star_k re_space b _) eqn:E in H; [discriminate|].
      rewrite (IH E). cbn [run].
      destruct (N.eqb 35 c) eqn:E35; [|reflexivity].
      apply N.eqb_eq in E35. subst c. discriminate Hc.
    + cbn [run] in H |- *. destruct (N.eqb 35 c); [|reflexivity].
      destruct b as [|d b]; cbn [app].
      * destruct Hx as [-> | ->]; reflexivity.
      * destruct (re_digit u d); [|reflexivity].
        exfalso. revert H. apply star_k_total. intros s'. apply Hfin.
Qed.


Lemma rfp_part_extend {X} (b : pystr) (x : N) (T : pystr)
    (K K' : pystr -> pystr -> option X) :
  x = 82%N \/ x = 114%N -> b <> [] ->
  (forall s', K' s' [] = None -> K (s' ++ x :: T) [] = None) ->
  run (lit_i (py "RFP")) b [] K' = None ->
  run (lit_i (py "RFP")) (b ++ x :: T) [] K = None.
Proof.
  intros Hx Hb HK. change (py "RFP") with [82%N; 70%N; 80%N].
  destruct b as [|c1 b]; [now destruct Hb|].
  cbn [lit_i run app]. destruct (re_ignorecase 82 c1); [|reflexivity].
  destruct b as [|c2 b]; cbn [app].
  { intros _. destruct Hx as [-> | ->]; reflexivity. }
  destruct (re_ignorecase 70 c2); [|reflexivity].
  destruct b as [|c3 b]; cbn [app].
  { intros _. destruct Hx as [-> | ->]; reflexivity. }
  destruct (re_ignorecase 80 c3); [|reflexivity].
  apply HK.
Qed.

Lemma no_hash_before (u : Unicode) (b tok rest : pystr) :
  same_ignoring_case (py "RFP") tok = true -> b <> [] ->
  re_match (hash_pattern u) b = None ->
  re_match (hash_pattern u) (b ++ tok ++ rest) = None.
Proof.
  intros Ht Hb. destruct (token_rfp tok Ht) as (x1 & x2 & x3 & -> & Hx).
  unfold re_match, hash_pattern.
  refine (rfp_part_extend b x1 (x2 :: x3 :: rest)
            (fun s' g' =>
               run (Seq (Star re_space) (Seq (Chr (N.eqb 35)) (Group (Plus (re_digit u)))))
                 s' g'
                 (fun r g =>
                    Some {| group0 := consumed (b ++ [x1; x2; x3] ++ rest) r;
                            group1 := g; after := r |}))
            (fun s' g' =>
               run (Seq (Star re_space) (Seq (Chr (N.eqb 35)) (Group (Plus (re_digit u)))))
                 s' g'
                 (fun r g => Some {| group0 := consumed b r; group1 := g; after := r |}))
            Hx Hb _).
  intros s'. apply (hash_part_extend u s' x1 (x2 :: x3 :: rest)); [exact Hx | discriminate].
Qed.

Lemma hash_here (u : Unicode) (tok ws ds rest : pystr) :
  same_ignoring_case (py "RFP") tok = true ->
  forallb re_space ws = true ->
  ds <> [] -> forallb (re_digit u) ds = true ->
  stops (re_digit u) rest = true ->
  re_match (hash_pattern u) (tok ++ ws ++ 35%N :: ds ++ rest) =
  Some {| group0 := tok ++ ws ++ 35%N :: ds; group1 := ds; after := rest |}.
Proof.
  intros Ht Hw Hd Pd Hs. destruct ds as [|d0 ds]; [now destruct Hd|].
  cbn [forallb] in Pd. apply andb_true_iff in Pd as [Pd0 Pd].
  unfold re_match, hash_pattern. cbn [run]. rewrite (run_lit_i _ _ _ _ _ Ht).
  cbn [run]. apply star_k_greedy; [exact Hw | reflexivity |].
  cbn [run app]. rewrite N.eqb_refl, Pd0.
  apply star_k_greedy; [exact Pd | exact Hs |].
  f_equal. f_equal.
  - replace (tok ++ ws ++ 35%N :: d0 :: ds ++ rest)
      with ((tok ++ ws ++ 35%N :: d0 :: ds) ++ rest)
      by (rewrite <- !app_assoc; cbn [app]; reflexivity).
    apply consumed_app.
  - change (d0 :: ds ++ rest) with ((d0 :: ds) ++ rest). apply consumed_app.
Qed.

End Numbered.

(** X13. The first [RFP #n] of a subject decides: when the text before it
    holds no such token, the token is [RFP] in any case, white space or
    none, [#] and all the decimal digits that follow, the result is [int]
    of these digits, whatever else the subject says and whatever the store
    holds. The title rule and the table of RFPs are not consulted, so the
    number need not be the id of a row. *)
Theorem numbered_subject_gives_the_number (rt : PyRuntime) (u : Unicode) (coll : Collation)
    (pre tok ws ds rest : pystr) (db : Database) :
  re_search (hash_pattern u) pre = None ->
  same_ignoring_case (py "RFP") tok = true ->
  forallb re_space ws = true ->
  ds <> [] -> forallb (re_digit u) ds = true ->
  stops (re_digit u) rest = true ->
  _extract_rfp_id_from_subject rt u coll (pre ++ tok ++ ws ++ 35%N :: ds ++ rest) db =
  (n <- py_int rt (PStr ds) ;; Ok (Some n)).
Proof.
  intros Hp Ht Hw Hd Pd Hs. unfold _extract_rfp_id_from_subject.
  rewrite re_search_skip.
  2:{ intros a b E Hb. apply no_hash_before; [exact Ht | exact Hb |].
      exact (re_search_none_inv _ _ _ _ Hp E). }
  rewrite (re_search_here _ _ _ (hash_here u tok ws ds rest Ht Hw Hd Pd Hs)).
  reflexivity.
Qed.

Lemma numbered_subject_gives_the_number_witness :
  _extract_rfp_id_from_subject More.runtime More.unicode More.collation
    (py "Re: RFP Invitation: rack for RFP #12, urgent") More.two_rfps = Ok (Some 12).
Proof.
  change (py "Re: RFP Invitation: rack for RFP #12, urgent")
    with (py "Re: RFP Invitation: rack for " ++ py "RFP" ++ py " " ++
          35%N :: py "12" ++ py ", urgent").
  rewrite (numbered_subject_gives_the_number More.runtime More.unicode More.collation
             (py "Re: RFP Invitation: rack for ") (py "RFP") (py " ") (py "12")
             (py ", urgent") More.two_rfps);
    try discriminate; vm_compute; reflexivity.
Defined.

Section Invitation.

Lemma letter_f_cases (x : N) :
  re_ignorecase 70 x = true -> x = 70%N \/ x = 102%N.
Proof.
  unfold re_ignorecase. change (to_lower 70) with 102%N.
  cbn [N.eqb Pos.eqb andb]. rewrite !orb_false_r.
  intros H%N.eqb_eq. unfold to_lower in H.
  destruct (ascii_upper x); [left | right]; lia.
Qed.

Lemma lstrip_frame (s : pystr) :
  exists a, s = a ++ lstrip s /\ forallb isspace a = true.
Proof.
  induction s as [|c s (a & E & Ha)]; [now exists []|].
  cbn [lstrip]. destruct (isspace c) eqn:Hc.
  - exists (c :: a). cbn [app forallb]. now rewrite Hc, Ha, <- E.
  - now exists [].
Qed.

(** A text is its [strip] between two runs of white space. *)
Lemma strip_frame (s : pystr) :
  exists a b, s = a ++ strip s ++ b /\
              forallb isspace a = true /\ forallb isspace b = true.
Proof.
  destruct (lstrip_frame s) as (a & Ea & Ha).
  destruct (lstrip_frame (rev (lstrip s))) as (b & Eb & Hb).
  exists a, (rev b). unfold strip, rstrip. rewrite forallb_rev.
  repeat split; auto.
  rewrite <- rev_app_distr, <- Eb, rev_involutive. exact Ea.
Qed.

Lemma not_space_is_dot (c : N) : isspace c = false -> re_dot c = true.
Proof.
  intros H. unfold re_dot. destruct (N.eqb c 10) eqn:E; [|reflexivity].
  apply N.eqb_eq in E. subst c. discriminate H.
Qed.

(** A text is its first line and a rest that is empty or opens with a line
    feed. *)
Lemma first_line_split (s : pystr) :
  exists rest, s = first_line s ++ rest /\
               forallb re_dot (first_line s) = true /\ stops re_dot rest = true.
Proof.
  induction s as [|c s (rest & E & D & S)]; [now exists []|].
  cbn [first_line]. destruct (N.eqb c 10) eqn:Hc.
  - exists (c :: s). repeat split. cbn [stops]. unfold re_dot. now rewrite Hc.
  - exists rest. cbn [app forallb]. unfold re_dot at 1. rewrite Hc, D, <- E. auto.
Qed.

Lemma first_line_whole (s : pystr) : forallb re_dot s = true -> first_line s = s.
Proof.
  induction s as [|c s IH]; [reflexivity|]. cbn [forallb first_line].
  intros [Hc Hs]%andb_true_iff. unfold re_dot in Hc.
  apply negb_true_iff in Hc. now rewrite Hc, (IH Hs).
Qed.

(** The subject of an invitation with a blank title, stripped, ends at its
    colon. *)
Lemma strip_invitation_blank (title : pystr) :
  whitespace_only title = true ->
  strip (invitation_subject title) = py "RFP Invitation:".
Proof.
  intros W. unfold invitation_subject.
  change (py "RFP Invitation: " ++ title)
    with ([] ++ py "RFP Invitation:" ++ (32%N :: title)).
  rewrite strip_padded; [reflexivity | reflexivity |].
  cbn [forallb]. exact W.
Qed.

(** With a title that is not blank the subject, stripped, loses the white
    space after the title and nothing else. *)
Lemma strip_invitation (a m b : pystr) :
  forallb isspace a = true -> forallb isspace b = true ->
  m <> [] -> strip m = m ->
  strip (invitation_subject (a ++ m ++ b)) = py "RFP Invitation: " ++ a ++ m.
Proof.
  intros Ha Hb Hne Hm. unfold invitation_subject.
  change (py "RFP Invitation: " ++ a ++ m ++ b)
    with ([] ++ (py "RFP Invitation: " ++ a ++ m ++ b)).
  replace (py "RFP Invitation: " ++ a ++ m ++ b)
    with ((py "RFP Invitation: " ++ a ++ m) ++ b) by now rewrite <- !app_assoc.
  rewrite strip_padded by (reflexivity || exact Hb).
  destruct (rev m) as [|z r] eqn:R.
  - apply (f_equal (@rev N)) in R. rewrite rev_involutive in R. now destruct Hne.
  - apply (strip_fixed _ 82%N z (py "FP Invitation: " ++ a ++ m)
             (r ++ rev (py "RFP Invitation: " ++ a))).
    + reflexivity.
    + rewrite app_assoc, rev_app_distr, R. reflexivity.
    + reflexivity.
    + rewrite <- Hm in R. exact (strip_last_not_space _ _ _ R).
Qed.

Lemma reply_mark_removed (mark title : pystr) :
  reply_mark mark ->
  re_sub_anchored reply_prefix_pattern (mark ++ invitation_subject title) =
  invitation_subject title.
Proof.
  intros [-> | (tok & ws & -> & Ht & Hw)].
  - reflexivity.
  - unfold re_sub_anchored, re_match, reply_prefix_pattern.
    rewrite <- app_assoc. cbn [app].
    apply orb_true_iff in Ht as [Ht | Ht]; [apply orb_true_iff in Ht as [Ht | Ht]|].
    + cbn [run]. rewrite (run_lit_i _ _ _ _ _ Ht). cbv beta iota.
      rewrite N.eqb_refl.
      rewrite star_k_takes_all; [reflexivity | exact Hw | reflexivity | discriminate].
    + change (py "Fw") with [70%N; 119%N] in Ht |- *.
      change (py "Re") with [82%N; 101%N].
      destruct tok as [|x1 [|x2 [|x3 tok]]]; cbn [same_ignoring_case] in Ht;
        rewrite ?andb_false_r in Ht; try discriminate.
      apply andb_true_iff in Ht as [H1 H2]. rewrite andb_true_r in H2.
      cbn [run lit_i app]. rewrite H1, H2.
      replace (re_ignorecase 82 x1) with false
        by (destruct (letter_f_cases x1 H1) as [-> | ->]; reflexivity).
      change (re_ignorecase 100 58) with false. cbv iota.
      rewrite N.eqb_refl.
      rewrite star_k_takes_all; [reflexivity | exact Hw | reflexivity | discriminate].
    + change (py "Fwd") with [70%N; 119%N; 100%N] in Ht.
      change (py "Fw") with [70%N; 119%N].
      change (py "Re") with [82%N; 101%N].
      destruct tok as [|x1 [|x2 [|x3 [|x4 tok]]]]; cbn [same_ignoring_case] in Ht;
        rewrite ?andb_false_r in Ht; try discriminate.
      apply andb_true_iff in Ht as [H1 Ht]. apply andb_true_iff in Ht as [H2 H3].
      rewrite andb_true_r in H3.
      cbn [run lit_i app]. rewrite H1, H2, H3.
      replace (re_ignorecase 82 x1) with false
        by (destruct (letter_f_cases x1 H1) as [-> | ->]; reflexivity).
      cbv iota. rewrite N.eqb_refl.
      rewrite star_k_takes_all; [reflexivity | exact Hw | reflexivity | discriminate].
Qed.

(** On the stripped subject the pattern matches at the start; its group is
    the first line of what follows the white space after the colon. *)
Lemma invitation_here (a x rest : pystr) :
  forallb isspace a = true ->
  x <> [] -> forallb re_dot x = true -> stops re_space (x ++ rest) = true ->
  stops re_dot rest = true ->
  exists m, re_match invitation_pattern (py "RFP Invitation: " ++ a ++ x ++ rest) = Some m /\
            group1 m = x.
Proof.
  intros Ha Hne Hd Hs Hr. destruct x as [|x0 x]; [now destruct Hne|].
  cbn [forallb] in Hd. apply andb_true_iff in Hd as [Hd0 Hd].
  eexists. split.
  - unfold re_match, invitation_pattern.
    change (py "RFP Invitation: " ++ a ++ (x0 :: x) ++ rest)
      with (py "RFP" ++ 32%N :: py "Invitation:" ++ (32%N :: a) ++ (x0 :: x ++ rest)).
    cbn [run]. rewrite run_lit_i by reflexivity.
    cbn [run]. change (re_space 32) with true. cbv iota.
    change (py "Invitation:" ++ (32%N :: a) ++ x0 :: x ++ rest)
      with ([] ++ py "Invitation:" ++ (32%N :: a) ++ x0 :: x ++ rest).
    apply star_k_greedy; [reflexivity | reflexivity |].
    rewrite run_lit_i by reflexivity.
    cbn [run].
    apply star_k_greedy; [cbn [forallb]; exact Ha | exact Hs |].
    cbn [run]. rewrite Hd0.
    apply star_k_greedy; [exact Hd | exact Hr |].
    reflexivity.
  - cbn [group1]. change (x0 :: x ++ rest) with ((x0 :: x) ++ rest). apply consumed_app.
Qed.

End Invitation.

(** X14. The subject that [send_rfp_emails] writes finds its way back by
    the title. An answer to, or a forward of, [RFP Invitation: <title>],
    with no number token in it, resolves to nothing when the title is only
    white space; otherwise the title that is looked up is the first line of
    the stripped title, stripped again, and the result is the latest
    created RFP whose title equals it up to case as the database compares,
    or nothing when there is none. So a title that is not empty, has no
    line feed and no white space at its ends is looked up as it is, and
    with two RFPs of that title the answer goes to the later one; a title
    stored with white space at an end, or with a line feed inside, is
    looked up under another text and is found only if the database's
    comparison equates the two. *)
Theorem invitation_reply_resolves_by_title (rt : PyRuntime) (u : Unicode)
    (coll : Collation) (mark title : pystr) (db : Database) :
  reply_mark mark ->
  re_search (hash_pattern u) (mark ++ invitation_subject title) = None ->
  re_search (id_pattern u) (mark ++ invitation_subject title) = None ->
  _extract_rfp_id_from_subject rt u coll (mark ++ invitation_subject title) db =
    Ok (if whitespace_only title then None
        else option_map RFP.id
               (rfp_by_title rt coll (strip (first_line (strip title))) db)) /\
  (title <> [] -> forallb re_dot title = true -> strip title = title ->
   _extract_rfp_id_from_subject rt u coll (mark ++ invitation_subject title) db =
     Ok (option_map RFP.id (rfp_by_title rt coll title db))).
Proof.
  intros Hm H1 H2.
  assert (G : _extract_rfp_id_from_subject rt u coll (mark ++ invitation_subject title) db =
    Ok (if whitespace_only title then None
        else option_map RFP.id
               (rfp_by_title rt coll (strip (first_line (strip title))) db))).
  { unfold _extract_rfp_id_from_subject.
    rewrite H1, H2. cbv zeta. rewrite (reply_mark_removed mark title Hm).
    destruct (whitespace_only title) eqn:W.
    - rewrite (strip_invitation_blank title W). reflexivity.
    - destruct (strip_frame title) as (a & b & E & Ha & Hb).
      assert (Hne : strip title <> []).
      { intros N. apply strip_nil_iff in N. congruence. }
      rewrite E at 1.
      rewrite (strip_invitation a (strip title) b Ha Hb Hne (strip_idem title)).
      destruct (first_line_split (strip title)) as (rest & S & D & R).
      destruct (strip title) as [|m0 m] eqn:M; [now destruct Hne|].
      pose proof (strip_head_not_space _ _ _ M) as Hm0.
      assert (F : first_line (m0 :: m) <> []).
      { cbn [first_line]. pose proof (not_space_is_dot _ Hm0) as Q.
        unfold re_dot in Q. apply negb_true_iff in Q. rewrite Q. discriminate. }
      destruct (invitation_here a (first_line (m0 :: m)) rest Ha F D) as (mt & Hmt & G1).
      + rewrite <- S. cbn [stops]. unfold re_space. now rewrite Hm0.
      + exact R.
      + rewrite S at 1. rewrite (re_search_here _ _ _ Hmt), G1.
        now destruct (rfp_by_title rt coll (strip (first_line (m0 :: m))) db). }
  split; [exact G|].
  intros Hne Hd Hs. rewrite G.
  assert (W : whitespace_only title = false).
  { destruct (whitespace_only title) eqn:W; [|reflexivity].
    apply strip_nil_iff in W. congruence. }
  now rewrite W, Hs, (first_line_whole title Hd), Hs.
Qed.

Lemma invitation_reply_resolves_by_title_witness :
  _extract_rfp_id_from_subject More.runtime More.unicode More.collation
    (py "Re: RFP Invitation: Office laptops 2025") More.two_rfps = Ok (Some 2) /\
  _extract_rfp_id_from_subject More.runtime More.unicode More.collation
    (py "Fwd: RFP Invitation: Office chairs ") More.spaced_rfps = Ok None /\
  option_map RFP.id
    (rfp_by_title More.runtime More.collation (py "Office chairs ") More.spaced_rfps) =
  Some 1.
Proof.
  assert (R : reply_mark (py "Re: ")).
  { right. exists (py "Re"), (py " "). repeat split; reflexivity. }
  assert (F : reply_mark (py "Fwd: ")).
  { right. exists (py "Fwd"), (py " "). repeat split; reflexivity. }
  split; [|split].
  - apply (invitation_reply_resolves_by_title More.runtime More.unicode More.collation
             (py "Re: ") (py "Office laptops 2025") More.two_rfps R);
      try discriminate; vm_compute; reflexivity.
  - apply (invitation_reply_resolves_by_title More.runtime More.unicode More.collation
             (py "Fwd: ") (py "Office chairs ") More.spaced_rfps F);
      vm_compute; reflexivity.
  - vm_compute; reflexivity.
Defined.

(* ===================================================================== *)
(** ** fetch_emails.py: the body of a mail *)
(* ===================================================================== *)

Section Body.

Lemma pystr_eqb_eq (a b : pystr) : pystr_eqb a b = true -> a = b.
Proof.
  revert b. induction a as [|x a IH]; intros [|y b]; cbn [pystr_eqb]; try discriminate.
  - reflexivity.
  - intros [Hx Hab]%andb_true_iff. apply N.eqb_eq in Hx. subst y. now rewrite (IH b Hab).
Qed.

Lemma walk_parts_no_plain (parts : list Part) (body : pystr) :
  forallb no_plain_text parts = true ->
  walk_parts parts body =
  match body with
  | [] => first_html parts
  | _ :: _ => body
  end.
Proof.
  revert body. induction parts as [|p parts IH]; intros body H.
  - now destruct body.
  - cbn [forallb] in H. apply andb_true_iff in H as [Hp H].
    cbn [walk_parts first_html]. unfold no_plain_text, plain_text_of in Hp. unfold html_text_of.
    destruct (contains (py "attachment") (content_disposition p)); [now apply IH|].
    destruct (pystr_eqb (content_type p) (py "text/plain")) eqn:Ep.
    + destruct (payload p); [discriminate|].
      replace (pystr_eqb (content_type p) (py "text/html")) with false.
      * now apply IH.
      * destruct (pystr_eqb (content_type p) (py "text/html")) eqn:Eh; [|reflexivity].
        apply pystr_eqb_eq in Ep, Eh. rewrite Ep in Eh. discriminate Eh.
    + destruct (pystr_eqb (content_type p) (py "text/html")); cbn [andb].
      * destruct body as [|c body]; cbn [str_is_empty].
        -- destruct (payload p) as [text|e]; [|now apply (IH [])].
           rewrite (IH text H). now destruct text.
        -- now apply IH.
      * now apply IH.
Qed.

Lemma walk_parts_plain (before : list Part) (p : Part) (after : list Part)
    (text body : pystr) :
  forallb no_plain_text before = true ->
  plain_text_of p = Some text ->
  walk_parts (before ++ p :: after) body = text.
Proof.
  revert body. induction before as [|q before IH]; intros body H Hp.
  - cbn [app walk_parts]. unfold plain_text_of in Hp.
    destruct (contains _ _); [discriminate|].
    destruct (pystr_eqb _ _); [|discriminate].
    destruct (payload p); [now injection Hp | discriminate].
  - cbn [forallb] in H. apply andb_true_iff in H as [Hq H].
    cbn [app walk_parts]. unfold no_plain_text, plain_text_of in Hq.
    destruct (contains _ _); [now apply IH|].
    destruct (pystr_eqb (content_type q) (py "text/plain")).
    + destruct (payload q); [discriminate | now apply IH].
    + destruct (pystr_eqb _ _ && str_is_empty body); [|now apply IH].
      destruct (payload q); now apply IH.
Qed.

End Body.

(** X15. Plain text is preferred: the body of a multipart mail is the text,
    stripped, of its first part that is no attachment, is [text/plain] and
    decodes, whatever HTML parts stand before or after it and whatever the
    parts before it that are attachments or do not decode. *)
Theorem plain_text_is_preferred (before : list Part) (p : Part) (after : list Part)
    (text : pystr) :
  forallb no_plain_text before = true ->
  plain_text_of p = Some text ->
  _get_email_body (Multipart (before ++ p :: after)) = strip text.
Proof.
  intros H Hp. unfold _get_email_body. cbv zeta.
  now rewrite (walk_parts_plain before p after text [] H Hp).
Qed.

Lemma plain_text_is_preferred_witness :
  _get_email_body
    (Multipart [More.html_part; More.attached_part; More.broken_part; More.plain_part;
                More.html_part]) =
  py "Our quote: $68,500, Net 30.".
Proof.
  apply (plain_text_is_preferred [More.html_part; More.attached_part; More.broken_part]
           More.plain_part [More.html_part] (py "Our quote: $68,500, Net 30.  "));
    vm_compute; reflexivity.
Defined.

(** X16. HTML is the fallback, markup included: when no part gives plain
    text, the body is the first HTML text that is not empty, stripped, and
    the empty text when there is none. *)
Theorem html_is_the_fallback (parts : list Part) :
  forallb no_plain_text parts = true ->
  _get_email_body (Multipart parts) = strip (first_html parts).
Proof.
  intros H. unfold _get_email_body. cbv zeta.
  now rewrite (walk_parts_no_plain parts [] H).
Qed.

Lemma html_is_the_fallback_witness :
  _get_email_body (Multipart [More.attached_part; More.broken_part; More.html_part]) =
  py "<p>Our quote: <b>$68,500</b></p>".
Proof.
  apply (html_is_the_fallback [More.attached_part; More.broken_part; More.html_part]).
  vm_compute; reflexivity.
Defined.

(* ===================================================================== *)
(** ** fetch_emails.py: from a mail to a proposal *)
(* ===================================================================== *)

Section Acceptance.

Context (rt : PyRuntime) (u : Unicode) (coll : Collation) (w : World) (be : Backend)
  (vendors : list Vendor.t).

Lemma step_refused (rfp vendor : Z) (e : ProposalResult.t) (body : pystr)
    (db db' : Database) :
  create_proposal_step rt be rfp vendor e body db = (false, db') -> db' = db.
Proof.
  unfold create_proposal_step.
  destruct (upsert_proposal rt be rfp vendor e body db) as [[[]|x] d] eqn:U;
    intros H; [discriminate|].
  injection H as <-. unfold upsert_proposal in U.
  exact (atomic_raise_unchanged _ _ _ _ U).
Qed.

Lemma rfp_by_id_found (n : Z) (db : Database) (rfp : RFP.t) :
  rfp_by_id n db = Some rfp -> In rfp (rfps db) /\ RFP.id rfp = n.
Proof.
  unfold rfp_by_id. intros H. apply find_some in H as [Hin E].
  split; [exact Hin | now apply Z.eqb_eq].
Qed.

(** What [True] tells: every lookup of the function succeeded, and the
    block committed. *)
Lemma accepted_inv (sender_email subject body : pystr) (db db' : Database) :
  _create_proposal_from_email rt u coll w be vendors sender_email subject body db =
    (true, db') ->
  exists vendor rfp e,
    vendor_by_email coll vendors sender_email = Some vendor /\
    _extract_rfp_id_from_subject rt u coll subject db = Ok (Some (RFP.id rfp)) /\
    RFP.id rfp <> 0 /\ In rfp (rfps db) /\
    extract_proposal_from_email rt w body = Ok e /\
    ProposalResult.success e = true /\
    create_proposal_step rt be (RFP.id rfp) (Vendor.id vendor) e body db = (true, db').
Proof.
  unfold _create_proposal_from_email.
  destruct (vendor_by_email coll vendors sender_email) as [vendor|]; [|discriminate].
  destruct (_extract_rfp_id_from_subject rt u coll subject db) as [[n|]|x];
    try discriminate.
  destruct (n =? 0) eqn:N0; [discriminate|].
  destruct (rfp_by_id n db) as [rfp|] eqn:R; [|discriminate].
  destruct (extract_proposal_from_email rt w body) as [e|x]; [|discriminate].
  destruct (ProposalResult.success e) eqn:S; cbn [negb]; [|discriminate].
  intros H. destruct (rfp_by_id_found n db rfp R) as [Hin <-].
  exists vendor, rfp, e. repeat split; auto. now apply Z.eqb_neq.
Qed.

(** What [False] tells: nothing was written. *)
Lemma refused_unchanged (sender_email subject body : pystr) (db db' : Database) :
  _create_proposal_from_email rt u coll w be vendors sender_email subject body db =
    (false, db') ->
  db' = db.
Proof.
  unfold _create_proposal_from_email.
  destruct (vendor_by_email coll vendors sender_email) as [vendor|];
    [|intros H; now injection H].
  destruct (_extract_rfp_id_from_subject rt u coll subject db) as [[n|]|x];
    try (intros H; now injection H).
  destruct (n =? 0); [intros H; now injection H|].
  destruct (rfp_by_id n db) as [rfp|]; [|intros H; now injection H].
  destruct (extract_proposal_from_email rt w body) as [e|x]; [|intros H; now injection H].
  destruct (negb (ProposalResult.success e)); [intros H; now injection H|].
  apply step_refused.
Qed.

End Acceptance.

(** X17. A mail that is refused writes nothing: whenever
    [_create_proposal_from_email] returns [False], the store is as it was,
    and the reason is one of these: no vendor has that address, the lookup
    of the subject raised, the subject names no RFP, it names the id 0, no
    RFP has the id it names, the extraction raised or failed, or the
    database rejected the write. *)
Theorem refused_mail_writes_nothing
    (rt : PyRuntime) (u : Unicode) (coll : Collation) (w : World) (be : Backend)
    (vendors : list Vendor.t) (sender_email subject body : pystr) (db db' : Database) :
  _create_proposal_from_email rt u coll w be vendors sender_email subject body db =
    (false, db') ->
  db' = db /\
  (vendor_by_email coll vendors sender_email = None \/
   (exists x, _extract_rfp_id_from_subject rt u coll subject db = Raise x) \/
   _extract_rfp_id_from_subject rt u coll subject db = Ok None \/
   _extract_rfp_id_from_subject rt u coll subject db = Ok (Some 0) \/
   (exists n, _extract_rfp_id_from_subject rt u coll subject db = Ok (Some n) /\
              rfp_by_id n db = None) \/
   (exists x, extract_proposal_from_email rt w body = Raise x) \/
   (exists e, extract_proposal_from_email rt w body = Ok e /\
              (ProposalResult.success e = false \/
               exists rfp vendor,
                 create_proposal_step rt be rfp vendor e body db = (false, db')))).
Proof.
  intros H. split; [exact (refused_unchanged rt u coll w be vendors _ _ _ _ _ H)|].
  unfold _create_proposal_from_email in H.
  destruct (vendor_by_email coll vendors sender_email) as [vendor|]; [|now left].
  right.
  destruct (_extract_rfp_id_from_subject rt u coll subject db) as [[n|]|x];
    [| right; now left | left; eauto].
  destruct (n =? 0) eqn:N0.
  { apply Z.eqb_eq in N0. subst n. right. right. now left. }
  destruct (rfp_by_id n db) as [rfp|] eqn:R; [|do 3 right; left; eauto].
  destruct (extract_proposal_from_email rt w body) as [e|x];
    [|do 4 right; left; eauto].
  do 5 right. exists e. split; [reflexivity|].
  destruct (ProposalResult.success e); cbn [negb] in H; [right; eauto | now left].
Qed.

Lemma refused_mail_writes_nothing_witness :
  _create_proposal_from_email More.runtime More.unicode More.collation
    (Demo.world More.quote_text) Demo.backend More.vendors (py "ana@acme.example")
    (py "Re: RFP #0") (py "Our quote") More.two_rfps = (false, More.two_rfps) /\
  _extract_rfp_id_from_subject More.runtime More.unicode More.collation
    (py "Re: RFP #0") More.two_rfps = Ok (Some 0).
Proof.
  split; [|vm_compute; reflexivity].
  assert (H : _create_proposal_from_email More.runtime More.unicode More.collation
                (Demo.world More.quote_text) Demo.backend More.vendors
                (py "ana@acme.example") (py "Re: RFP #0") (py "Our quote") More.two_rfps
              = (false, More.two_rfps)) by (vm_compute; reflexivity).
  destruct (refused_mail_writes_nothing _ _ _ _ _ _ _ _ _ _ _ H) as [_ _].
  exact H.
Defined.

(** X18. A mail that is accepted: when [_create_proposal_from_email]
    returns [True] on a table that holds no pair twice, the sender is the
    address of a vendor, the first in the order of the names that compares
    equal, the subject names an RFP of the store by an id that is not 0,
    the extraction succeeded, and afterwards the pair has exactly one
    proposal: the new row, or the row found with its fields reassigned.
    The tables of RFPs and items are as they were. *)
Theorem accepted_mail_stores_one_row
    (rt : PyRuntime) (u : Unicode) (coll : Collation) (w : World) (be : Backend)
    (vendors : list Vendor.t) (sender_email subject body : pystr) (db db' : Database) :
  proposals_wf db ->
  _create_proposal_from_email rt u coll w be vendors sender_email subject body db =
    (true, db') ->
  exists vendor rfp e,
    vendor_by_email coll vendors sender_email = Some vendor /\
    _extract_rfp_id_from_subject rt u coll subject db = Ok (Some (RFP.id rfp)) /\
    RFP.id rfp <> 0 /\ In rfp (rfps db) /\
    extract_proposal_from_email rt w body = Ok e /\
    ProposalResult.success e = true /\
    proposals_of (RFP.id rfp) (Vendor.id vendor) db' =
      [ match proposals_of (RFP.id rfp) (Vendor.id vendor) db with
        | [] => created_row rt db (RFP.id rfp) (Vendor.id vendor) e body
        | existing_proposal :: _ => update_fields rt existing_proposal e body
        end ] /\
    proposals_wf db' /\ rfps db' = rfps db /\ rfp_items db' = rfp_items db.
Proof.
  intros W H.
  destruct (accepted_inv rt u coll w be vendors _ _ _ _ _ H)
    as (vendor & rfp & e & Hv & Hs & Hn & Hin & He & Hok & Hstep).
  exists vendor, rfp, e. repeat (split; [assumption|]).
  apply step_committed in Hstep.
  destruct (upsert_tables rt be db db' _ _ e body _ Hstep) as [T1 T2].
  destruct (upsert_cases rt be db (RFP.id rfp) (Vendor.id vendor) e body W)
    as [(x & U)|(d & U & Wd & P)]; rewrite U in Hstep; [discriminate|].
  injection Hstep as <-. auto.
Qed.

Lemma two_rfps_wf : proposals_wf More.two_rfps.
Proof. constructor; cbn; constructor. Qed.

Lemma accepted_mail_stores_one_row_witness :
  exists db',
    _create_proposal_from_email More.runtime More.unicode More.collation
      (Demo.world More.quote_text) Demo.backend More.vendors (py "ANA@acme.example")
      (py "Re: RFP #2") (py "Our quote") More.two_rfps = (true, db') /\
    List.length (proposals_of 2 4 db') = 1%nat /\
    rfps db' = rfps More.two_rfps.
Proof.
  eexists. split; [vm_compute; reflexivity|].
  match goal with
  | |- context [proposals_of 2 4 ?d] =>
      assert (H : _create_proposal_from_email More.runtime More.unicode More.collation
                    (Demo.world More.quote_text) Demo.backend More.vendors
                    (py "ANA@acme.example") (py "Re: RFP #2") (py "Our quote")
                    More.two_rfps = (true, d)) by (vm_compute; reflexivity)
  end.
  destruct (accepted_mail_stores_one_row _ _ _ _ _ _ _ _ _ _ _ two_rfps_wf H)
    as (vendor & rfp & e & _ & _ & _ & _ & _ & _ & _ & _ & T & _).
  split; [vm_compute; reflexivity | exact T].
Defined.

(* ===================================================================== *)
(** ** fetch_emails.py: the run of the command *)
(* ===================================================================== *)

Section RunInvariants.

Context (rt : PyRuntime) (u : Unicode) (coll : Collation) (w : World) (be : Backend)
  (vendors : list Vendor.t) (imap : Imap) (options : Options).

Variable R : Progress -> Progress -> Prop.
Hypothesis R_refl : forall p, R p p.
Hypothesis R_trans : forall a b c, R a b -> R b c -> R a c.
Hypothesis R_mail : forall m p, R p (process_mail rt u coll w be vendors options m p).
Hypothesis R_seen : forall p l,
  R p {| store := store p; seen := l;
         proposals_created := proposals_created p;
         proposals_failed := proposals_failed p |}.

Lemma process_parts_rel (msg_data : list (result Mail)) (p : Progress) :
  R p (snd (process_parts rt u coll w be vendors options msg_data p)).
Proof.
  revert p. induction msg_data as [|[m|e] rest IH]; intros p; cbn [process_parts snd].
  - apply R_refl.
  - exact (R_trans _ _ _ (R_mail m p) (IH _)).
  - apply R_refl.
Qed.

Lemma process_emails_rel (email_ids : list N) (p : Progress) :
  R p (snd (process_emails rt u coll w be vendors imap options email_ids p)).
Proof.
  revert p. induction email_ids as [|i rest IH]; intros p; cbn [process_emails].
  - apply R_refl.
  - destruct (fetch imap i) as [[[|] msg_data]|e]; [| apply IH | apply R_refl].
    pose proof (process_parts_rel msg_data p) as P.
    destruct (process_parts rt u coll w be vendors options msg_data p) as [[e|] p'];
      cbn [snd] in P |- *; [exact P|].
    destruct (mark_seen options); [|exact (R_trans _ _ _ P (IH _))].
    destruct (store_error imap i); [exact P|].
    exact (R_trans _ _ _ P (R_trans _ _ _ (R_seen p' _) (IH _))).
Qed.

Lemma handle_rel (email_user email_password : option pystr) (db : Database) :
  R {| store := db; seen := []; proposals_created := 0; proposals_failed := 0 |}
    (snd (handle rt u coll w be vendors imap options email_user email_password db)).
Proof.
  unfold handle. cbv zeta.
  destruct (key_missing email_user || key_missing email_password); [apply R_refl|].
  destruct (login_error imap); [apply R_refl|].
  destruct (search_unseen imap) as [[[|] ids]|e]; try apply R_refl.
  destruct ids as [|i ids]; [destruct (logout_error imap); apply R_refl|].
  match goal with
  | |- context [process_emails ?a ?b ?c ?d ?e ?f ?g ?h ?l ?s] =>
      pose proof (process_emails_rel l s) as P;
      destruct (process_emails a b c d e f g h l s) as [[| |x] p']
  end; cbn [snd] in P |- *; try exact P.
  destruct (logout_error imap); exact P.
Qed.

End RunInvariants.

Section RunFacts.

Context (rt : PyRuntime) (u : Unicode) (coll : Collation) (w : World) (be : Backend)
  (vendors : list Vendor.t) (imap : Imap) (options : Options).

Lemma created_tables (sender_email subject body : pystr) (db : Database) :
  let db' := snd (_create_proposal_from_email rt u coll w be vendors sender_email
                    subject body db) in
  rfps db' = rfps db /\ rfp_items db' = rfp_items db.
Proof.
  cbv zeta.
  destruct (_create_proposal_from_email rt u coll w be vendors sender_email subject body db)
    as [[|] db'] eqn:H; cbn [snd].
  - destruct (accepted_inv rt u coll w be vendors _ _ _ _ _ H)
      as (vendor & rfp & e & _ & _ & _ & _ & _ & _ & Hstep).
    apply step_committed in Hstep.
    exact (upsert_tables rt be db db' _ _ e body _ Hstep).
  - apply refused_unchanged in H. now subst db'.
Qed.

Lemma created_wf (sender_email subject body : pystr) (db : Database) :
  proposals_wf db ->
  proposals_wf
    (snd (_create_proposal_from_email rt u coll w be vendors sender_email subject body db)).
Proof.
  intros W.
  destruct (_create_proposal_from_email rt u coll w be vendors sender_email subject body db)
    as [[|] db'] eqn:H; cbn [snd].
  - destruct (accepted_inv rt u coll w be vendors _ _ _ _ _ H)
      as (vendor & rfp & e & _ & _ & _ & _ & _ & _ & Hstep).
    apply step_committed in Hstep.
    pose proof (upsert_preserves_wf rt be db (RFP.id rfp) (Vendor.id vendor) e body W) as P.
    now rewrite Hstep in P.
  - apply refused_unchanged in H. now subst db'.
Qed.

Lemma continues_refl (p : Progress) : continues p p.
Proof. unfold continues. auto. Qed.

Lemma continues_trans (a b c : Progress) : continues a b -> continues b c -> continues a c.
Proof.
  unfold continues. intros (L1 & S1 & A1 & B1) (L2 & S2 & A2 & B2).
  split; [lia|]. split; [|split; congruence].
  intros E. rewrite S2 by lia. apply S1. lia.
Qed.

Lemma continues_mail (m : Mail) (p : Progress) :
  continues p (process_mail rt u coll w be vendors options m p).
Proof.
  unfold process_mail. cbv zeta.
  destruct (create_proposals options && _); [|apply continues_refl].
  pose proof (created_tables (_extract_email_address u (from_header m)) (subject_header m)
                (_get_email_body (msg m)) (store p)) as T. cbv zeta in T.
  destruct (_create_proposal_from_email _ _ _ _ _ _ _ _ _ _) as [[|] db'] eqn:H;
    cbn [snd] in T; unfold continues; cbn [store proposals_created].
  - repeat split; try tauto; lia.
  - apply refused_unchanged in H. subst db'. auto.
Qed.

Lemma continues_seen (p : Progress) (l : list N) :
  continues p {| store := store p; seen := l;
                 proposals_created := proposals_created p;
                 proposals_failed := proposals_failed p |}.
Proof. unfold continues. cbn. auto. Qed.

Lemma process_mail_seen (m : Mail) (p : Progress) :
  seen (process_mail rt u coll w be vendors options m p) = seen p.
Proof.
  unfold process_mail. cbv zeta.
  destruct (create_proposals options && _); [|reflexivity].
  now destruct (_create_proposal_from_email _ _ _ _ _ _ _ _ _ _) as [[|] db'].
Qed.

Lemma process_parts_seen (msg_data : list (result Mail)) (p : Progress) :
  seen (snd (process_parts rt u coll w be vendors options msg_data p)) = seen p.
Proof.
  revert p. induction msg_data as [|[m|e] rest IH]; intros p; cbn [process_parts snd];
    try reflexivity.
  now rewrite IH, process_mail_seen.
Qed.

End RunFacts.

(** X19. A run writes only through the proposals it creates: whatever the
    server, the service and the database do and however the run ends, the
    tables of RFPs and items are as before; the store is as before when the
    counter of created proposals is 0; and without [--create-proposals]
    both counters are 0. *)
Theorem run_writes_only_through_created_proposals
    (rt : PyRuntime) (u : Unicode) (coll : Collation) (w : World) (be : Backend)
    (vendors : list Vendor.t) (imap : Imap) (options : Options)
    (email_user email_password : option pystr) (db : Database) :
  let p := snd (handle rt u coll w be vendors imap options email_user email_password db) in
  rfps (store p) = rfps db /\
  rfp_items (store p) = rfp_items db /\
  (proposals_created p = 0%nat -> store p = db) /\
  (create_proposals options = false ->
   proposals_created p = 0%nat /\ proposals_failed p = 0%nat).
Proof.
  cbv zeta. split; [|split; [|split]].
  - apply (handle_rel rt u coll w be vendors imap options continues
             continues_refl continues_trans
             (continues_mail rt u coll w be vendors options) continues_seen).
  - apply (handle_rel rt u coll w be vendors imap options continues
             continues_refl continues_trans
             (continues_mail rt u coll w be vendors options) continues_seen).
  - apply (handle_rel rt u coll w be vendors imap options continues
             continues_refl continues_trans
             (continues_mail rt u coll w be vendors options) continues_seen).
  - intros F.
    apply (handle_rel rt u coll w be vendors imap options
             (fun p p' => proposals_created p' = proposals_created p /\
                          proposals_failed p' = proposals_failed p)).
    + auto.
    + intros a b c [] []. split; congruence.
    + intros m p. unfold process_mail. rewrite F. cbn [andb]. auto.
    + intros p l. cbn. auto.
Qed.


Lemma run_writes_only_through_created_proposals_witness :
  store (snd (handle More.runtime More.unicode More.collation (Demo.world More.quote_text)
                Demo.backend More.vendors More.imap More.options_print_only
                (Some (py "me@example.org")) (Some (py "secret")) More.two_rfps)) =
  More.two_rfps.
Proof.
  destruct (run_writes_only_through_created_proposals More.runtime More.unicode
              More.collation (Demo.world More.quote_text) Demo.backend More.vendors
              More.imap More.options_print_only (Some (py "me@example.org"))
              (Some (py "secret")) More.two_rfps) as (_ & _ & S & C).
  apply S. apply C. reflexivity.
Defined.

(** X20. A run keeps every pair unique: from a table that holds no
    (RFP, vendor) pair twice, [handle] ends, however it ends, with such a
    table. *)
Theorem run_keeps_pairs_unique
    (rt : PyRuntime) (u : Unicode) (coll : Collation) (w : World) (be : Backend)
    (vendors : list Vendor.t) (imap : Imap) (options : Options)
    (email_user email_password : option pystr) (db : Database) :
  proposals_wf db ->
  proposals_wf
    (store (snd (handle rt u coll w be vendors imap options email_user email_password db))).
Proof.
  apply (handle_rel rt u coll w be vendors imap options
           (fun p p' => proposals_wf (store p) -> proposals_wf (store p'))).
  - auto.
  - auto.
  - intros m p W. unfold process_mail. cbv zeta.
    destruct (create_proposals options && _); [|exact W].
    pose proof (created_wf rt u coll w be vendors
                  (_extract_email_address u (from_header m)) (subject_header m)
                  (_get_email_body (msg m)) (store p) W) as P.
    now destruct (_create_proposal_from_email _ _ _ _ _ _ _ _ _ _) as [[|] db'].
  - intros p l W. exact W.
Qed.


Lemma run_keeps_pairs_unique_witness :
  proposals_wf
    (store (snd (handle More.runtime More.unicode More.collation
                   (Demo.world More.quote_text) Demo.backend More.vendors More.imap
                   More.options (Some (py "me@example.org")) (Some (py "secret"))
                   More.two_rfps))) /\
  proposals_created
    (snd (handle More.runtime More.unicode More.collation
            (Demo.world More.quote_text) Demo.backend More.vendors More.imap
            More.options (Some (py "me@example.org")) (Some (py "secret"))
            More.two_rfps)) = 1%nat.
Proof.
  split; [|vm_compute; reflexivity].
  apply (run_keeps_pairs_unique More.runtime More.unicode More.collation
           (Demo.world More.quote_text) Demo.backend More.vendors More.imap More.options
           (Some (py "me@example.org")) (Some (py "secret")) More.two_rfps).
  exact two_rfps_wf.
Defined.

Section SeenFacts.

Context (rt : PyRuntime) (u : Unicode) (coll : Collation) (w : World) (be : Backend)
  (vendors : list Vendor.t) (imap : Imap) (options : Options).

(** The flags are set in the order of the ids, for the ids whose fetch the
    server answers with [OK], as far as the loop gets. *)
Lemma process_emails_marks (email_ids : list N) (p : Progress) :
  exists added rest,
    seen (snd (process_emails rt u coll w be vendors imap options email_ids p)) =
      seen p ++ added /\
    (if mark_seen options then filter (fetched_ok imap) email_ids else []) =
      added ++ rest /\
    (fst (process_emails rt u coll w be vendors imap options email_ids p) = Completed ->
     rest = []).
Proof.
  revert p. induction email_ids as [|i ids IH]; intros p; cbn [process_emails filter].
  - exists [], []. cbn [fst snd]. rewrite app_nil_r.
    destruct (mark_seen options); auto.
  - unfold fetched_ok at 1.
    destruct (fetch imap i) as [[[|] msg_data]|e].
    + pose proof (process_parts_seen rt u coll w be vendors options msg_data p) as P.
      destruct (process_parts rt u coll w be vendors options msg_data p) as [[e|] q];
        cbn [snd] in P.
      * exists [], (if mark_seen options
                    then i :: filter (fetched_ok imap) ids else []).
        cbn [fst snd]. rewrite app_nil_r. repeat split; auto. discriminate.
      * destruct (mark_seen options) eqn:M.
        -- destruct (store_error imap i).
           ++ exists [], (i :: filter (fetched_ok imap) ids).
              cbn [fst snd]. rewrite app_nil_r. repeat split; auto. discriminate.
           ++ destruct (IH {| store := store q; seen := seen q ++ [i];
                             proposals_created := proposals_created q;
                             proposals_failed := proposals_failed q |})
                as (added & rest & S & T & C).
              exists (i :: added), rest. cbn [seen] in S.
              split; [rewrite S, <- app_assoc, P; reflexivity|].
              split; [now rewrite T | exact C].
        -- destruct (IH q) as (added & rest & S & T & C).
           exists added, rest.
           split; [rewrite S, P; reflexivity | split; [exact T | exact C]].
    + apply IH.
    + exists [], (if mark_seen options then filter (fetched_ok imap) ids else []).
      cbn [fst snd]. rewrite app_nil_r. repeat split; auto. discriminate.
Qed.

End SeenFacts.

(** X21. What a run marks as seen: with [--mark-seen] it sets the flag of
    the ids it goes through whose fetch the server answers with [OK], in
    their order and as far as it gets, whether or not a proposal came of
    the mail: the ids marked are always a front part of these, and the
    whole of them when the run reaches its end. Without the flag, and in
    a run that ends before the loop over the mails begins, none is marked.
    The ids it goes through are those of the search, cut with
    [email_ids[:limit]] when there are more than the limit. *)
Theorem run_marks_fetched_mails_in_order
    (rt : PyRuntime) (u : Unicode) (coll : Collation) (w : World) (be : Backend)
    (vendors : list Vendor.t) (imap : Imap) (options : Options)
    (email_user email_password : option pystr) (db : Database)
    (ending : Ending) (p : Progress) :
  handle rt u coll w be vendors imap options email_user email_password db =
    (ending, p) ->
  (ending <> Completed /\ seen p = []) \/
  (exists email_ids rest,
     search_unseen imap = Ok (true, email_ids) /\
     (if mark_seen options then filter (fetched_ok imap) (limited options email_ids)
      else []) = seen p ++ rest /\
     (ending = Completed -> rest = [])).
Proof.
  unfold handle. cbv zeta.
  destruct (key_missing email_user || key_missing email_password).
  { intros H. injection H as <- <-. left. split; [discriminate | reflexivity]. }
  destruct (login_error imap).
  { intros H. injection H as <- <-. left. split; [discriminate | reflexivity]. }
  destruct (search_unseen imap) as [[[|] ids]|e];
    try (intros H; injection H as <- <-; left; split; [discriminate | reflexivity]).
  destruct ids as [|i ids].
  { destruct (logout_error imap); intros H; injection H as <- <-; left;
      (split; [discriminate | reflexivity]). }
  fold (limited options (i :: ids)).
  destruct (process_emails_marks rt u coll w be vendors imap options
              (limited options (i :: ids))
              {| store := db; seen := []; proposals_created := 0;
                 proposals_failed := 0 |}) as (added & rest & S & T & C).
  cbn [seen app] in S.
  destruct (process_emails _ _ _ _ _ _ _ _ _ _) as [[| |x] p'] eqn:E;
    cbn [fst snd] in S, C.
  - destruct (logout_error imap); intros H; injection H as <- <-; right;
      exists (i :: ids), rest; rewrite S; repeat split; auto; discriminate.
  - intros H. injection H as <- <-. right. exists (i :: ids), rest.
    rewrite S. repeat split; auto.
  - intros H. injection H as <- <-. right. exists (i :: ids), rest.
    rewrite S. repeat split; auto.
Qed.

Lemma run_marks_fetched_mails_in_order_witness :
  exists p,
    handle More.runtime More.unicode More.collation (Demo.world More.quote_text)
      Demo.backend More.vendors More.imap More.options (Some (py "me@example.org"))
      (Some (py "secret")) More.two_rfps = (Completed, p) /\
    seen p = [11; 13]%N /\ proposals_failed p = 1%nat.
Proof.
  eexists. split; [vm_compute; reflexivity|].
  match goal with
  | |- seen ?q = _ /\ _ =>
      assert (H : handle More.runtime More.unicode More.collation
                    (Demo.world More.quote_text) Demo.backend More.vendors More.imap
                    More.options (Some (py "me@example.org")) (Some (py "secret"))
                    More.two_rfps = (Completed, q)) by (vm_compute; reflexivity)
  end.
  destruct (run_marks_fetched_mails_in_order _ _ _ _ _ _ _ _ _ _ _ _ _ H)
    as [[N _]|(ids & rest & Hs & Hseen & C)]; [now destruct N|].
  split; [|vm_compute; reflexivity].
  rewrite (C eq_refl), app_nil_r in Hseen. rewrite <- Hseen.
  injection Hs as <-. vm_compute; reflexivity.
Defined.

(* ===================================================================== *)
(** ** views.py: send_rfp_emails *)
(* ===================================================================== *)

Section SendingFacts.

Context (rt : PyRuntime) (sv : Services) (vendors : list Vendor.t).

Lemma send_all_spec (subject message : pystr) (vs : list Vendor.t)
    (outbox : list Sent) (n : nat) (failed : list FailedVendor) :
  send_all sv subject message vs outbox n failed =
  (outbox ++ map (invitation_to subject message) (filter (reachable sv) vs),
   (n + List.length (filter (reachable sv) vs))%nat,
   failed ++ flat_map (failure_of sv) vs).
Proof.
  revert outbox n failed. induction vs as [|v vs IH]; intros outbox n failed.
  - cbn. now rewrite !app_nil_r, Nat.add_0_r.
  - cbn [send_all filter flat_map].
    destruct (send_mail_error sv v) as [e|] eqn:E.
    + assert (Rv : reachable sv v = false) by (unfold reachable; now rewrite E).
      assert (Fv : failure_of sv v =
                   [{| vendor_id := Vendor.id v; vendor_name := Vendor.name v;
                       error := exc_msg e |}]) by (unfold failure_of; now rewrite E).
      rewrite Rv, Fv, IH, <- app_assoc. reflexivity.
    + assert (Rv : reachable sv v = true) by (unfold reachable; now rewrite E).
      assert (Fv : failure_of sv v = []) by (unfold failure_of; now rewrite E).
      rewrite Rv, Fv, IH, <- app_assoc. cbn [map List.length app].
      now rewrite Nat.add_succ_r.
Qed.

Lemma failures_count (vs : list Vendor.t) :
  (List.length (filter (reachable sv) vs) + List.length (flat_map (failure_of sv) vs)
   = List.length vs)%nat.
Proof.
  induction vs as [|v vs IH]; [reflexivity|].
  cbn [filter flat_map]. unfold reachable at 1, failure_of at 1.
  destruct (send_mail_error sv v); cbn [List.length app]; rewrite ?length_app; cbn [List.length]; lia.
Qed.

Lemma rfp_by_id_saved (rfp : RFP.t) (s : rfp_status) (db : Database) :
  rfp_by_id (RFP.id rfp) db = Some rfp ->
  rfp_by_id (RFP.id rfp) (save_rfp (set_status rfp s) db) = Some (set_status rfp s).
Proof.
  unfold rfp_by_id, save_rfp. cbn [rfps set_status RFP.id].
  induction (rfps db) as [|r l IH]; [discriminate|].
  cbn [find map]. destruct (RFP.id r =? RFP.id rfp) eqn:E.
  - intros _. cbn [RFP.id]. now rewrite Z.eqb_refl.
  - rewrite E. exact IH.
Qed.

End SendingFacts.

(** X22. What the answer 200 of [send_rfp_emails] accounts for: the
    vendors found are those of the table whose id is among the keys of the
    request; each one the mail service accepts gets one mail with the
    subject [RFP Invitation: <title>], in the order of the table, and each
    other one an entry in [failed_vendors]. [emails_sent] and the length
    of [failed_vendors] add up to the number of vendors found, while
    [total_vendors] is the length of the list in the request, unknown ids
    and repetitions included. With a mail sent the RFP is saved as [SENT];
    with none, the answer is 200 all the same and the status stays. *)
Theorem sent_mails_are_accounted_for
    (rt : PyRuntime) (sv : Services) (vendors : list Vendor.t) (pk : Z)
    (vendor_ids : pyval) (db db' : Database) (outbox outbox' : list Sent)
    (report : SendReport) :
  send_rfp_emails rt sv vendors pk vendor_ids db outbox = (Ok (SendOk report), db', outbox') ->
  exists rfp ids keys,
    rfp_by_id pk db = Some rfp /\ vendor_ids = PList ids /\ vendor_keys sv ids = Ok keys /\
    let found := requested keys vendors in
    let items := filter (fun i => RFPItem.rfp i =? RFP.id rfp) (rfp_items db) in
    outbox' =
      outbox ++ map (invitation_to (invitation_subject (py_str rt (RFP.title rfp)))
                       (email_body rt sv rfp items))
                  (filter (reachable sv) found) /\
    emails_sent report = List.length (filter (reachable sv) found) /\
    failed_vendors report = flat_map (failure_of sv) found /\
    (emails_sent report + List.length (failed_vendors report) = List.length found)%nat /\
    total_vendors report = List.length ids /\
    (if (0 <? emails_sent report)%nat
     then status_of_rfp report = SENT /\ db' = save_rfp (set_status rfp SENT) db /\
          rfp_by_id pk db' = Some (set_status rfp SENT)
     else status_of_rfp report = RFP.status rfp /\ db' = db).
Proof.
  unfold send_rfp_emails.
  destruct (rfp_by_id pk db) as [rfp|] eqn:R; [|discriminate].
  destruct vendor_ids as [| | | | |[|i ids]|]; try discriminate.
  destruct (vendor_keys sv (i :: ids)) as [keys|e] eqn:K; [|discriminate].
  fold (requested keys vendors).
  destruct (requested keys vendors) as [|v found] eqn:F; [discriminate|].
  cbv zeta. rewrite send_all_spec. cbn [app Nat.add].
  pose proof (failures_count sv (v :: found)) as C.
  set (fv := v :: found) in *.
  destruct (0 <? List.length (filter (reachable sv) fv))%nat eqn:P.
  - destruct (rfp_save_error sv (set_status rfp SENT)); [discriminate|].
    intros H. injection H as <- <- <-.
    exists rfp, (i :: ids), keys. cbv zeta. rewrite F. fold fv.
    cbn [emails_sent failed_vendors total_vendors status_of_rfp send_report].
    change (if reachable sv v then v :: filter (reachable sv) found
            else filter (reachable sv) found) with (filter (reachable sv) fv).
    change (failure_of sv v ++ flat_map (failure_of sv) found)
      with (flat_map (failure_of sv) fv).
    rewrite P. repeat split; auto.
    destruct (rfp_by_id_found pk db rfp R) as [_ <-]. now apply rfp_by_id_saved.
  - intros H. injection H as <- <- <-.
    exists rfp, (i :: ids), keys. cbv zeta. rewrite F. fold fv.
    cbn [emails_sent failed_vendors total_vendors status_of_rfp send_report].
    change (if reachable sv v then v :: filter (reachable sv) found
            else filter (reachable sv) found) with (filter (reachable sv) fv).
    change (failure_of sv v ++ flat_map (failure_of sv) found)
      with (flat_map (failure_of sv) fv).
    rewrite P. repeat split; auto.
Qed.

Lemma sent_mails_are_accounted_for_witness :
  exists report db' outbox',
    send_rfp_emails More.runtime More.services More.vendors 1
      (PList [PInt 3; PInt 4; PInt 4; PInt 99]) More.two_rfps [] =
      (Ok (SendOk report), db', outbox') /\
    total_vendors report = 4%nat /\
    (emails_sent report + List.length (failed_vendors report) = 2)%nat /\
    message report = py "Sent 1 emails, 1 failed".
Proof.
  eexists. eexists. eexists. split; [vm_compute; reflexivity|].
  match goal with
  | |- total_vendors ?r = _ /\ _ =>
      assert (H : exists db' outbox',
                send_rfp_emails More.runtime More.services More.vendors 1
                  (PList [PInt 3; PInt 4; PInt 4; PInt 99]) More.two_rfps [] =
                (Ok (SendOk r), db', outbox'))
        by (eexists; eexists; vm_compute; reflexivity)
  end.
  destruct H as (db' & outbox' & H).
  destruct (sent_mails_are_accounted_for _ _ _ _ _ _ _ _ _ _ H)
    as (rfp & ids & keys & _ & Hi & Hk & _ & _ & _ & Hsum & Ht & _).
  injection Hi as <-. injection Hk as <-.
  split; [exact Ht|]. split; [exact Hsum | vm_compute; reflexivity].
Defined.

(** X23. The status of an RFP changes only with a mail: whatever
    [send_rfp_emails] answers or raises, the mails handed over are added to
    the outbox; when none is added, and when the answer is not 200 (the RFP
    or the vendors are not found, [vendor_ids] is missing, empty or no
    list, or an error is raised), the store is as before; and in any case
    the items, the proposals and the ids of the RFPs are as before. *)
Theorem status_changes_only_with_a_mail
    (rt : PyRuntime) (sv : Services) (vendors : list Vendor.t) (pk : Z)
    (vendor_ids : pyval) (db db' : Database) (outbox outbox' : list Sent)
    (o : result SendResponse) :
  send_rfp_emails rt sv vendors pk vendor_ids db outbox = (o, db', outbox') ->
  (exists new, outbox' = outbox ++ new /\ (new = [] -> db' = db)) /\
  ((forall report, o <> Ok (SendOk report)) -> db' = db) /\
  rfp_items db' = rfp_items db /\ proposals db' = proposals db /\
  map RFP.id (rfps db') = map RFP.id (rfps db).
Proof.
  unfold send_rfp_emails.
  assert (Same : forall o',
            (o', db, outbox) = (o, db', outbox') ->
            (exists new, outbox' = outbox ++ new /\ (new = [] -> db' = db)) /\
            ((forall report, o <> Ok (SendOk report)) -> db' = db) /\
            rfp_items db' = rfp_items db /\ proposals db' = proposals db /\
            map RFP.id (rfps db') = map RFP.id (rfps db)).
  { intros o' H. injection H as _ <- <-. repeat split; auto.
    exists []. now rewrite app_nil_r. }
  destruct (rfp_by_id pk db) as [rfp|] eqn:R; [|apply Same].
  destruct vendor_ids as [| | | | |[|i ids]|]; try apply Same.
  destruct (vendor_keys sv (i :: ids)) as [keys|e]; [|apply Same].
  destruct (filter _ vendors) as [|v found]; [apply Same|].
  cbv zeta. rewrite send_all_spec. cbn [app Nat.add].
  remember (filter (reachable sv) (v :: found)) as ok eqn:Eok.
  remember (flat_map (failure_of sv) (v :: found)) as bad eqn:Ebad.
  clear Eok Ebad.
  destruct ok as [|m ok]; cbn [List.length Nat.ltb Nat.leb map].
  - rewrite app_nil_r. apply Same.
  - clear Same. destruct (rfp_save_error sv (set_status rfp SENT)).
    + intros H. injection H as <- <- <-. repeat split; auto.
      eexists. split; [reflexivity|]. discriminate.
    + intros H. injection H as <- <- <-. split; [|split; [|split; [|split]]].
      * eexists. split; [reflexivity|]. discriminate.
      * intros N. now destruct (N _ eq_refl).
      * reflexivity.
      * reflexivity.
      * unfold save_rfp. cbn [rfps]. rewrite map_map. apply map_ext.
        intros r. cbn [set_status RFP.id].
        destruct (RFP.id r =? RFP.id rfp) eqn:E; [|reflexivity].
        cbn [RFP.id]. symmetry. now apply Z.eqb_eq.
Qed.

Lemma status_changes_only_with_a_mail_witness :
  send_rfp_emails More.runtime More.services More.vendors 1 (PStr (py "3,4"))
    More.two_rfps [] =
    (Ok (SendError HTTP_400_BAD_REQUEST (py "vendor_ids is required and must be a list")),
     More.two_rfps, []) /\
  rfp_items More.two_rfps = rfp_items More.two_rfps.
Proof.
  assert (H : send_rfp_emails More.runtime More.services More.vendors 1
                (PStr (py "3,4")) More.two_rfps [] =
              (Ok (SendError HTTP_400_BAD_REQUEST
                     (py "vendor_ids is required and must be a list")),
               More.two_rfps, [])) by (vm_compute; reflexivity).
  split; [exact H|].
  exact (proj1 (proj2 (proj2 (status_changes_only_with_a_mail _ _ _ _ _ _ _ _ _ _ H)))).
Defined.

(* ===================================================================== *)
(** ** views.py: get_rfp_comparison *)
(* ===================================================================== *)

Section ComparisonFacts.

Context (rt : PyRuntime) (sv : Services) (vendors : list Vendor.t).

(** Rows with distinct keys keep distinct keys when some are left out. *)
Lemma distinct_keys_filtered {K} (key : Proposal.t -> K) (keep : Proposal.t -> bool)
    (rows : list Proposal.t) (D : NoDup (map key rows)) :
  NoDup (map key (filter keep rows)).
Proof.
  induction rows as [|row rows IH]; [exact D|].
  cbn [map filter] in D |- *. apply NoDup_cons_iff in D as [Hrow D].
  destruct (keep row); [|exact (IH D)].
  cbn [map]. apply NoDup_cons; [|exact (IH D)].
  intros Hin. apply Hrow, in_map_iff.
  apply in_map_iff in Hin as (x & E & Hx). exists x. split; [exact E|].
  now apply filter_In in Hx.
Qed.

Lemma NoDup_map_rev {A B} (f : A -> B) (l : list A) :
  NoDup (map f l) -> NoDup (map f (rev l)).
Proof. intros N. rewrite map_rev. now apply NoDup_rev. Qed.

Lemma vendors_of_one_rfp (c : Z) (l : list Proposal.t) :
  Forall (fun p => Proposal.rfp p = c) l ->
  NoDup (map pair_of l) -> NoDup (map Proposal.vendor l).
Proof.
  induction l as [|a l IH]; cbn [map]; intros F N; [constructor|].
  apply Forall_cons_iff in F as [Fa F]. apply NoDup_cons_iff in N as [Na N].
  constructor; [|auto].
  intros H. apply Na. apply in_map_iff in H as (x & E & Hx).
  apply in_map_iff. exists x. split; [|exact Hx].
  unfold pair_of. rewrite E, Fa.
  rewrite Forall_forall in F. now rewrite (F x Hx).
Qed.

Lemma preview_length (s : pystr) : (List.length (preview s) <= 203)%nat.
Proof.
  unfold preview. destruct (200 <? List.length s)%nat eqn:E.
  - rewrite length_app, length_firstn. change (List.length (py "...")) with 3%nat.
    pose proof (Nat.le_min_l 200 (List.length s)). lia.
  - apply Nat.ltb_ge in E. lia.
Qed.

Lemma proposal_data_entry (p : Proposal.t) (e : ProposalData.t) :
  In e (proposal_data rt sv vendors p) ->
  ProposalData.id e = Proposal.id p /\
  ProposalData.raw_email_content e = preview (Proposal.raw_email_content p) /\
  exists v, In v vendors /\ Vendor.id v = Proposal.vendor p /\
            ProposalData.vendor_email e = Vendor.email v.
Proof.
  unfold proposal_data.
  destruct (find _ vendors) as [v|] eqn:F; [|intros []].
  intros [<-|[]]. apply find_some in F as [Hin E]. apply Z.eqb_eq in E.
  cbn. split; [reflexivity|]. split; [reflexivity|]. exists v. auto.
Qed.

Lemma entries_distinct (l : list Proposal.t) :
  NoDup (map Vendor.email vendors) ->
  NoDup (map Proposal.id l) -> NoDup (map Proposal.vendor l) ->
  NoDup (map ProposalData.id (flat_map (proposal_data rt sv vendors) l)) /\
  NoDup (map ProposalData.vendor_email (flat_map (proposal_data rt sv vendors) l)).
Proof.
  intros NE. induction l as [|p l IH]; cbn [map flat_map]; intros N1 N2.
  - split; constructor.
  - apply NoDup_cons_iff in N1 as [A1 N1]. apply NoDup_cons_iff in N2 as [A2 N2].
    destruct (IH N1 N2) as [I1 I2].
    pose proof (proposal_data_entry p) as Hp.
    unfold proposal_data in Hp |- *.
    destruct (find _ vendors) as [v|] eqn:F; cbn [app map]; [|now split].
    split; constructor; auto; cbn.
    + intros H. apply in_map_iff in H as (e & E & He).
      apply in_flat_map in He as (q & Hq & He).
      destruct (proposal_data_entry q e He) as (Eid & _).
      apply A1. apply in_map_iff. exists q. split; [congruence | exact Hq].
    + intros H. apply in_map_iff in H as (e & E & He).
      apply in_flat_map in He as (q & Hq & He).
      destruct (proposal_data_entry q e He) as (_ & _ & v' & Hv' & Ev' & Em).
      apply find_some in F as [Hv Ev]. apply Z.eqb_eq in Ev.
      assert (v' = v).
      { apply (in_map_inj Vendor.email vendors v' v NE Hv' Hv). congruence. }
      subst v'. apply A2. apply in_map_iff. exists q. split; [congruence | exact Hq].
Qed.

Lemma entries_count (l : list Proposal.t) :
  (List.length (flat_map (proposal_data rt sv vendors) l) <= List.length l)%nat.
Proof.
  induction l as [|p l IH]; cbn [flat_map List.length]; [lia|].
  rewrite length_app. unfold proposal_data at 1.
  destruct (find _ vendors); cbn [List.length]; lia.
Qed.

End ComparisonFacts.

(** X24. The comparison lists each vendor once: on a proposal table that
    holds no key and no pair twice, with the addresses of the vendors
    distinct as their column demands, the entries of the answer 200 have
    distinct ids and distinct vendor addresses, [proposal_count] is their
    number and at most the number of proposals of the RFP, and the mail
    text of an entry has at most 203 characters. *)
Theorem comparison_lists_each_vendor_once
    (rt : PyRuntime) (sv : Services) (vendors : list Vendor.t) (rfp_id : Z)
    (db : Database) (rfp : RfpData.t) (entries : list ProposalData.t) (count : nat) :
  proposals_wf db ->
  NoDup (map Vendor.email vendors) ->
  get_rfp_comparison rt sv vendors rfp_id db = ComparisonOk rfp entries count ->
  count = List.length entries /\
  (count <=
   List.length (filter (fun p => (Proposal.rfp p =? rfp_id)%Z) (proposals db)))%nat /\
  NoDup (map ProposalData.id entries) /\
  NoDup (map ProposalData.vendor_email entries) /\
  Forall (fun e => (List.length (ProposalData.raw_email_content e) <= 203)%nat) entries.
Proof.
  intros W NE. unfold get_rfp_comparison.
  destruct (rfp_by_id rfp_id db) as [r|] eqn:R; [|discriminate].
  destruct (rfp_by_id_found rfp_id db r R) as [_ Eid]. rewrite Eid. cbv zeta.
  intros H. injection H as _ <- <-.
  set (l := filter (fun p => Proposal.rfp p =? rfp_id) (proposals db)).
  assert (N1 : NoDup (map Proposal.id (rev l))).
  { apply NoDup_map_rev, distinct_keys_filtered, (wf_keys W). }
  assert (N2 : NoDup (map Proposal.vendor (rev l))).
  { apply NoDup_map_rev, (vendors_of_one_rfp rfp_id).
    - apply Forall_forall. intros p Hp. apply filter_In in Hp as [_ E].
      now apply Z.eqb_eq.
    - apply distinct_keys_filtered, (wf_unique W). }
  destruct (entries_distinct rt sv vendors (rev l) NE N1 N2) as [D1 D2].
  split; [reflexivity|]. split.
  { rewrite <- (length_rev l). apply entries_count. }
  split; [exact D1|]. split; [exact D2|].
  apply Forall_forall. intros e He. apply in_flat_map in He as (q & _ & He).
  destruct (proposal_data_entry rt sv vendors q e He) as (_ & -> & _).
  apply preview_length.
Qed.

Lemma comparison_lists_each_vendor_once_witness :
  exists rfp entries,
    get_rfp_comparison More.runtime More.services More.vendors 2 More.compared_store =
      ComparisonOk rfp entries 1 /\
    map (fun e => List.length (ProposalData.raw_email_content e)) entries = [203%nat] /\
    NoDup (map ProposalData.vendor_email entries).
Proof.
  eexists. eexists. split; [vm_compute; reflexivity|].
  split; [vm_compute; reflexivity|].
  match goal with
  | |- NoDup (map _ ?l) =>
      assert (H : exists r,
                get_rfp_comparison More.runtime More.services More.vendors 2
                  More.compared_store = ComparisonOk r l 1)
        by (eexists; vm_compute; reflexivity)
  end.
  destruct H as (r & H).
  assert (W : proposals_wf More.compared_store).
  { constructor; vm_compute.
    - constructor; [intros [] | constructor].
    - constructor; [reflexivity | constructor].
    - constructor; [intros [] | constructor]. }
  assert (NE : NoDup (map Vendor.email More.vendors)).
  { repeat constructor; cbn; intuition discriminate. }
  destruct (comparison_lists_each_vendor_once _ _ _ _ _ _ _ _ W NE H)
    as (_ & _ & _ & D & _).
  exact D.
Defined.
